(** * iCORA intent MCP server and mock backend: a shallow embedding

    The development follows the two Python services of the repository:

    - [icoraintent-mcp-fastmcp_function-source/main.py]: the token manager
      ([CloudTokenManager]), the payload builder
      ([_build_cloud_intent_payload]) and the tools built on them;
    - [icoraintent-wiremock-fastapi_function-source/main.py]: the bearer
      check of the mock backend.

    Python objects that the code mutates or aliases (lists and dicts) live
    in an explicit store; values that are only read (parsed HTTP bodies, the
    cached token) are immutable JSON trees.  The outside world (the clock
    and the HTTP peers) is a pair of oracles. *)

From Stdlib Require Import ZArith String Ascii Lia.
From stdpp Require Import base tactics option list strings pretty.

Set Warnings "-register-all".

Local Open Scope string_scope.
Local Open Scope list_scope.
Local Open Scope Z_scope.

(** ** JSON trees *)

(** What [response.json()] returns and what [json=] sends.  Numbers are
    integers; the code below never computes on a fractional number. *)
Inductive json : Type :=
| JNull
| JBool (b : bool)
| JInt (z : Z)
| JStr (s : string)
| JArr (items : list json)
| JObj (fields : list (string * json)).

(** [d.get(k)] on a mapping kept in insertion order. *)
Fixpoint assoc {A : Type} (k : string) (l : list (string * A)) : option A :=
  match l with
  | [] => None
  | (k', v) :: l' => if String.eqb k k' then Some v else assoc k l'
  end.

(** [d[k] = v]: replaces in place when the key exists, appends otherwise. *)
Fixpoint assoc_set {A : Type} (k : string) (v : A) (l : list (string * A))
  : list (string * A) :=
  match l with
  | [] => [(k, v)]
  | (k', v') :: l' =>
      if String.eqb k k' then (k', v) :: l' else (k', v') :: assoc_set k v l'
  end.

(** Python truthiness of a parsed JSON value. *)
Definition json_truthy (j : json) : bool :=
  match j with
  | JNull => false
  | JBool b => b
  | JInt z => negb (Z.eqb z 0)
  | JStr s => negb (String.eqb s "")
  | JArr l => negb (Nat.eqb (length l) 0%nat)
  | JObj l => negb (Nat.eqb (length l) 0%nat)
  end.

(** ** Python values and the object store *)

(** Addresses are positions in the store. *)
Abbreviation loc := nat.

(** Immutable values are carried directly; lists and dicts are references
    into the store, so that two names for one list see each other's
    updates. *)
Inductive pyval : Type :=
| VNone
| VBool (b : bool)
| VInt (z : Z)
| VStr (s : string)
| VRef (l : loc).

#[global] Instance pyval_eq_dec : EqDecision pyval.
Proof. solve_decision. Defined.

Inductive pyobj : Type :=
| OList (items : list pyval)
| ODict (entries : list (string * pyval)).

Abbreviation heap := (list pyobj).

(** Exceptions.  [Exception msg] is the one the source raises itself;
    [SystemError] stands for a reference to no object, which no Python
    program can build. *)
Inductive exn : Type :=
| KeyError (key : string)
| TypeError
| AttributeError
| ValueError
| OverflowError
| SystemError
| TransportError (msg : string)
| HTTPStatusError (status : Z)
| JSONDecodeError
| Exception (msg : string).

Inductive result (A : Type) : Type :=
| Ok (a : A)
| Raise (e : exn).
Arguments Ok {A} a.
Arguments Raise {A} e.

(** ** State and exceptions

    [ST S A] is a computation over a state [S] that returns an [A] or
    raises; what it did to the state before raising stays done. *)
Definition ST (S A : Type) : Type := S -> result A * S.

Definition ret {S A} (a : A) : ST S A := fun s => (Ok a, s).

Definition raise {S A} (e : exn) : ST S A := fun s => (Raise e, s).

Definition bind {S A B} (m : ST S A) (k : A -> ST S B) : ST S B :=
  fun s =>
    match m s with
    | (Ok a, s') => k a s'
    | (Raise e, s') => (Raise e, s')
    end.

(** [try: m except Exception as e: handler(e)] *)
Definition catch {S A} (m : ST S A) (handler : exn -> ST S A) : ST S A :=
  fun s =>
    match m s with
    | (Ok a, s') => (Ok a, s')
    | (Raise e, s') => handler e s'
    end.

Declare Scope st_scope.
Delimit Scope st_scope with st.
Notation "'let*' x ':=' m 'in' k" := (bind m (fun x => k))
  (at level 10, x name, m at level 100, k at level 200) : st_scope.

(** ** Operations on the object store *)
Module Store.

Definition M (A : Type) : Type := ST heap A.

(** A fresh object gets the next free address. *)
Definition alloc (o : pyobj) : M pyval :=
  fun h => (Ok (VRef (length h)), h ++ [o]).

Definition new_dict (entries : list (string * pyval)) : M pyval :=
  alloc (ODict entries).

Definition new_list (items : list pyval) : M pyval :=
  alloc (OList items).

(** [bool(v)] *)
Definition truthy (v : pyval) : M bool :=
  fun h =>
    match v with
    | VNone => (Ok false, h)
    | VBool b => (Ok b, h)
    | VInt z => (Ok (negb (Z.eqb z 0)), h)
    | VStr s => (Ok (negb (String.eqb s "")), h)
    | VRef l =>
        match h !! l with
        | Some (OList items) => (Ok (negb (Nat.eqb (length items) 0%nat)), h)
        | Some (ODict entries) => (Ok (negb (Nat.eqb (length entries) 0%nat)), h)
        | None => (Raise SystemError, h)
        end
    end.

(** [v[k]] with a string key: only a dict can answer. *)
Definition getitem (v : pyval) (k : string) : M pyval :=
  fun h =>
    match v with
    | VRef l =>
        match h !! l with
        | Some (ODict entries) =>
            match assoc k entries with
            | Some x => (Ok x, h)
            | None => (Raise (KeyError k), h)
            end
        | Some (OList _) => (Raise TypeError, h)
        | None => (Raise SystemError, h)
        end
    | _ => (Raise TypeError, h)
    end.

(** [d.get(k)] on a dict: [None] when the key is missing. *)
Definition dict_get (d : pyval) (k : string) : M pyval :=
  fun h =>
    match d with
    | VRef l =>
        match h !! l with
        | Some (ODict entries) =>
            (Ok (default VNone (assoc k entries)), h)
        | Some (OList _) => (Raise AttributeError, h)
        | None => (Raise SystemError, h)
        end
    | _ => (Raise AttributeError, h)
    end.

(** [k in d] on a dict. *)
Definition dict_contains (d : pyval) (k : string) : M bool :=
  fun h =>
    match d with
    | VRef l =>
        match h !! l with
        | Some (ODict entries) => (Ok (bool_decide (is_Some (assoc k entries))), h)
        | Some (OList items) => (Ok (bool_decide (VStr k ∈ items)), h)
        | None => (Raise SystemError, h)
        end
    | _ => (Raise TypeError, h)
    end.

(** [d[k] = v] on a dict: updates the object every alias sees. *)
Definition setitem (d : pyval) (k : string) (v : pyval) : M unit :=
  fun h =>
    match d with
    | VRef l =>
        match h !! l with
        | Some (ODict entries) =>
            (Ok tt, <[l := ODict (assoc_set k v entries)]> h)
        | Some (OList _) => (Raise TypeError, h)
        | None => (Raise SystemError, h)
        end
    | _ => (Raise TypeError, h)
    end.

(** [v.append]: only a list has the method. *)
Definition bound_append (v : pyval) : M loc :=
  fun h =>
    match v with
    | VRef l =>
        match h !! l with
        | Some (OList _) => (Ok l, h)
        | Some (ODict _) => (Raise AttributeError, h)
        | None => (Raise SystemError, h)
        end
    | _ => (Raise AttributeError, h)
    end.

(** The call of the bound method: the list object itself grows, for
    every name that refers to it. *)
Definition list_append (l : loc) (x : pyval) : M unit :=
  fun h =>
    match h !! l with
    | Some (OList items) => (Ok tt, <[l := OList (items ++ [x])]> h)
    | _ => (Raise SystemError, h)
    end.

(** [for x in v]: the elements of a list, the keys of a dict, the
    characters of a string. *)
Definition iter (v : pyval) : M (list pyval) :=
  fun h =>
    match v with
    | VRef l =>
        match h !! l with
        | Some (OList items) => (Ok items, h)
        | Some (ODict entries) => (Ok (map (fun e => VStr (fst e)) entries), h)
        | None => (Raise SystemError, h)
        end
    | VStr s =>
        (Ok (map (fun c => VStr (String c EmptyString)) (list_ascii_of_string s)), h)
    | _ => (Raise TypeError, h)
    end.

(** [[f(x) for x in xs]] *)
Definition for_each {A B} (f : A -> M B) : list A -> M (list B) :=
  fix go (xs : list A) : M (list B) :=
    match xs with
    | [] => ret []
    | x :: xs' => bind (f x) (fun y => bind (go xs') (fun ys => ret (y :: ys)))
    end.

(** The object graph built by a JSON parser for a tree: every array and
    object is a fresh store object. *)
Fixpoint alloc_json (j : json) : M pyval :=
  match j with
  | JNull => ret VNone
  | JBool b => ret (VBool b)
  | JInt z => ret (VInt z)
  | JStr s => ret (VStr s)
  | JArr items => bind (for_each alloc_json items) new_list
  | JObj fields =>
      bind (for_each (fun kv => bind (alloc_json (snd kv))
                                     (fun v => ret (fst kv, v))) fields)
           new_dict
  end.

End Store.

(** What a JSON encoder reads from the store.  Each reference followed
    costs one unit of [fuel]; [json_encode] gives as much fuel as the store
    has objects, so running out means the graph is cyclic, where
    [json.dumps] raises. *)
Fixpoint reify (fuel : nat) (h : heap) (v : pyval) : option json :=
  match v with
  | VNone => Some JNull
  | VBool b => Some (JBool b)
  | VInt z => Some (JInt z)
  | VStr s => Some (JStr s)
  | VRef l =>
      match fuel with
      | O => None
      | S fuel' =>
          match h !! l with
          | Some (OList items) => JArr <$> mapM (reify fuel' h) items
          | Some (ODict entries) =>
              JObj <$> mapM (fun kv => pair (fst kv) <$> reify fuel' h (snd kv))
                            entries
          | None => None
          end
      end
  end.

Definition json_encode (h : heap) (v : pyval) : option json :=
  reify (length h) h v.

(** [v == "literal"]: only a string can equal a string. *)
Definition eq_str (v : pyval) (s : string) : bool :=
  match v with
  | VStr s' => String.eqb s' s
  | _ => false
  end.

(** ** The payload builder (main.py, [_build_cloud_intent_payload]) *)

Section Builder.
Import Store.
Local Open Scope st_scope.

Definition expression_context : list (string * pyval) :=
  [ ("icm", VStr "http://www.models.tmforum.org/tio/v1.0/IntentCommonModel#");
    ("cat", VStr "http://www.operator.com/Catalog#");
    ("idan", VStr "http://www.idan-tmforum-catalyst.org/IntentDrivenAutonomousNetworks#");
    ("geo", VStr "https://tmforum.org/2020/07/geographicPoint#") ].

Definition geo_point (point : pyval) : M pyval :=
  let* lon := getitem point "longitude" in
  let* lat := getitem point "latitude" in
  new_dict [("geo:longitude", lon); ("geo:latitude", lat)].

Definition _build_cloud_intent_payload (arguments : pyval) : M pyval :=
  let* name := getitem arguments "name" in
  let* description := getitem arguments "description" in
  let* de := getitem arguments "deliveryExpectations" in
  let* payload := new_dict [ ("name", name);
                             ("description", description);
                             ("type", VStr "Intent");
                             ("deliveryExpectations", de) ] in
  let* vf := dict_get arguments "validFor" in
  let* has_vf := truthy vf in
  let* _ := (if has_vf
             then let* v := getitem arguments "validFor" in
                  setitem payload "validFor" v
             else ret tt) in
  let* pe := dict_get arguments "propertyExpectations" in
  let* has_pe := truthy pe in
  let* _ := (if has_pe
             then let* v := getitem arguments "propertyExpectations" in
                  setitem payload "propertyExpectations" v
             else ret tt) in
  let* it := dict_get arguments "intentType" in
  let* _ :=
    (if eq_str it "EventLiveBroadcast"
     then
       let* context := new_dict expression_context in
       let* has_expectation := new_list [] in
       let* node := new_dict [ ("@type", VStr "icm:Intent");
                               ("icm:intentOwner", VStr "idan:ABCEvents");
                               ("icm:hasExpectation", has_expectation) ] in
       let* idan := new_dict [ ("EventLiveBroadcast", node) ] in
       let* expression := new_dict [ ("context", context); ("idan", idan) ] in
       let* _ := setitem payload "expression" expression in
       let* sa := dict_get arguments "serviceArea" in
       let* has_sa := truthy sa in
       if has_sa
       then
         let* area := getitem arguments "serviceArea" in
         let* points := iter area in
         let* geo := for_each geo_point points in
         let* geo_points := new_list geo in
         let* present := dict_contains payload "propertyExpectations" in
         let* _ := (if negb present
                    then let* fresh := new_list [] in
                         setitem payload "propertyExpectations" fresh
                    else ret tt) in
         let* target := getitem payload "propertyExpectations" in
         let* target_list := bound_append target in
         let* params := new_dict [ ("elb:areaOfService", geo_points) ] in
         let* entry := new_dict [ ("target", VStr "_:service");
                                  ("params", params) ] in
         list_append target_list entry
       else ret tt
     else ret tt) in
  ret payload.

End Builder.

(** ** The outside world: clock and HTTP *)

(** A naive [datetime]: microseconds since [datetime.min]
    (0001-01-01T00:00:00); [datetime.max] is the last microsecond of the
    year 9999. *)
Abbreviation datetime := Z.

Definition datetime_range : Z := 3652059 * 86400 * 1000000.

(** [timedelta(seconds=n)] for an integer [n], in microseconds; the library
    refuses more than 999999999 days either way. *)
Definition timedelta_seconds (n : Z) : result Z :=
  if (Z.leb (-999999999) (n / 86400)) && (Z.leb (n / 86400) 999999999)
  then Ok (n * 1000000)
  else Raise OverflowError.

(** [t + delta]: the sum has to be a date again. *)
Definition datetime_add (t : datetime) (delta : Z) : result datetime :=
  if (Z.leb 0 (t + delta)) && (Z.ltb (t + delta) datetime_range)
  then Ok (t + delta)
  else Raise OverflowError.

Inductive http_body : Type :=
| Form (data : list (string * string))
| Json (payload : json).

Record http_request : Type := {
  req_url : string;
  req_body : http_body;
  req_headers : list (string * string)
}.

(** [json_body] is what [response.json()] returns, [None] when the body
    is not JSON and the call raises. *)
Record http_response : Type := {
  status_code : Z;
  resp_headers : list (string * string);
  text : string;
  json_body : option json
}.

Inductive http_outcome : Type :=
| Response (r : http_response)
| Failed (e : exn).

(** What has happened so far: how often the clock was read, and the
    requests sent, oldest first. *)
Record io : Type := {
  io_reads : nat;
  io_log : list http_request
}.

(** [response.raise_for_status()]: any status outside 2xx raises. *)
Definition raise_for_status (r : http_response) : result unit :=
  if (Z.leb 200 (status_code r)) && (Z.leb (status_code r) 299)
  then Ok tt
  else Raise (HTTPStatusError (status_code r)).

Definition ascii_lower (c : ascii) : ascii :=
  let n := nat_of_ascii c in
  if (Nat.leb 65 n) && (Nat.leb n 90) then ascii_of_nat (n + 32) else c.

Fixpoint lower (s : string) : string :=
  match s with
  | EmptyString => EmptyString
  | String c s' => String (ascii_lower c) (lower s')
  end.

Fixpoint join (sep : string) (l : list string) : string :=
  match l with
  | [] => ""
  | [x] => x
  | x :: l' => x +:+ sep +:+ join sep l'
  end.

(** [response.headers.get(key, default)]: names compare without case, and
    a header sent several times reads as its values joined by commas. *)
Definition headers_get (hs : list (string * string)) (key default : string)
  : string :=
  match filter (fun kv => lower (fst kv) = lower key) hs with
  | [] => default
  | found => join ", " (map snd found)
  end.

(** [j[k]] on a parsed body. *)
Definition json_getitem (j : json) (k : string) : result json :=
  match j with
  | JObj fields =>
      match assoc k fields with
      | Some v => Ok v
      | None => Raise (KeyError k)
      end
  | _ => Raise TypeError
  end.

(** [j.get(k, default)] on a parsed body. *)
Definition json_get (j : json) (k : string) (dflt : json) : result json :=
  match j with
  | JObj fields => Ok (default dflt (assoc k fields))
  | _ => Raise AttributeError
  end.

(** [j - n]: integers subtract, and [True]/[False] count as 1/0. *)
Definition json_sub_int (j : json) (n : Z) : result Z :=
  match j with
  | JInt z => Ok (z - n)
  | JBool b => Ok (Z.b2z b - n)
  | _ => Raise TypeError
  end.

(** The first [n] characters of a UTF-8 string: continuation bytes stay
    with the character they belong to. *)
Definition is_continuation (c : ascii) : bool :=
  let n := nat_of_ascii c in (Nat.leb 128 n) && (Nat.ltb n 192).

Fixpoint utf8_take (n : nat) (s : string) : string :=
  match s with
  | EmptyString => EmptyString
  | String c s' =>
      if is_continuation c then String c (utf8_take n s')
      else match n with
           | O => EmptyString
           | S n' => String c (utf8_take n' s')
           end
  end.

(** [j[:n]] *)
Definition json_slice (j : json) (n : nat) : result json :=
  match j with
  | JStr s => Ok (JStr (utf8_take n s))
  | JArr items => Ok (JArr (take n items))
  | _ => Raise TypeError
  end.

Definition newline : string := String (ascii_of_nat 10) EmptyString.

(** The markers the tools put in front of their answers, as the source
    file spells them. *)
Definition cross_mark : string := "‚ùå".
Definition check_mark : string := "‚úÖ".
Definition pin_mark : string := "üìç".
Definition page_mark : string := "üìÑ".

(** An answer is an error answer when it starts with the cross mark. *)
Definition is_error_text (s : string) : bool :=
  String.prefix cross_mark s.

Definition is_success_text (s : string) : bool :=
  String.prefix check_mark s.

(** ** The token manager (main.py, [CloudTokenManager]) *)

(** [auth_config]: both places that build it set the five keys; [scope] is
    the only optional one. *)
Record AuthConfig : Type := {
  token_url : string;
  client_id : string;
  client_secret : string;
  username : string;
  password : string;
  scope : option string
}.

(** [token] is [JNull] for Python's [None]. *)
Record CloudTokenManager : Type := {
  auth_config : AuthConfig;
  token : json;
  token_expiry : option datetime
}.

(** [CloudTokenManager(auth_config)] *)
Definition new_manager (cfg : AuthConfig) : CloudTokenManager :=
  {| auth_config := cfg; token := JNull; token_expiry := None |}.

Definition set_token (self : CloudTokenManager) (t : json) : CloudTokenManager :=
  {| auth_config := auth_config self; token := t;
     token_expiry := token_expiry self |}.

Definition set_token_expiry (self : CloudTokenManager) (t : datetime)
  : CloudTokenManager :=
  {| auth_config := auth_config self; token := token self;
     token_expiry := Some t |}.

Definition token_request (cfg : AuthConfig) : http_request :=
  {| req_url := token_url cfg;
     req_body :=
       Form ([ ("grant_type", "password");
               ("username", username cfg);
               ("password", password cfg);
               ("client_id", client_id cfg);
               ("client_secret", client_secret cfg) ]
             ++ match scope cfg with
                | Some s => [("scope", s)]
                | None => []
                end);
     req_headers := [("Content-Type", "application/x-www-form-urlencoded")] |}.

Section World.

(** [clock n] is the answer to read number [n] of [datetime.now()];
    [http n req] is what comes back for request number [n]. *)
Variable clock : nat -> datetime.
Variable http : nat -> http_request -> http_outcome.

(** [str(e)] for the exceptions of the interpreter and of the libraries,
    [str(v)] for a value that is not a string, and
    [json.dumps(v, indent=2)]: texts fixed by Python, not by this
    program. *)
Variable exn_text : exn -> string.
Variable value_text : json -> string.
Variable json_dumps_indent2 : json -> string.

(** [str(e)] *)
Definition str_exn (e : exn) : string :=
  match e with
  | Exception msg => msg
  | _ => exn_text e
  end.

(** [{v}] inside an f-string *)
Definition format_value (v : json) : string :=
  match v with
  | JStr s => s
  | _ => value_text v
  end.

(** The state a method of the manager works on. *)
Definition mstate : Type := CloudTokenManager * io.

Definition now : ST io datetime :=
  fun s => (Ok (clock (io_reads s)),
            {| io_reads := S (io_reads s); io_log := io_log s |}).

Definition post (req : http_request) : ST io http_response :=
  fun s =>
    let s' := {| io_reads := io_reads s; io_log := io_log s ++ [req] |} in
    match http (length (io_log s)) req with
    | Response r => (Ok r, s')
    | Failed e => (Raise e, s')
    end.

Definition lift_io {A} (m : ST io A) : ST mstate A :=
  fun '(self, s) => let '(r, s') := m s in (r, (self, s')).

Definition lift_result {S A} (r : result A) : ST S A := fun s => (r, s).

Definition self_get : ST mstate CloudTokenManager :=
  fun '(self, s) => (Ok self, (self, s)).

Definition self_update (f : CloudTokenManager -> CloudTokenManager)
  : ST mstate unit :=
  fun '(self, s) => (Ok tt, (f self, s)).

Local Open Scope st_scope.

Definition _refresh_access_token : ST mstate unit :=
  let* self := self_get in
  let request := token_request (auth_config self) in
  catch
    (let* response := lift_io (post request) in
     let* _ := lift_result (raise_for_status response) in
     let* token_data :=
       match json_body response with
       | Some j => ret j
       | None => raise JSONDecodeError
       end in
     let* access_token := lift_result (json_getitem token_data "access_token") in
     let* _ := self_update (fun self => set_token self access_token) in
     let* granted := lift_result (json_get token_data "expires_in" (JInt 3600)) in
     let* expires_in := lift_result (json_sub_int granted 30) in
     let* t := lift_io now in
     let* delta := lift_result (timedelta_seconds expires_in) in
     let* expiry := lift_result (datetime_add t delta) in
     self_update (fun self => set_token_expiry self expiry))
    (fun e => raise (Exception ("Cloud authentication failed: " +:+ str_exn e))).

Definition get_valid_token : ST mstate json :=
  let* self := self_get in
  let* fresh_enough :=
    if json_truthy (token self)
    then match token_expiry self with
         | Some expiry =>
             let* t := lift_io now in ret (Z.ltb t expiry)
         | None => ret false
         end
    else ret false in
  if fresh_enough
  then ret (token self)
  else
    let* _ := _refresh_access_token in
    let* self := self_get in
    ret (token self).

(** *** The tools (main.py, [icoraintent_*]) *)

(** The module's globals, the store and the outside world. *)
Record world : Type := {
  w_heap : heap;
  w_io : io;
  w_token_manager : option CloudTokenManager;
  w_base_url : string
}.

Definition lift_heap {A} (m : Store.M A) : ST world A :=
  fun w =>
    let '(r, h) := m (w_heap w) in
    (r, {| w_heap := h; w_io := w_io w;
           w_token_manager := w_token_manager w;
           w_base_url := w_base_url w |}).

Definition lift_world_io {A} (m : ST io A) : ST world A :=
  fun w =>
    let '(r, s) := m (w_io w) in
    (r, {| w_heap := w_heap w; w_io := s;
           w_token_manager := w_token_manager w;
           w_base_url := w_base_url w |}).

(** A method call on the object the global [token_manager] names. *)
Definition call_manager {A} (m : ST mstate A) : ST world A :=
  fun w =>
    match w_token_manager w with
    | None => (Raise AttributeError, w)
    | Some self =>
        let '(r, (self', s)) := m (self, w_io w) in
        (r, {| w_heap := w_heap w; w_io := s;
               w_token_manager := Some self';
               w_base_url := w_base_url w |})
    end.

Definition global_token_manager : ST world (option CloudTokenManager) :=
  fun w => (Ok (w_token_manager w), w).

Definition global_base_url : ST world string :=
  fun w => (Ok (w_base_url w), w).

Definition set_globals (url : string) (m : CloudTokenManager) : ST world unit :=
  fun w => (Ok tt, {| w_heap := w_heap w; w_io := w_io w;
                      w_token_manager := Some m; w_base_url := url |}).

(** The body httpx sends for [json=v]: the object graph as it is when
    the request is built. *)
Definition encode_body (v : pyval) : ST world json :=
  fun w =>
    match json_encode (w_heap w) v with
    | Some j => (Ok j, w)
    | None => (Raise ValueError, w)
    end.

Definition not_configured_text : string :=
  cross_mark +:+ " Cloud authentication not configured. Use icoraintent_configure_cloud_auth first.".

Definition icoraintent_configure_cloud_auth
    (wiremockUrl clientId clientSecret username password : string)
    (scope : option string) : ST world string :=
  catch
    (let token_url :=
       wiremockUrl +:+ "/auth/keycloak_realm/protocol/openid-connect/token" in
     let auth_config :=
       {| token_url := token_url;
          client_id := clientId;
          client_secret := clientSecret;
          username := username;
          password := password;
          scope := match scope with
                   | Some s => if String.eqb s "" then None else Some s
                   | None => None
                   end |} in
     let* _ := set_globals wiremockUrl (new_manager auth_config) in
     ret (check_mark
          +:+ " iCORA Intent TMF921 cloud authentication configured for: "
          +:+ wiremockUrl))
    (fun e => ret (cross_mark +:+ " Cloud configuration error: " +:+ str_exn e)).

Definition icoraintent_test_cloud_auth : ST world string :=
  catch
    (let* tm := global_token_manager in
     match tm with
     | None => ret not_configured_text
     | Some _ =>
         let* token := call_manager get_valid_token in
         let* preview := lift_result (json_slice token 20) in
         ret (check_mark +:+ " Cloud authentication successful! Token: "
              +:+ format_value preview +:+ "...")
     end)
    (fun e => ret (cross_mark +:+ " Cloud authentication test failed: "
                   +:+ str_exn e)).

(** The list the tool puts in when the caller gave no delivery
    expectations: three fresh objects. *)
Definition default_delivery_expectations : Store.M pyval :=
  let* params := Store.new_dict [ ("targetDescription", VStr "cat:EventWirelessAccess") ] in
  let* entry := Store.new_dict [ ("target", VStr "_:service"); ("params", params) ] in
  Store.new_list [ entry ].

Definition intent_request (url : string) (token : json) (body : json)
  : http_request :=
  {| req_url := url;
     req_body := Json body;
     req_headers := [ ("Authorization", "Bearer " +:+ format_value token);
                      ("Content-Type", "application/json") ] |}.

Definition intent_created_text (location : string) (result : json) : string :=
  check_mark +:+ " Cloud intent created successfully!" +:+ newline
  +:+ pin_mark +:+ " Location: " +:+ location +:+ newline
  +:+ page_mark +:+ " Response: " +:+ json_dumps_indent2 result.

Definition intent_failed_text (status : Z) (body : string) : string :=
  cross_mark +:+ " Cloud intent creation failed: " +:+ pretty status
  +:+ " - " +:+ body.

Definition icoraintent_create_cloud_intent
    (name description intentType deliveryExpectations serviceArea validFor
       propertyExpectations : pyval) : ST world string :=
  catch
    (let* tm := global_token_manager in
     match tm with
     | None => ret not_configured_text
     | Some _ =>
         let* given := lift_heap (Store.truthy deliveryExpectations) in
         let* deliveryExpectations :=
           if given then ret deliveryExpectations
           else lift_heap default_delivery_expectations in
         let* token := call_manager get_valid_token in
         let* arguments :=
           lift_heap
             (Store.new_dict [ ("name", name);
                               ("description", description);
                               ("intentType", intentType);
                               ("deliveryExpectations", deliveryExpectations);
                               ("serviceArea", serviceArea);
                               ("validFor", validFor);
                               ("propertyExpectations", propertyExpectations) ]) in
         let* intent_payload := lift_heap (_build_cloud_intent_payload arguments) in
         let* base := global_base_url in
         let intent_url := base +:+ "/intent/" in
         let* body := encode_body intent_payload in
         let* response := lift_world_io (post (intent_request intent_url token body)) in
         if Z.eqb (status_code response) 201
         then
           let* result :=
             match json_body response with
             | Some j => ret j
             | None => raise JSONDecodeError
             end in
           let location := headers_get (resp_headers response) "location" "N/A" in
           ret (intent_created_text location result)
         else
           ret (intent_failed_text (status_code response) (text response))
     end)
    (fun e => ret (cross_mark +:+ " Error creating cloud intent: " +:+ str_exn e)).

(** [_initialize_from_env]: what the module's globals are after import,
    from the environment variables. *)
Definition _initialize_from_env
    (WIREMOCK_FUNCTION_URL OAUTH_CLIENT_ID OAUTH_CLIENT_SECRET
       OAUTH_USERNAME OAUTH_PASSWORD : string) : world :=
  let blank := {| w_heap := []; w_io := {| io_reads := 0; io_log := [] |};
                  w_token_manager := None; w_base_url := "" |} in
  if negb (String.eqb WIREMOCK_FUNCTION_URL "")
     && negb (String.eqb WIREMOCK_FUNCTION_URL "https://YOUR_WIREMOCK_FUNCTION_URL")
  then
    {| w_heap := []; w_io := {| io_reads := 0; io_log := [] |};
       w_token_manager :=
         Some (new_manager
                 {| token_url := WIREMOCK_FUNCTION_URL
                                 +:+ "/auth/keycloak_realm/protocol/openid-connect/token";
                    client_id := OAUTH_CLIENT_ID;
                    client_secret := OAUTH_CLIENT_SECRET;
                    username := OAUTH_USERNAME;
                    password := OAUTH_PASSWORD;
                    scope := None |});
       w_base_url := WIREMOCK_FUNCTION_URL |}
  else blank.

End World.

(** ** The mock backend (icoraintent-wiremock-fastapi_function-source/main.py) *)
Module Wiremock.

(** [HTTPException(status_code, detail)] *)
Record HTTPException : Type := {
  exc_status : Z;
  exc_detail : json
}.

Definition unauthorized_detail : json :=
  JObj [ ("error", JStr "unauthorized");
         ("error_description", JStr "Bearer token required") ].

(** [s.startswith(p)] *)
Definition startswith (s p : string) : bool := String.prefix p s.

(** [not authorization]: the header is missing or empty. *)
Definition header_falsy (authorization : option string) : bool :=
  match authorization with
  | None => true
  | Some a => String.eqb a ""
  end.

(** [not h or not h.startswith("Bearer ")]; the second test is only
    made on a header that is there. *)
Definition bearer_missing (h : option string) : bool :=
  header_falsy h
  || negb (match h with
           | Some a => startswith a "Bearer "
           | None => false
           end).

(** The FastAPI dependency of [POST /intent/]: it raises, or hands the
    header on as it came. *)
Definition validate_bearer_token (authorization : option string)
  : HTTPException + string :=
  if bearer_missing authorization
  then inl {| exc_status := 401; exc_detail := unauthorized_detail |}
  else match authorization with
       | Some a => inr a
       | None => inl {| exc_status := 401; exc_detail := unauthorized_detail |}
       end.

(** What the entry point returns: body, status, extra headers. *)
Record reply : Type := {
  reply_body : json;
  reply_status : Z;
  reply_headers : list (string * string)
}.

(** The branch of [icoraintent_wiremock_function] for [POST /intent/].
    [auth_header] is [request.headers.get('Authorization')]; [created] is
    how the [try] block ends: the body and [Location] of the new intent,
    or the text of the exception it raised. *)
Definition create_intent_branch (auth_header : option string)
    (created : string + json * string) : reply :=
  if bearer_missing auth_header
  then {| reply_body := unauthorized_detail; reply_status := 401;
          reply_headers := [] |}
  else
    match created with
    | inr (response_data, location) =>
        {| reply_body := response_data; reply_status := 201;
           reply_headers := [ ("Location", location) ] |}
    | inl description =>
        {| reply_body := JObj [ ("error", JStr "validation_error");
                                ("error_description", JStr description) ];
           reply_status := 400; reply_headers := [] |}
    end.

End Wiremock.

(** * Vocabulary of the statements *)

Local Open Scope nat_scope.

(** ** Reading the store *)

Definition is_dict (h : heap) (v : pyval) (entries : list (string * pyval)) : Prop :=
  exists l, v = VRef l /\ h !! l = Some (ODict entries).

Definition is_list (h : heap) (v : pyval) (items : list pyval) : Prop :=
  exists l, v = VRef l /\ h !! l = Some (OList items).

(** [bool(v)] as a function of the store; [None] for a reference to
    nothing. *)
Definition truthy_in (h : heap) (v : pyval) : option bool :=
  match v with
  | VNone => Some false
  | VBool b => Some b
  | VInt z => Some (negb (Z.eqb z 0))
  | VStr s => Some (negb (String.eqb s ""))
  | VRef l =>
      match h !! l with
      | Some (OList items) => Some (negb (Nat.eqb (length items) 0))
      | Some (ODict entries) => Some (negb (Nat.eqb (length entries) 0))
      | None => None
      end
  end.

(** ** Stores without dangling references

    Every store a Python program can build is [closed]: what an object
    refers to exists. *)

Definition val_ok (n : nat) (v : pyval) : bool :=
  match v with
  | VRef l => Nat.ltb l n
  | _ => true
  end.

Definition obj_ok (n : nat) (o : pyobj) : bool :=
  match o with
  | OList items => forallb (val_ok n) items
  | ODict entries => forallb (fun kv => val_ok n (snd kv)) entries
  end.

Definition closed (h : heap) : bool := forallb (obj_ok (length h)) h.

(** ** What a run of the builder leaves in the store *)

(** [arguments.get(k)] *)
Definition arg (args : list (string * pyval)) (k : string) : pyval :=
  default VNone (assoc k args).

(** The entry for an optional field: copied when its value is truthy. *)
Definition copied (h : heap) (args : list (string * pyval)) (k : string)
  : list (string * pyval) :=
  match truthy_in h (arg args k) with
  | Some true => [(k, arg args k)]
  | _ => []
  end.

Definition first_entries (h : heap) (args : list (string * pyval))
  : list (string * pyval) :=
  [ ("name", arg args "name");
    ("description", arg args "description");
    ("type", VStr "Intent");
    ("deliveryExpectations", arg args "deliveryExpectations") ]
  ++ copied h args "validFor" ++ copied h args "propertyExpectations".

(** The five objects of the expression, the first at address [n], the
    expression itself at [n + 4]. *)
Definition expression_objects (n : nat) : list pyobj :=
  [ ODict expression_context;
    OList [];
    ODict [ ("@type", VStr "icm:Intent");
            ("icm:intentOwner", VStr "idan:ABCEvents");
            ("icm:hasExpectation", VRef (n + 1)) ];
    ODict [ ("EventLiveBroadcast", VRef (n + 2)) ];
    ODict [ ("context", VRef n); ("idan", VRef (n + 3)) ] ].

Definition is_elb (args : list (string * pyval)) : bool :=
  eq_str (arg args "intentType") "EventLiveBroadcast".

(** A point of the service area with its two coordinates. *)
Definition coords_of (h : heap) (point : pyval) (c : pyval * pyval) : Prop :=
  exists d, is_dict h point d
            /\ assoc "longitude" d = Some (fst c)
            /\ assoc "latitude" d = Some (snd c).

Definition geo_object (c : pyval * pyval) : pyobj :=
  ODict [("geo:longitude", fst c); ("geo:latitude", snd c)].

(** The four ways a run of the builder can end with a payload: the
    payload and the store it leaves. *)
Inductive built (h : heap) (args : list (string * pyval))
  : pyval -> heap -> Prop :=
| built_plain :
    is_elb args = false ->
    built h args (VRef (length h)) (h ++ [ODict (first_entries h args)])
| built_expression :
    is_elb args = true ->
    truthy_in h (arg args "serviceArea") = Some false ->
    built h args (VRef (length h))
      (h ++ ODict (first_entries h args ++ [("expression", VRef (length h + 5))])
         :: expression_objects (length h + 1))
| built_area_appended pts coords lpe items :
    is_elb args = true ->
    truthy_in h (arg args "serviceArea") = Some true ->
    is_list h (arg args "serviceArea") pts ->
    Forall2 (coords_of h) pts coords ->
    arg args "propertyExpectations" = VRef lpe ->
    h !! lpe = Some (OList items) ->
    items <> [] ->
    built h args (VRef (length h))
      (<[lpe := OList (items ++ [VRef (length h + 8 + length coords)])]> h
         ++ ODict (first_entries h args ++ [("expression", VRef (length h + 5))])
         :: expression_objects (length h + 1)
         ++ map geo_object coords
         ++ [ OList (map VRef (seq (length h + 6) (length coords)));
              ODict [ ("elb:areaOfService", VRef (length h + 6 + length coords)) ];
              ODict [ ("target", VStr "_:service");
                      ("params", VRef (length h + 7 + length coords)) ] ])
| built_area_fresh pts coords :
    is_elb args = true ->
    truthy_in h (arg args "serviceArea") = Some true ->
    is_list h (arg args "serviceArea") pts ->
    Forall2 (coords_of h) pts coords ->
    truthy_in h (arg args "propertyExpectations") = Some false ->
    built h args (VRef (length h))
      (h ++ ODict (first_entries h args
                   ++ [ ("expression", VRef (length h + 5));
                        ("propertyExpectations", VRef (length h + 7 + length coords)) ])
         :: expression_objects (length h + 1)
         ++ map geo_object coords
         ++ [ OList (map VRef (seq (length h + 6) (length coords)));
              OList [ VRef (length h + 9 + length coords) ];
              ODict [ ("elb:areaOfService", VRef (length h + 6 + length coords)) ];
              ODict [ ("target", VStr "_:service");
                      ("params", VRef (length h + 8 + length coords)) ] ]).

(** Lengths of the stores above, as sums. *)
Ltac heap_len :=
  repeat first [ rewrite length_app | rewrite length_map
               | rewrite length_insert
               | progress (cbn [length expression_objects]) ];
  try lia.

(** ** The payload as JSON *)

(** The expression the builder adds for an event live broadcast, as a JSON
    encoder reads it. *)
Definition expression_json : json :=
  JObj [ ("context",
          JObj [ ("icm", JStr "http://www.models.tmforum.org/tio/v1.0/IntentCommonModel#");
                 ("cat", JStr "http://www.operator.com/Catalog#");
                 ("idan", JStr "http://www.idan-tmforum-catalyst.org/IntentDrivenAutonomousNetworks#");
                 ("geo", JStr "https://tmforum.org/2020/07/geographicPoint#") ]);
         ("idan",
          JObj [ ("EventLiveBroadcast",
                  JObj [ ("@type", JStr "icm:Intent");
                         ("icm:intentOwner", JStr "idan:ABCEvents");
                         ("icm:hasExpectation", JArr []) ]) ]) ].

(** The default delivery expectations, as JSON. *)
Definition default_delivery_json : json :=
  JArr [ JObj [ ("target", JStr "_:service");
                ("params", JObj [ ("targetDescription", JStr "cat:EventWirelessAccess") ]) ] ].

(** The fields of a JSON object. *)
Definition json_fields (j : json) : list (string * json) :=
  match j with
  | JObj fields => fields
  | _ => []
  end.

(** Field [k] of the payload [p], as a JSON encoder reads it from [h]. *)
Definition payload_field (h : heap) (p : pyval) (k : string) : option json :=
  match json_encode h p with
  | Some (JObj fields) => assoc k fields
  | _ => None
  end.

(** The expression with the keys [@context] and [idan:EventLiveBroadcast]. *)
Definition has_at_context_shape (expression : json) : Prop :=
  exists context node,
    assoc "@context" (json_fields expression) = Some (JObj context)
    /\ map fst context = ["icm"; "cat"; "idan"; "geo"]
    /\ assoc "idan:EventLiveBroadcast" (json_fields expression) = Some (JObj node)
    /\ assoc "@type" node = Some (JStr "icm:Intent")
    /\ is_Some (assoc "icm:intentOwner" node)
    /\ assoc "icm:hasExpectation" node = Some (JArr []).

(** What the caller's [propertyExpectations] contributes to the folded
    list: nothing when the field is missing or [None], its items when it
    is a list. *)
Inductive pe_items (h : heap) : pyval -> list pyval -> Prop :=
| pe_absent : pe_items h VNone []
| pe_list l items : h !! l = Some (OList items) -> pe_items h (VRef l) items.

(** The service area is folded in when the intent is an event live
    broadcast and the area is truthy. *)
Definition folds_area (h : heap) (args : list (string * pyval)) : bool :=
  is_elb args
  && match truthy_in h (arg args "serviceArea") with
     | Some true => true
     | _ => false
     end.

(** ** Example requests *)

(** The store a JSON parser builds for a request, and the address of the
    request in it. *)
Definition request_store (request : json) : heap :=
  snd (Store.alloc_json request []).

Definition request_ref (request : json) : pyval :=
  match fst (Store.alloc_json request []) with
  | Ok v => v
  | Raise _ => VNone
  end.

Definition request_args (request : json) : list (string * pyval) :=
  match request_ref request with
  | VRef l =>
      match request_store request !! l with
      | Some (ODict entries) => entries
      | _ => []
      end
  | _ => []
  end.

Definition broadcast_request : json :=
  JObj [ ("name", JStr "Match day");
         ("description", JStr "Stadium broadcast");
         ("intentType", JStr "EventLiveBroadcast");
         ("deliveryExpectations", JArr [ JObj [ ("target", JStr "_:service");
                                               ("params", JObj []) ] ]);
         ("serviceArea", JArr [ JObj [ ("longitude", JInt 10);
                                       ("latitude", JInt 20) ] ]);
         ("validFor", JNull);
         ("propertyExpectations", JNull) ].

(** The same request for another intent type. *)
Definition conference_request : json :=
  JObj [ ("name", JStr "Board meeting");
         ("description", JStr "Video conference");
         ("intentType", JStr "VideoConference");
         ("deliveryExpectations", JArr [ JObj [ ("target", JStr "_:service");
                                               ("params", JObj []) ] ]);
         ("serviceArea", JArr [ JObj [ ("longitude", JInt 10);
                                       ("latitude", JInt 20) ] ]);
         ("validFor", JNull);
         ("propertyExpectations", JNull) ].

(** A request whose optional fields are there but empty. *)
Definition empty_fields_request : json :=
  JObj [ ("name", JStr "Board meeting");
         ("description", JStr "Video conference");
         ("intentType", JStr "VideoConference");
         ("deliveryExpectations", JArr [ JObj [ ("target", JStr "_:service");
                                               ("params", JObj []) ] ]);
         ("serviceArea", JNull);
         ("validFor", JObj []);
         ("propertyExpectations", JArr []) ].

(** A conference request that brings a validity period and property
    expectations. *)
Definition scheduled_request : json :=
  JObj [ ("name", JStr "Board meeting");
         ("description", JStr "Video conference");
         ("intentType", JStr "VideoConference");
         ("deliveryExpectations", JArr [ JObj [ ("target", JStr "_:service");
                                               ("params", JObj []) ] ]);
         ("serviceArea", JArr [ JObj [ ("longitude", JInt 10);
                                       ("latitude", JInt 20) ] ]);
         ("validFor", JObj [ ("startDateTime", JStr "2025-06-11T00:00:00");
                             ("endDateTime", JStr "2025-06-12T00:00:00") ]);
         ("propertyExpectations",
          JArr [ JObj [ ("target", JStr "_:service");
                        ("params", JObj [ ("latency", JInt 5) ]) ] ]) ].

(** A broadcast request that brings property expectations of its own. *)
Definition latency_request : json :=
  JObj [ ("name", JStr "Match day");
         ("description", JStr "Stadium broadcast");
         ("intentType", JStr "EventLiveBroadcast");
         ("deliveryExpectations", JArr [ JObj [ ("target", JStr "_:service");
                                               ("params", JObj []) ] ]);
         ("serviceArea", JArr [ JObj [ ("longitude", JInt 10);
                                       ("latitude", JInt 20) ] ]);
         ("validFor", JNull);
         ("propertyExpectations",
          JArr [ JObj [ ("target", JStr "_:service");
                        ("params", JObj [ ("latency", JInt 5) ]) ] ]) ].

(** The payload of two calls in a row on the same arguments object, and
    the arguments as they are after the first call. *)
Definition build_twice (request : json)
  : option json * option json * option json :=
  match _build_cloud_intent_payload (request_ref request) (request_store request) with
  | (Ok p1, h1) =>
      match _build_cloud_intent_payload (request_ref request) h1 with
      | (Ok p2, h2) =>
          (json_encode h1 p1, json_encode h2 p2, json_encode h1 (request_ref request))
      | _ => (None, None, None)
      end
  | _ => (None, None, None)
  end.

(** The number of items of the array in field [k] of a JSON object. *)
Definition field_length (j : option json) (k : string) : option nat :=
  match j with
  | Some (JObj fields) =>
      match assoc k fields with
      | Some (JArr items) => Some (length items)
      | _ => None
      end
  | _ => None
  end.

(** ** The token manager: vocabulary and examples *)

Local Open Scope Z_scope.

(** [n] seconds in the unit of [datetime]. *)
Definition seconds (n : Z) : Z := n * 1000000.

(** A token is cached when [self.token] is not [None]. *)
Definition token_cached (self : CloudTokenManager) : bool :=
  match token self with
  | JNull => false
  | _ => true
  end.

(** The time [t] is strictly before the expiry. *)
Definition unexpired (self : CloudTokenManager) (t : datetime) : bool :=
  match token_expiry self with
  | Some expiry => Z.ltb t expiry
  | None => false
  end.

(** What [get_valid_token] tests: the token is truthy, there is an expiry,
    and the clock, which is only read when both hold, is before it. *)
Definition still_valid (clock : nat -> datetime) (self : CloudTokenManager) (s : io)
  : bool :=
  json_truthy (token self) && unexpired self (clock (io_reads s)).

(** The state of the world once the clock has been read. *)
Definition tick (s : io) : io :=
  {| io_reads := S (io_reads s); io_log := io_log s |}.

(** The state of the world after the test of [get_valid_token]: the clock
    is read only for a truthy token with an expiry. *)
Definition checked (self : CloudTokenManager) (s : io) : io :=
  if json_truthy (token self)
  then match token_expiry self with
       | Some _ => tick s
       | None => s
       end
  else s.

(** C1 in the spec's words, for one call: the cached token and no request
    when a token is cached and unexpired, otherwise one token request and
    the token that is stored afterwards. *)
Definition get_valid_token_as_stated
    (clock : nat -> datetime) (http : nat -> http_request -> http_outcome)
    (exn_text : exn -> string) (self : CloudTokenManager) (s : io) : Prop :=
  let '(r, (self', s')) := get_valid_token clock http exn_text (self, s) in
  if token_cached self && unexpired self (clock (io_reads s))
  then r = Ok (token self) /\ io_log s' = io_log s
  else r = Ok (token self')
       /\ io_log s' = io_log s ++ [token_request (auth_config self)].

Definition example_config : AuthConfig :=
  {| token_url := "https://mock/auth/keycloak_realm/protocol/openid-connect/token";
     client_id := "test-client";
     client_secret := "test-secret";
     username := "test-user";
     password := "test-password";
     scope := None |}.

Definition example_clock (n : nat) : datetime := seconds (1000 + Z.of_nat n).

Definition token_response : http_response :=
  {| status_code := 200;
     resp_headers := [];
     text := "";
     json_body := Some (JObj [ ("access_token", JStr "cloud_mock_token_1");
                               ("expires_in", JInt 3600);
                               ("token_type", JStr "Bearer") ]) |}.

(** A backend that answers every token request, and every intent with
    [status] and [body]. *)
Definition example_http (intent_answer : http_response) (n : nat) (req : http_request)
  : http_outcome :=
  match req_body req with
  | Form _ => Response token_response
  | Json _ => Response intent_answer
  end.

(** A backend that cannot be reached. *)
Definition unreachable_http (n : nat) (req : http_request) : http_outcome :=
  Failed (TransportError "connection refused").

Definition example_exn_text (e : exn) : string :=
  match e with
  | TransportError msg => msg
  | _ => "error"
  end.

Definition no_io : io := {| io_reads := 0; io_log := [] |}.

(** A manager whose cached token is the empty string, far from expiry. *)
Definition empty_token_manager : CloudTokenManager :=
  {| auth_config := example_config;
     token := JStr "";
     token_expiry := Some (seconds 5000) |}.

(** ** The tools: vocabulary and examples *)

(** A request with a form body: the password grant. *)
Definition is_form (req : http_request) : Prop :=
  exists data, req_body req = Form data.

(** [needle in hay] *)
Definition contains (needle hay : string) : bool :=
  match String.index 0 needle hay with
  | Some _ => true
  | None => false
  end.

(** The dict [icoraintent_create_cloud_intent] hands to the builder. *)
Definition arguments_entries
    (name description intentType deliveryExpectations serviceArea validFor
       propertyExpectations : pyval) : list (string * pyval) :=
  [ ("name", name);
    ("description", description);
    ("intentType", intentType);
    ("deliveryExpectations", deliveryExpectations);
    ("serviceArea", serviceArea);
    ("validFor", validFor);
    ("propertyExpectations", propertyExpectations) ].

(** The three objects of the default delivery expectations, made in a
    store of [n] objects: the parameters, the entry and the list. *)
Definition default_objects (n : nat) : list pyobj :=
  [ ODict [ ("targetDescription", VStr "cat:EventWirelessAccess") ];
    ODict [ ("target", VStr "_:service"); ("params", VRef n) ];
    OList [ VRef (n + 1) ] ].

(** The store in which the tool calls the builder when it was given no
    delivery expectations: the store of the call, the default, and the
    arguments with the default in them, at address [length h + 3]. *)
Definition defaulted_store (h : heap)
    (name description intentType serviceArea validFor propertyExpectations : pyval)
  : heap :=
  (h ++ default_objects (length h))
    ++ [ODict (arguments_entries name description intentType (VRef (length h + 2))
                 serviceArea validFor propertyExpectations)].

(** What the tool answers to a response of the intent endpoint. *)
Definition intent_answer_text (exn_text : exn -> string)
    (json_dumps_indent2 : json -> string) (r : http_response) : string :=
  if Z.eqb (status_code r) 201
  then match json_body r with
       | Some j =>
           intent_created_text json_dumps_indent2
             (headers_get (resp_headers r) "location" "N/A") j
       | None =>
           cross_mark +:+ " Error creating cloud intent: "
           +:+ str_exn exn_text JSONDecodeError
       end
  else intent_failed_text (status_code r) (text r).

(** C8 in the spec's words: success for 201, an error with the status
    code and the body for every other status. *)
Definition intent_answer_as_stated (json_dumps_indent2 : json -> string)
    (r : http_response) (answer : string) : Prop :=
  if Z.eqb (status_code r) 201
  then is_success_text answer = true
  else answer = intent_failed_text (status_code r) (text r).

(** The module right after import, with the placeholder URL: nothing is
    configured. *)
Definition fresh_world : world :=
  _initialize_from_env "https://YOUR_WIREMOCK_FUNCTION_URL"
    "test-client" "test-secret" "test-user" "test-password".

(** A configured module. *)
Definition configured_world : world :=
  {| w_heap := [];
     w_io := no_io;
     w_token_manager := Some (new_manager example_config);
     w_base_url := "https://mock" |}.

Definition example_value_text (v : json) : string := "?".

Definition example_json_dumps (v : json) : string := "{...}".

Definition created_response : http_response :=
  {| status_code := 201;
     resp_headers := [ ("Location", "https://mock/intent/intent-0123456789") ];
     text := "{}";
     json_body := Some (JObj [ ("id", JStr "intent-0123456789") ]) |}.

(** HTTP 500 with the body [boom]. *)
Definition boom_response : http_response :=
  {| status_code := 500;
     resp_headers := [];
     text := "boom";
     json_body := None |}.

(** HTTP 201 with a body that is not JSON. *)
Definition created_garbled_response : http_response :=
  {| status_code := 201;
     resp_headers := [];
     text := "<html>created</html>";
     json_body := None |}.

(** The call of the examples: a broadcast with nothing but a name and a
    description. *)
Definition example_call (answer : http_response) : result string * world :=
  icoraintent_create_cloud_intent example_clock (example_http answer)
    example_exn_text example_value_text example_json_dumps
    (VStr "Match day") (VStr "Stadium broadcast") (VStr "EventLiveBroadcast")
    VNone VNone VNone VNone configured_world.
(** * The rest of the services *)

(** * The rest of the MCP server (main.py)

    The tools that need no token, and the HTTP entry point that hands a
    JSON-RPC request to the tools. *)

(** [a or b] for two strings. *)
Definition str_or (a b : string) : string :=
  if String.eqb a "" then b else a.

Definition warning_mark : string := "‚ö†Ô∏è".
Definition bullet_mark : string := "‚Ä¢".

(** [len(s)]: the characters of a UTF-8 string. *)
Fixpoint utf8_length (s : string) : nat :=
  match s with
  | EmptyString => 0%nat
  | String c s' =>
      if is_continuation c then utf8_length s' else S (utf8_length s')
  end.

(** [len(j)]: only strings, lists and dicts have a length. *)
Definition json_len (j : json) : result nat :=
  match j with
  | JStr s => Ok (utf8_length s)
  | JArr items => Ok (length items)
  | JObj fields => Ok (length fields)
  | _ => Raise TypeError
  end.

(** ** [check_cloud_connectivity], [cloud_health_check], [list_cloud_tools] *)

Section Connectivity.

(** [http_get n url] is what comes back for the GET number [n]; the state
    of a check is the list of the URLs fetched so far, oldest first. *)
Variable http_get : nat -> string -> http_outcome.
Variable exn_text : exn -> string.

Definition get (url : string) : ST (list string) http_response :=
  fun fetched =>
    match http_get (length fetched) url with
    | Response r => (Ok r, fetched ++ [url])
    | Failed e => (Raise e, fetched ++ [url])
    end.

Local Open Scope st_scope.

(** [base_url] is the module's global of that name. *)
Definition check_cloud_connectivity (WIREMOCK_FUNCTION_URL base_url : string)
  : ST (list string) string :=
  catch
    (let test_url :=
       if String.eqb base_url "" then WIREMOCK_FUNCTION_URL else base_url in
     let* response := get (test_url +:+ "/health") in
     if Z.eqb (status_code response) 200
     then
       let* admin_response := get (test_url +:+ "/__admin/mappings") in
       if Z.eqb (status_code admin_response) 200
       then
         let* body :=
           match json_body admin_response with
           | Some j => ret j
           | None => raise JSONDecodeError
           end in
         let* mappings := lift_result (json_get body "mappings" (JArr [])) in
         let* n := lift_result (json_len mappings) in
         ret (check_mark +:+ " Cloud WireMock function fully accessible! "
              +:+ pretty n +:+ " mappings loaded at " +:+ test_url)
       else
         ret (warning_mark
              +:+ "  Cloud WireMock function responding but admin not accessible at "
              +:+ test_url)
     else
       ret (cross_mark +:+ " Cloud WireMock function not responding at "
            +:+ test_url))
    (fun e => ret (cross_mark +:+ " Cannot reach cloud WireMock function: "
                   +:+ str_exn exn_text e)).

End Connectivity.

Definition cloud_health_check (WIREMOCK_FUNCTION_URL base_url : string) : string :=
  check_mark
  +:+ " icora intentTMF921 Cloud FastMCP Function is healthy! WireMock: "
  +:+ str_or base_url WIREMOCK_FUNCTION_URL.

Definition cloud_tools : list string :=
  [ "icoraintent_configure_cloud_auth - Configure authentication for cloud WireMock";
    "icoraintent_test_cloud_auth - Test cloud authentication";
    "icoraintent_create_cloud_intent - Create network intent via cloud";
    "check_cloud_connectivity - Check cloud WireMock connectivity";
    "cloud_health_check - Check this MCP function health";
    "list_cloud_tools - List all available tools" ].

Definition list_cloud_tools : string :=
  check_mark +:+ " Available cloud tools:" +:+ newline
  +:+ join newline (map (fun tool => bullet_mark +:+ " " +:+ tool) cloud_tools).

(** ** The HTTP entry point (main.py, [icoraintent_mcp_function]) *)

(** A request as the entry point reads it.  [rq_json] is the body as
    [request.get_json()] or [json.loads] parse it, or the exception the
    parse raises. *)
Record mcp_request : Type := {
  rq_method : string;
  rq_path : string;
  rq_json : result json
}.

(** [v == "literal"] on a parsed value: only a string can equal a
    string. *)
Definition json_eq_str (v : json) (s : string) : bool :=
  match v with
  | JStr s' => String.eqb s' s
  | _ => false
  end.

(** The answer to [tools/list]. *)
Definition advertised_tools : json :=
  JArr [ JObj [ ("name", JStr "icoraintent_configure_cloud_auth");
                ("description", JStr "Configure icora intentTMF921 API authentication for cloud");
                ("inputSchema", JObj [ ("type", JStr "object");
                                       ("properties", JObj [ ("wiremockUrl", JObj [ ("type", JStr "string") ]);
                                                             ("clientId", JObj [ ("type", JStr "string") ]);
                                                             ("clientSecret", JObj [ ("type", JStr "string") ]);
                                                             ("username", JObj [ ("type", JStr "string") ]);
                                                             ("password", JObj [ ("type", JStr "string") ]) ]) ]) ];
         JObj [ ("name", JStr "icoraintent_test_cloud_auth");
                ("description", JStr "Test icora intentAPI cloud authentication");
                ("inputSchema", JObj [ ("type", JStr "object");
                                       ("properties", JObj []) ]) ];
         JObj [ ("name", JStr "icoraintent_create_cloud_intent");
                ("description", JStr "Create a new icora intentnetwork intent via cloud");
                ("inputSchema", JObj [ ("type", JStr "object");
                                       ("properties", JObj [ ("name", JObj [ ("type", JStr "string") ]);
                                                             ("description", JObj [ ("type", JStr "string") ]);
                                                             ("intentType", JObj [ ("type", JStr "string") ]);
                                                             ("deliveryExpectations", JObj [ ("type", JStr "array") ]);
                                                             ("serviceArea", JObj [ ("type", JStr "array") ]);
                                                             ("validFor", JObj [ ("type", JStr "object") ]);
                                                             ("propertyExpectations", JObj [ ("type", JStr "array") ]) ]);
                                       ("required", JArr [ JStr "name";
                                                           JStr "description" ]) ]) ];
         JObj [ ("name", JStr "check_cloud_connectivity");
                ("description", JStr "Check connectivity to cloud WireMock function");
                ("inputSchema", JObj [ ("type", JStr "object");
                                       ("properties", JObj []) ]) ];
         JObj [ ("name", JStr "cloud_health_check");
                ("description", JStr "Check cloud MCP function health");
                ("inputSchema", JObj [ ("type", JStr "object");
                                       ("properties", JObj []) ]) ];
         JObj [ ("name", JStr "list_cloud_tools");
                ("description", JStr "List all available cloud tools");
                ("inputSchema", JObj [ ("type", JStr "object");
                                       ("properties", JObj []) ]) ] ].

(** The names the dispatch of [tools/call] knows. *)
Inductive tool : Type :=
| Configure_cloud_auth
| Test_cloud_auth
| Create_cloud_intent
| Check_cloud_connectivity
| Cloud_health_check
| List_cloud_tools.

Definition tool_of_name (tool_name : json) : option tool :=
  if json_eq_str tool_name "icoraintent_configure_cloud_auth" then Some Configure_cloud_auth
  else if json_eq_str tool_name "icoraintent_test_cloud_auth" then Some Test_cloud_auth
  else if json_eq_str tool_name "icoraintent_create_cloud_intent" then Some Create_cloud_intent
  else if json_eq_str tool_name "check_cloud_connectivity" then Some Check_cloud_connectivity
  else if json_eq_str tool_name "cloud_health_check" then Some Cloud_health_check
  else if json_eq_str tool_name "list_cloud_tools" then Some List_cloud_tools
  else None.

Section EntryPoint.

(** The state of the module, whatever it is, and the six tools as the
    entry point calls them: [icoraintent_configure_cloud_auth] and
    [icoraintent_create_cloud_intent] get the [arguments] of the request
    as keyword arguments, the other four are called without arguments. *)
Variable W : Type.
Variable configure_tool : json -> ST W string.
Variable test_tool : ST W string.
Variable create_tool : json -> ST W string.
Variable connectivity_tool : ST W string.
Variable health_tool : ST W string.
Variable list_tool : ST W string.

(** The global [base_url], the constant [WIREMOCK_FUNCTION_URL] and
    [datetime.utcnow().isoformat()]. *)
Variable base_url : W -> json.
Variable WIREMOCK_FUNCTION_URL : string.
Variable utcnow_isoformat : W -> string.

Variable exn_text : exn -> string.
Variable value_text : json -> string.

Local Open Scope st_scope.

Definition call_tool (t : tool) (arguments : json) : ST W string :=
  match t with
  | Configure_cloud_auth => configure_tool arguments
  | Test_cloud_auth => test_tool
  | Create_cloud_intent => create_tool arguments
  | Check_cloud_connectivity => connectivity_tool
  | Cloud_health_check => health_tool
  | List_cloud_tools => list_tool
  end.

(** [request_data.get("id", 1)] *)
Definition request_id (request_data : json) : ST W json :=
  lift_result (json_get request_data "id" (JInt 1)).

(** The [try] block of the POST branch: [Some] answer when it returns,
    [None] when it comes to its end without one. *)
Definition handle_post (request : mcp_request) : ST W (option (json * Z)) :=
  let* request_data := lift_result (rq_json request) in
  let* method := lift_result (json_get request_data "method" JNull) in
  if json_eq_str method "initialize"
  then
    let* id := request_id request_data in
    ret (Some (JObj [ ("jsonrpc", JStr "2.0");
                      ("id", id);
                      ("result",
                       JObj [ ("protocolVersion", JStr "2024-11-05");
                              ("capabilities", JObj [ ("tools", JObj []) ]);
                              ("serverInfo",
                               JObj [ ("name", JStr "icora intentTMF921 Cloud FastMCP");
                                      ("version", JStr "1.0.0") ]) ]) ],
               200%Z))
  else if json_eq_str method "tools/list"
  then
    let* id := request_id request_data in
    ret (Some (JObj [ ("jsonrpc", JStr "2.0");
                      ("id", id);
                      ("result", JObj [ ("tools", advertised_tools) ]) ],
               200%Z))
  else if json_eq_str method "tools/call"
  then
    let* params := lift_result (json_getitem request_data "params") in
    let* tool_name := lift_result (json_getitem params "name") in
    let* arguments := lift_result (json_get params "arguments" (JObj [])) in
    match tool_of_name tool_name with
    | Some t =>
        let* result := call_tool t arguments in
        let* id := request_id request_data in
        ret (Some (JObj [ ("jsonrpc", JStr "2.0");
                          ("id", id);
                          ("result",
                           JObj [ ("content",
                                   JArr [ JObj [ ("type", JStr "text");
                                                 ("text", JStr result) ] ]) ]) ],
                   200%Z))
    | None =>
        let* id := request_id request_data in
        ret (Some (JObj [ ("jsonrpc", JStr "2.0");
                          ("id", id);
                          ("error",
                           JObj [ ("code", JInt (-32601));
                                  ("message",
                                   JStr ("Tool not found: "
                                         +:+ format_value value_text tool_name)) ]) ],
                   404%Z))
    end
  else ret None.

(** The [except] clause of the POST branch; [request_data] is only bound
    when the parse of the body went through. *)
Definition post_failed (request : mcp_request) (e : exn) : ST W (option (json * Z)) :=
  let* id :=
    match rq_json request with
    | Ok request_data => request_id request_data
    | Raise _ => ret (JInt 1)
    end in
  ret (Some (JObj [ ("jsonrpc", JStr "2.0");
                    ("id", id);
                    ("error",
                     JObj [ ("code", JInt (-32603));
                            ("message",
                             JStr ("Internal error: " +:+ str_exn exn_text e)) ]) ],
             500%Z)).

Definition icoraintent_mcp_function (request : mcp_request) : ST W (json * Z) :=
  catch
    (let* got :=
       if String.eqb (rq_method request) "GET"
       then
         if String.eqb (rq_path request) "/health"
         then
           fun w =>
             (Ok (Some (JObj [ ("status", JStr "healthy");
                               ("service", JStr "icoraintent-fastmcp-function");
                               ("timestamp", JStr (utcnow_isoformat w));
                               ("wiremock_url",
                                if json_truthy (base_url w) then base_url w
                                else JStr WIREMOCK_FUNCTION_URL) ],
                        200%Z)), w)
         else if String.eqb (rq_path request) "/"
         then
           ret (Some (JObj [ ("service", JStr "icora intentTMF921 FastMCP Cloud Function");
                             ("version", JStr "1.0.0");
                             ("status", JStr "ready");
                             ("tools_available", JInt 6) ],
                      200%Z))
         else ret None
       else ret None in
     match got with
     | Some answer => ret answer
     | None =>
         let* posted :=
           if String.eqb (rq_method request) "POST"
           then catch (handle_post request) (post_failed request)
           else ret None in
         match posted with
         | Some answer => ret answer
         | None =>
             ret (JObj [ ("error", JStr "method_not_allowed");
                         ("message",
                          JStr "Only GET /health and POST for MCP are supported") ],
                  405%Z)
         end
     end)
    (fun e =>
       ret (JObj [ ("error", JStr "internal_server_error");
                   ("error_description", JStr (str_exn exn_text e)) ],
            500%Z)).

End EntryPoint.

(** * The rest of the mock backend
    (icoraintent-wiremock-fastapi_function-source/main.py)

    The routes of the FastAPI application and the entry point of the Cloud
    Function, which answers the same paths by a chain of tests of its
    own. *)

(** [request.headers.get(name)]: names compare without case, the first
    value counts. *)
Definition header_lookup (hs : list (string * string)) (name : string)
  : option string :=
  snd <$> head (filter (fun kv => lower (fst kv) = lower name) hs).

Module WiremockRoutes.
Import Wiremock.

Definition is_lower_hex (c : ascii) : bool :=
  let n := nat_of_ascii c in
  (Nat.leb 48 n && Nat.leb n 57) || (Nat.leb 97 n && Nat.leb n 102).

(** [re.match(r'^intent-[a-f0-9]{10}$', s)]: the string is [intent-] and
    ten digits of lower-case hexadecimal; [$] also matches before a newline
    that ends the string. *)
Definition matches_intent_id (s : string) : bool :=
  let cs := list_ascii_of_string s in
  bool_decide (take 7 cs = list_ascii_of_string "intent-")
  && Nat.eqb (length (take 10 (drop 7 cs))) 10
  && forallb is_lower_hex (take 10 (drop 7 cs))
  && (bool_decide (drop 17 cs = [])
      || bool_decide (drop 17 cs = list_ascii_of_string newline)).

(** [intent_id = f"intent-{uuid.uuid4().hex[:10]}"] in
    [generate_intent_response], for the identifier [hex] drawn. *)
Definition new_intent_id (hex : string) : string :=
  "intent-" +:+ utf8_take 10 hex.

(** [get_intent] of the FastAPI application; [stamp] is
    [datetime.utcnow().strftime(...)]. *)
Definition get_intent (stamp : string) (intent_id : string) : HTTPException + json :=
  if negb (matches_intent_id intent_id)
  then inl {| exc_status := 404;
              exc_detail :=
                JObj [ ("error", JStr "not_found");
                       ("error_description",
                        JStr ("Intent " +:+ intent_id +:+ " not found")) ] |}
  else
    let base_url := "https://cloud-function-url" in
    inr (JObj [ ("id", JStr intent_id);
                ("name", JStr "MockIntent");
                ("description", JStr "Mock intent for testing");
                ("type", JStr "Intent");
                ("status", JStr "active");
                ("createdAt", JStr "2025-06-11T10:00:00Z");
                ("lastModified", JStr stamp);
                ("deliveryExpectations",
                 JArr [ JObj [ ("target", JStr "_:service");
                               ("params",
                                JObj [ ("targetDescription",
                                        JStr "cat:EventWirelessAccess") ]) ] ]);
                ("_links",
                 JObj [ ("self",
                         JObj [ ("href",
                                 JStr (base_url +:+ "/intent/" +:+ intent_id)) ]) ]) ]).

(** [generate_oauth_response().dict()]: the fields of the model in the
    order it declares them.  [uuid4_hex n] is [uuid.uuid4().hex] for the
    identifier number [n] drawn by the call. *)
Definition generate_oauth_response (uuid4_hex : nat -> string) : json :=
  JObj [ ("access_token",
          JStr ("cloud_mock_token_" +:+ utf8_take 16 (uuid4_hex 0%nat)));
         ("expires_in", JInt 3600);
         ("refresh_expires_in", JInt 1800);
         ("refresh_token",
          JStr ("cloud_refresh_" +:+ utf8_take 16 (uuid4_hex 1%nat)));
         ("token_type", JStr "Bearer");
         ("not_before_policy", JInt 0);
         ("session_state",
          JStr ("session_" +:+ utf8_take 8 (uuid4_hex 2%nat)));
         ("scope", JStr "email profile") ].

Definition unsupported_grant_type : json :=
  JObj [ ("error", JStr "unsupported_grant_type");
         ("error_description", JStr "Only password grant type is supported") ].

Definition no_store : list (string * string) :=
  [ ("Cache-Control", "no-store"); ("Pragma", "no-cache") ].

(** [oauth_token] of the FastAPI application, on the form fields FastAPI
    has checked to be there; only [grant_type] is looked at. *)
Definition oauth_token (uuid4_hex : nat -> string) (grant_type : string)
  : HTTPException + reply :=
  if negb (String.eqb grant_type "password")
  then inl {| exc_status := 400; exc_detail := unsupported_grant_type |}
  else
    let response_data := generate_oauth_response uuid4_hex in
    inr {| reply_body := response_data; reply_status := 200;
           reply_headers := no_store |}.

(** A request as the entry point of the Cloud Function reads it.
    [fr_decodes] says whether the query string and the body are UTF-8:
    [decode()] raises a [UnicodeDecodeError], which is a [ValueError],
    when they are not. *)
Record function_request : Type := {
  fr_method : string;
  fr_path : string;
  fr_host : string;
  fr_headers : list (string * string);
  fr_form : list (string * string);
  fr_decodes : bool
}.

(** What a call of the entry point takes from outside: the identifiers
    it draws, the time, what [app.routes[0].endpoint()] evaluates to, and
    how the [try] block of the intent branch ends, with the body and the
    id of the new intent or with the text of the exception it raised. *)
Record outside : Type := {
  uuid4_hex : nat -> string;
  utcnow_isoformat : string;
  root_endpoint : result json;
  created : string + json * string
}.

Definition admin_mappings_of_function : json :=
  JObj [ ("mappings",
          JArr [ JObj [ ("id", JStr "oauth-mapping");
                        ("request",
                         JObj [ ("method", JStr "POST");
                                ("urlPath",
                                 JStr "/auth/keycloak_realm/protocol/openid-connect/token") ]);
                        ("response", JObj [ ("status", JInt 200) ]) ];
                 JObj [ ("id", JStr "intent-mapping");
                        ("request",
                         JObj [ ("method", JStr "POST");
                                ("urlPath", JStr "/intent/") ]);
                        ("response", JObj [ ("status", JInt 201) ]) ] ]);
         ("meta", JObj [ ("total", JInt 2) ]) ].

Local Open Scope st_scope.

Definition plain (body : json) (status : Z) : reply :=
  {| reply_body := body; reply_status := status; reply_headers := [] |}.

(** [not_found_handler], which the application registers for the status
    404; [path] is [request.url.path]. *)
Definition not_found_handler (path : string) : reply :=
  plain (JObj [ ("error", JStr "not_found");
                ("error_description", JStr "The requested resource was not found");
                ("path", JStr path) ])
    404.

(** What the application answers when a route raises an
    [HTTPException]: the handler registered for the status of the
    exception answers in its place, and the only status with such a
    handler is 404 (the handler registered for 500 is the one for
    exceptions that nothing handles); FastAPI answers the other
    exceptions itself, with the detail under the key [detail]. *)
Definition answer_exception (path : string) (e : HTTPException) : reply :=
  if Z.eqb (exc_status e) 404 then not_found_handler path
  else plain (JObj [ ("detail", exc_detail e) ]) (exc_status e).

(** The route [GET /intent/{intent_id}] as the application serves it. *)
Definition get_intent_route (stamp path intent_id : string) : reply :=
  match get_intent stamp intent_id with
  | inr body => plain body 200
  | inl e => answer_exception path e
  end.

Definition icoraintent_wiremock_function (o : outside) (exn_text : exn -> string)
    (request : function_request) : result reply :=
  fst (catch
    (let* _ := if fr_decodes request then ret tt else raise ValueError in
     if String.eqb (fr_path request) "/"
     then
       let* body := lift_result (root_endpoint o) in
       ret (plain body 200)
     else if String.eqb (fr_path request) "/test"
     then
       ret (plain
              (JObj [ ("status", JStr "success");
                      ("message",
                       JStr "icoraintent WireMock FastAPI Cloud Function is working!");
                      ("timestamp", JStr (utcnow_isoformat o));
                      ("service", JStr "fastapi-cloud-function");
                      ("framework", JStr "FastAPI") ])
              200)
     else if String.eqb (fr_path request) "/health"
     then
       ret (plain
              (JObj [ ("status", JStr "healthy");
                      ("service", JStr "icoraintent-wiremock-fastapi");
                      ("timestamp", JStr (utcnow_isoformat o));
                      ("version", JStr "1.0.0");
                      ("framework", JStr "FastAPI") ])
              200)
     else if String.eqb (fr_path request) "/__admin/mappings"
     then ret (plain admin_mappings_of_function 200)
     else if String.eqb (fr_path request)
               "/auth/keycloak_realm/protocol/openid-connect/token"
             && String.eqb (fr_method request) "POST"
     then
       if negb (bool_decide (assoc "grant_type" (fr_form request) = Some "password"))
       then ret (plain unsupported_grant_type 400)
       else
         let response_data := generate_oauth_response (uuid4_hex o) in
         ret {| reply_body := response_data; reply_status := 200;
                reply_headers := no_store |}
     else if String.eqb (fr_path request) "/intent/"
             && String.eqb (fr_method request) "POST"
     then
       ret (create_intent_branch
              (header_lookup (fr_headers request) "Authorization")
              match created o with
              | inr (response_data, id) =>
                  inr (response_data,
                       "https://" +:+ fr_host request +:+ "/intent/" +:+ id)
              | inl description => inl description
              end)
     else if String.eqb (fr_path request) "/docs"
     then
       ret (plain
              (JObj [ ("message", JStr "FastAPI documentation");
                      ("docs_url", JStr ("https://" +:+ fr_host request +:+ "/docs"));
                      ("redoc_url", JStr ("https://" +:+ fr_host request +:+ "/redoc")) ])
              200)
     else
       ret (plain
              (JObj [ ("error", JStr "not_found");
                      ("error_description",
                       JStr ("Endpoint not found: " +:+ fr_method request +:+ " "
                             +:+ fr_path request)) ])
              404))
    (fun e =>
       ret (plain (JObj [ ("error", JStr "internal_server_error");
                          ("error_description", JStr (str_exn exn_text e)) ])
              500))
    tt).

End WiremockRoutes.

(** * The agent's calls of the MCP server
    (services_icoraintent-a2a-agent/agent_executor.py) *)

(** [k in j]: a key of a dict, an item of a list, a part of a string. *)
Definition json_in (k : string) (j : json) : result bool :=
  match j with
  | JObj fields => Ok (bool_decide (is_Some (assoc k fields)))
  | JArr items => Ok (existsb (fun x => json_eq_str x k) items)
  | JStr s => Ok (contains k s)
  | _ => Raise TypeError
  end.

(** [if content: ... content[0]]: [None] when [content] is falsy and the
    block is skipped, the first item of a list that is not empty, and what
    the subscript raises on the other truthy values. *)
Definition first_if_truthy (content : json) : result (option json) :=
  match content with
  | JNull => Ok None
  | JBool b => if b then Raise TypeError else Ok None
  | JInt z => if Z.eqb z 0 then Ok None else Raise TypeError
  | JStr s => if String.eqb s "" then Ok None else Ok (Some (JStr (utf8_take 1 s)))
  | JArr [] => Ok None
  | JArr (item :: _) => Ok (Some item)
  | JObj [] => Ok None
  | JObj (_ :: _) => Raise (KeyError "0")
  end.

(** [v != 0.0] *)
Definition json_ne_zero (v : json) : bool :=
  match v with
  | JInt z => negb (Z.eqb z 0)
  | JBool b => b
  | _ => true
  end.

Section Agent.

(** The agent sees the MCP server through [requests]: [mcp_post body] is
    [requests.post(MCP_FUNCTION_URL, json=body, ...)] and [mcp_get url] is
    [requests.get(url, ...)], on a state [S] that stands for everything
    behind them; [day_bounds] reads the clock and gives the first and the
    last second of the day as [isoformat()] writes them. *)
Variable S : Type.
Variable mcp_post : json -> ST S http_response.
Variable mcp_get : string -> ST S http_response.
Variable day_bounds : ST S (string * string).
Variable MCP_FUNCTION_URL : string.
Variable WIREMOCK_FUNCTION_URL : string.
Variable exn_text : exn -> string.
Variable value_text : json -> string.

Local Open Scope st_scope.

Definition call_mcp_tool (tool_name : string) (arguments : json) : ST S json :=
  catch
    (let mcp_request :=
       JObj [ ("jsonrpc", JStr "2.0");
              ("id", JInt 1);
              ("method", JStr "tools/call");
              ("params", JObj [ ("name", JStr tool_name);
                                ("arguments", arguments) ]) ] in
     let* response := mcp_post mcp_request in
     let* returned :=
       if Z.eqb (status_code response) 200
       then
         let* mcp_response :=
           match json_body response with
           | Some j => ret j
           | None => raise JSONDecodeError
           end in
         let* has_result := lift_result (json_in "result" mcp_response) in
         if has_result
         then
           let* result := lift_result (json_getitem mcp_response "result") in
           let* content := lift_result (json_get result "content" (JArr [])) in
           let* first := lift_result (first_if_truthy content) in
           match first with
           | Some item =>
               let* result_text := lift_result (json_get item "text" (JStr "Success")) in
               ret (Some (JObj [ ("status", JStr "success");
                                 ("result", result_text) ]))
           | None => ret None
           end
         else
           let* has_error := lift_result (json_in "error" mcp_response) in
           if has_error
           then
             let* error := lift_result (json_getitem mcp_response "error") in
             let* error_msg :=
               lift_result (json_get error "message" (JStr "Unknown MCP error")) in
             ret (Some (JObj [ ("status", JStr "error");
                               ("error_message",
                                JStr ("MCP Error: "
                                      +:+ format_value value_text error_msg)) ]))
           else ret None
       else ret None in
     match returned with
     | Some answer => ret answer
     | None =>
         ret (JObj [ ("status", JStr "error");
                     ("error_message",
                      JStr ("HTTP " +:+ pretty (status_code response) +:+ ": "
                            +:+ utf8_take 200 (text response))) ])
     end)
    (fun e =>
       ret (JObj [ ("status", JStr "error");
                   ("error_message",
                    JStr ("Error calling MCP function: " +:+ str_exn exn_text e)) ])).

Definition list_mcp_tools : ST S json :=
  call_mcp_tool "list_cloud_tools" (JObj []).

Definition check_mcp_status : ST S json :=
  catch
    (let* health_response := mcp_get (MCP_FUNCTION_URL +:+ "/health") in
     if Z.eqb (status_code health_response) 200
     then
       ret (JObj [ ("status", JStr "success");
                   ("message", JStr "MCP system is healthy and operational");
                   ("mcp_url", JStr MCP_FUNCTION_URL) ])
     else
       ret (JObj [ ("status", JStr "warning");
                   ("message",
                    JStr ("MCP system responded with status "
                          +:+ pretty (status_code health_response)));
                   ("mcp_url", JStr MCP_FUNCTION_URL) ]))
    (fun e =>
       ret (JObj [ ("status", JStr "error");
                   ("error_message",
                    JStr ("Cannot connect to MCP system: " +:+ str_exn exn_text e)) ])).

(** The values [start_time] and [end_time] of the caller are replaced by
    the bounds of the current day before they are used. *)
Definition create_network_intent
    (name description intent_type start_time end_time max_participants quality
       longitude latitude : json) : ST S json :=
  let* bounds := day_bounds in
  let start_time := JStr (fst bounds) in
  let end_time := JStr (snd bounds) in
  let arguments :=
    JObj [ ("name", name);
           ("description", description);
           ("intentType", intent_type);
           ("validFor", JObj [ ("startDateTime", start_time);
                               ("endDateTime", end_time) ]) ] in
  let* result := call_mcp_tool "icoraintent_create_cloud_intent" arguments in
  let* status := lift_result (json_getitem result "status") in
  if json_eq_str status "success"
  then
    ret (JObj [ ("status", JStr "success");
                ("intent_id", name);
                ("message",
                 JStr ("Network intent '" +:+ format_value value_text name
                       +:+ "' created successfully"));
                ("configuration",
                 JObj [ ("name", name);
                        ("description", description);
                        ("intent_type", intent_type);
                        ("start_time", start_time);
                        ("end_time", end_time);
                        ("intent_typ", intent_type);
                        ("quality", quality);
                        ("max_participants", max_participants);
                        ("coordinates",
                         if json_ne_zero longitude || json_ne_zero latitude
                         then JArr [ longitude; latitude ]
                         else JNull) ]);
                ("mcp_result", result) ])
  else
    let* error_message :=
      lift_result (json_get result "error_message" (JStr "Unknown error")) in
    ret (JObj [ ("status", JStr "error");
                ("error_message",
                 JStr ("Failed to create intent: "
                       +:+ format_value value_text error_message));
                ("mcp_result", result) ]).

Definition configure_mcp_auth : ST S json :=
  call_mcp_tool "icoraintent_configure_cloud_auth"
    (JObj [ ("wiremockUrl", JStr WIREMOCK_FUNCTION_URL);
            ("clientId", JStr "test-client");
            ("clientSecret", JStr "test-secret");
            ("username", JStr "test-user");
            ("password", JStr "test-password") ]).

(** [status != "success"] on the dict a step returned. *)
Definition step_failed (step : json) : ST S bool :=
  let* status := lift_result (json_getitem step "status") in
  ret (negb (json_eq_str status "success")).

Definition test_mcp_workflow : ST S json :=
  catch
    (let* status_result := check_mcp_status in
     let* failed := step_failed status_result in
     if failed
     then
       ret (JObj [ ("status", JStr "error");
                   ("error_message", JStr "MCP system is not healthy");
                   ("step_failed", JStr "status_check") ])
     else
       let* auth_result := configure_mcp_auth in
       let* failed := step_failed auth_result in
       if failed
       then
         ret (JObj [ ("status", JStr "error");
                     ("error_message", JStr "Authentication configuration failed");
                     ("step_failed", JStr "auth_config") ])
       else
         let* intent_result :=
           create_network_intent (JStr "TestIntent") (JStr "Test workflow intent")
             (JStr "EventLiveBroadcast") (JStr "") (JStr "") (JInt 500)
             (JStr "4KUHD") (JInt 0) (JInt 0) in
         let* status := lift_result (json_getitem intent_result "status") in
         if json_eq_str status "success"
         then
           let* test_intent_id := lift_result (json_getitem intent_result "intent_id") in
           ret (JObj [ ("status", JStr "success");
                       ("message", JStr "Complete MCP workflow test passed");
                       ("test_intent_id", test_intent_id);
                       ("steps_completed",
                        JArr [ JStr "status_check"; JStr "auth_config";
                               JStr "intent_creation" ]) ])
         else
           ret (JObj [ ("status", JStr "error");
                       ("error_message", JStr "Intent creation failed");
                       ("step_failed", JStr "intent_creation") ]))
    (fun e =>
       ret (JObj [ ("status", JStr "error");
                   ("error_message",
                    JStr ("Workflow test failed: " +:+ str_exn exn_text e)) ])).

End Agent.

(** * The entry point with the tools behind it (main.py, lines 431-447) *)

Section ToolCalls.

Variable clock : nat -> datetime.
Variable http : nat -> http_request -> http_outcome.
Variable http_get : nat -> string -> http_outcome.
Variable exn_text : exn -> string.
Variable value_text : json -> string.
Variable json_dumps_indent2 : json -> string.
Variable utcnow_isoformat : world -> string.

(** The constants the module reads from the environment at import. *)
Variable WIREMOCK_FUNCTION_URL : string.
Variable OAUTH_CLIENT_ID : string.
Variable OAUTH_CLIENT_SECRET : string.
Variable OAUTH_USERNAME : string.
Variable OAUTH_PASSWORD : string.

Local Open Scope st_scope.

Definition create_parameters : list string :=
  [ "name"; "description"; "intentType"; "deliveryExpectations"; "serviceArea";
    "validFor"; "propertyExpectations" ].

(** The value of a keyword argument as an object of the store, or the
    default of the parameter. *)
Definition keyword (fields : list (string * json)) (k : string) (dflt : pyval)
  : ST world pyval :=
  match assoc k fields with
  | Some j => lift_heap (Store.alloc_json j)
  | None => ret dflt
  end.

(** [icoraintent_create_cloud_intent] called with the keyword arguments
    [arguments]: the call raises a [TypeError] before the tool runs when
    [arguments] is not a mapping, names a parameter the tool does not
    have, or leaves out [name] or [description]. *)
Definition create_from_arguments (arguments : json) : ST world string :=
  match arguments with
  | JObj fields =>
      if forallb (fun kv => bool_decide (fst kv ∈ create_parameters)) fields
         && bool_decide (is_Some (assoc "name" fields))
         && bool_decide (is_Some (assoc "description" fields))
      then
        let* name := keyword fields "name" VNone in
        let* description := keyword fields "description" VNone in
        let* intentType := keyword fields "intentType" (VStr "EventLiveBroadcast") in
        let* deliveryExpectations := keyword fields "deliveryExpectations" VNone in
        let* serviceArea := keyword fields "serviceArea" VNone in
        let* validFor := keyword fields "validFor" VNone in
        let* propertyExpectations := keyword fields "propertyExpectations" VNone in
        icoraintent_create_cloud_intent clock http exn_text value_text
          json_dumps_indent2 name description intentType deliveryExpectations
          serviceArea validFor propertyExpectations
      else raise TypeError
  | _ => raise TypeError
  end.

Definition configure_parameters : list string :=
  [ "wiremockUrl"; "clientId"; "clientSecret"; "username"; "password"; "scope" ].

(** A keyword argument of the type the tool declares, a string, or the
    default of the parameter. *)
Definition string_keyword (fields : list (string * json)) (k : string)
    (dflt : string) : result string :=
  match assoc k fields with
  | None => Ok dflt
  | Some (JStr s) => Ok s
  | Some _ => Raise TypeError
  end.

(** [icoraintent_configure_cloud_auth] called with the keyword arguments
    [arguments].  The tool declares its parameters as strings, and the
    call is embedded for values of that type ([scope] may also be
    [null]).  Python itself would go on with a value of another type; the
    state of the module, whose fields are strings here, cannot follow
    that, and the embedding stops such a call with a [TypeError]. *)
Definition configure_from_arguments (arguments : json) : ST world string :=
  match arguments with
  | JObj fields =>
      if forallb (fun kv => bool_decide (fst kv ∈ configure_parameters)) fields
      then
        let* wiremockUrl :=
          lift_result (string_keyword fields "wiremockUrl" WIREMOCK_FUNCTION_URL) in
        let* clientId :=
          lift_result (string_keyword fields "clientId" OAUTH_CLIENT_ID) in
        let* clientSecret :=
          lift_result (string_keyword fields "clientSecret" OAUTH_CLIENT_SECRET) in
        let* username :=
          lift_result (string_keyword fields "username" OAUTH_USERNAME) in
        let* password :=
          lift_result (string_keyword fields "password" OAUTH_PASSWORD) in
        let* scope :=
          match assoc "scope" fields with
          | None | Some JNull => ret None
          | Some (JStr s) => ret (Some s)
          | Some _ => raise TypeError
          end in
        icoraintent_configure_cloud_auth exn_text wiremockUrl clientId clientSecret
          username password scope
      else raise TypeError
  | _ => raise TypeError
  end.

(** The entry point of the module: the six tools on the module's own
    state. *)
Definition mcp_server : mcp_request -> ST world (json * Z) :=
  icoraintent_mcp_function world
    configure_from_arguments
    (icoraintent_test_cloud_auth clock http exn_text value_text)
    create_from_arguments
    (fun w =>
       (fst (check_cloud_connectivity http_get exn_text WIREMOCK_FUNCTION_URL
               (w_base_url w) []), w))
    (fun w => (Ok (cloud_health_check WIREMOCK_FUNCTION_URL (w_base_url w)), w))
    (ret list_cloud_tools)
    (fun w => JStr (w_base_url w))
    WIREMOCK_FUNCTION_URL
    utcnow_isoformat
    exn_text
    value_text.

End ToolCalls.

(** * The JSON-RPC endpoint of the agent service
      (services_icoraintent-a2a-agent/main.py) *)

Module AgentService.

(** What a call in this module raises: a [ValueError] made with a
    message, or an exception that came from elsewhere. *)
Inductive raised : Type :=
| ValueErrorOf (msg : string)
| Other (e : exn).

(** [isinstance(e, ValueError)]: a [JSONDecodeError] is one. *)
Definition is_value_error (e : raised) : bool :=
  match e with
  | ValueErrorOf _ => true
  | Other ValueError => true
  | Other JSONDecodeError => true
  | Other _ => false
  end.

(** The dict [parse_jsonrpc_message] returns, with its keys [id],
    [method] and [params]. *)
Record parsed : Type := {
  p_id : json;
  p_method : json;
  p_params : json
}.

(** A request as [jsonrpc_endpoint] reads it: what [request.json()]
    gives, each time it is awaited, and
    [request.headers.get('content-type')]. *)
Record service_request : Type := {
  sr_json : result json;
  sr_content_type : option string
}.

Section Endpoint.

Variable S : Type.
Variable exn_text : exn -> string.

(** [str(e)] *)
Definition str_raised (e : raised) : string :=
  match e with
  | ValueErrorOf msg => msg
  | Other e => str_exn exn_text e
  end.

(** [parse_jsonrpc_message]: [inl msg] is [raise ValueError(msg)].  The
    checks run inside a [try] whose [except] turns every exception, the
    [AttributeError] of a [request_data] without [get] included, into a
    [ValueError] that quotes it. *)
Definition parse_jsonrpc_message (request_data : json) : string + parsed :=
  let invalid (detail : string) : string + parsed :=
    inl ("Invalid JSON-RPC message format: " +:+ detail) in
  match request_data with
  | JObj fields =>
      if negb match assoc "jsonrpc" fields with
              | Some version => json_eq_str version "2.0"
              | None => false
              end
      then invalid "Invalid JSON-RPC version"
      else
        match assoc "id" fields with
        | None => invalid "Missing required 'id' field"
        | Some id =>
            match assoc "method" fields with
            | None => invalid "Missing required 'method' field"
            | Some method =>
                let params := default (JObj []) (assoc "params" fields) in
                inr {| p_id := id; p_method := method; p_params := params |}
            end
        end
  | _ => invalid (str_exn exn_text AttributeError)
  end.

(** [create_jsonrpc_response(request_id, result, error)]; [None] is the
    default of [result] and of [error]. *)
Definition create_jsonrpc_response (request_id : json) (result error : option json)
  : json :=
  JObj ([ ("jsonrpc", JStr "2.0"); ("id", request_id) ]
        ++ match error with
           | Some data =>
               if json_truthy data
               then [ ("error",
                       JObj [ ("code", JInt (-32600));
                              ("message", JStr "Request payload validation error");
                              ("data", data) ]) ]
               else [ ("result", default JNull result) ]
           | None => [ ("result", default JNull result) ]
           end).

(** [process_jsonrpc_message(method, params)], which runs the language
    model: it returns a task result or raises. *)
Variable process_jsonrpc_message : json -> json -> S -> (raised + json) * S.

(** [jsonrpc_endpoint]: [inr (body, status)] is the [JSONResponse] it
    returns, [inl e] an exception that leaves it.  The handler of
    [ValueError] awaits [request.json()] again when the content type is
    [application/json]; what that raises is not caught any more. *)
Definition jsonrpc_endpoint (request : service_request)
  : S -> (raised + json * Z) * S :=
  fun s =>
    let on_value_error (e : raised) : (raised + json * Z) * S :=
      match
        if bool_decide (sr_content_type request = Some "application/json")
        then sr_json request
        else Ok (JObj [])
      with
      | Ok input =>
          let error_data :=
            JArr [ JObj [ ("type", JStr "validation_error");
                          ("message", JStr (str_raised e));
                          ("input", input) ] ] in
          (inr (create_jsonrpc_response (JStr "unknown") None (Some error_data),
                200%Z), s)
      | Raise e' => (inl (Other e'), s)
      end in
    let on_exception (e : raised) : (raised + json * Z) * S :=
      (inr (JObj [ ("jsonrpc", JStr "2.0");
                   ("id", JStr "unknown");
                   ("error", JObj [ ("code", JInt (-32603));
                                    ("message", JStr "Internal error");
                                    ("data", JStr (str_raised e)) ]) ],
            500%Z), s) in
    match sr_json request with
    | Raise e =>
        if is_value_error (Other e) then on_value_error (Other e)
        else on_exception (Other e)
    | Ok request_data =>
        match parse_jsonrpc_message request_data with
        | inl msg => on_value_error (ValueErrorOf msg)
        | inr parsed =>
            match process_jsonrpc_message (p_method parsed) (p_params parsed) s with
            | (inr result, s') =>
                (inr (create_jsonrpc_response (p_id parsed) (Some result) None,
                      200%Z), s')
            | (inl e, s') =>
                let error_data :=
                  JArr [ JObj [ ("type", JStr "processing_error");
                                ("message", JStr (str_raised e));
                                ("input", request_data) ] ] in
                (inr (create_jsonrpc_response (p_id parsed) None (Some error_data),
                      200%Z), s')
            end
        end
    end.

End Endpoint.

End AgentService.

(** ** Vocabulary for the tools *)

(** The answer of [icoraintent_test_cloud_auth] to the outcome of
    [get_valid_token]. *)
Definition test_answer (exn_text : exn -> string) (value_text : json -> string)
    (rt : result json) : string :=
  match rt with
  | Ok tok =>
      match json_slice tok 20 with
      | Ok preview =>
          check_mark +:+ " Cloud authentication successful! Token: "
          +:+ format_value value_text preview +:+ "..."
      | Raise e =>
          cross_mark +:+ " Cloud authentication test failed: " +:+ str_exn exn_text e
      end
  | Raise e =>
      cross_mark +:+ " Cloud authentication test failed: " +:+ str_exn exn_text e
  end.

(** [scope] as [icoraintent_configure_cloud_auth] keeps it: only when it
    is there and not empty. *)
Definition kept_scope (scope : option string) : option string :=
  match scope with
  | Some s => if String.eqb s "" then None else Some s
  | None => None
  end.

(** The configuration [icoraintent_configure_cloud_auth] installs. *)
Definition configured (wiremockUrl clientId clientSecret username password : string)
    (scope : option string) : AuthConfig :=
  {| token_url := wiremockUrl +:+ "/auth/keycloak_realm/protocol/openid-connect/token";
     client_id := clientId;
     client_secret := clientSecret;
     username := username;
     password := password;
     scope := kept_scope scope |}.

(** The fields of the password grant, as the token endpoint reads them. *)
Definition form_of (req : http_request) : list (string * string) :=
  match req_body req with
  | Form data => data
  | Json _ => []
  end.

(** The module before any configuration. *)
Definition blank_world : world :=
  {| w_heap := []; w_io := no_io; w_token_manager := None; w_base_url := "" |}.

(** The fields of a password grant without a scope. *)
Definition grant_fields (clientId clientSecret username password : string)
  : list (string * string) :=
  [ ("grant_type", "password");
    ("username", username);
    ("password", password);
    ("client_id", clientId);
    ("client_secret", clientSecret) ].

(** The module of the examples after a first authentication test against
    the example backend: the token of the response is cached. *)
Definition authenticated_world : world :=
  snd (icoraintent_test_cloud_auth example_clock (example_http created_response)
         example_exn_text example_value_text configured_world).

(** A call of the examples with a list of delivery expectations that is
    there but empty, at address 0 of the store. *)
Definition empty_list_world : world :=
  {| w_heap := [OList []];
     w_io := no_io;
     w_token_manager := Some (new_manager example_config);
     w_base_url := "https://mock" |}.

(** The call of the examples on the module [w], against the backend that
    answers 201. *)
Definition example_call_in (w : world) : result string * world :=
  icoraintent_create_cloud_intent example_clock (example_http created_response)
    example_exn_text example_value_text example_json_dumps
    (VStr "Match day") (VStr "Stadium broadcast") (VStr "EventLiveBroadcast")
    VNone VNone VNone VNone w.

(** ** Vocabulary for the entry point *)

(** A JSON-RPC call of the tool [name] with [arguments], as a client posts
    it. *)
Definition tools_call (id name arguments : json) : json :=
  JObj [ ("jsonrpc", JStr "2.0");
         ("id", id);
         ("method", JStr "tools/call");
         ("params", JObj [ ("name", name); ("arguments", arguments) ]) ].

Definition post_request (body : json) : mcp_request :=
  {| rq_method := "POST"; rq_path := "/"; rq_json := Ok body |}.

(** The names in the answer to [tools/list]. *)
Definition advertised_names : list json :=
  match advertised_tools with
  | JArr tools => map (fun t => default JNull (assoc "name" (json_fields t))) tools
  | _ => []
  end.

(** The id a JSON-RPC answer to [request] has to carry: the one of the
    request, 1 when the request has none or could not be read. *)
Definition expected_id (request : mcp_request) : json :=
  match rq_json request with
  | Ok (JObj fields) => default (JInt 1) (assoc "id" fields)
  | _ => JInt 1
  end.

(** The JSON-RPC method of a request, when its body is an object. *)
Definition rpc_method (request : mcp_request) : option json :=
  match rq_json request with
  | Ok (JObj fields) => Some (default JNull (assoc "method" fields))
  | _ => None
  end.

(** The name before [" - "] in a line of [list_cloud_tools]. *)
Definition line_name (line : string) : string :=
  match String.index 0 " - " line with
  | Some n => String.substring 0 n line
  | None => line
  end.

(** The answers of the entry point. *)
Definition rpc_result (id : json) (text : string) : json * Z :=
  (JObj [ ("jsonrpc", JStr "2.0");
          ("id", id);
          ("result",
           JObj [ ("content",
                   JArr [ JObj [ ("type", JStr "text"); ("text", JStr text) ] ]) ]) ],
   200%Z).

Definition rpc_tool_not_found (value_text : json -> string) (id tool_name : json)
  : json * Z :=
  (JObj [ ("jsonrpc", JStr "2.0");
          ("id", id);
          ("error",
           JObj [ ("code", JInt (-32601));
                  ("message",
                   JStr ("Tool not found: " +:+ format_value value_text tool_name)) ]) ],
   404%Z).

Definition rpc_internal_error (exn_text : exn -> string) (id : json) (e : exn)
  : json * Z :=
  (JObj [ ("jsonrpc", JStr "2.0");
          ("id", id);
          ("error",
           JObj [ ("code", JInt (-32603));
                  ("message", JStr ("Internal error: " +:+ str_exn exn_text e)) ]) ],
   500%Z).

Definition internal_server_error (exn_text : exn -> string) (e : exn) : json * Z :=
  (JObj [ ("error", JStr "internal_server_error");
          ("error_description", JStr (str_exn exn_text e)) ],
   500%Z).

Definition method_not_allowed : json * Z :=
  (JObj [ ("error", JStr "method_not_allowed");
          ("message", JStr "Only GET /health and POST for MCP are supported") ],
   405%Z).

(** The three JSON-RPC methods the entry point answers. *)
Definition known_methods : list json :=
  [ JStr "initialize"; JStr "tools/list"; JStr "tools/call" ].

(** ** JSON as the two Cloud Functions write it

    Both entry points return dicts, which Flask writes with [jsonify]:
    its encoder sorts the keys of every object, at every depth.  A client
    that parses the body gets the objects with their keys in that
    order. *)

(** [k: v] put into fields that are sorted already, before the first key
    that is not smaller: fields with the same key keep their order. *)
Fixpoint insert_field (k : string) (v : json) (sorted : list (string * json))
  : list (string * json) :=
  match sorted with
  | [] => [ (k, v) ]
  | (k', v') :: rest =>
      if String.leb k k' then (k, v) :: sorted
      else (k', v') :: insert_field k v rest
  end.

Definition sort_fields (fields : list (string * json)) : list (string * json) :=
  foldr (fun kv sorted => insert_field (fst kv) (snd kv) sorted) [] fields.

(** [json.loads(json.dumps(j, sort_keys=True))] *)
Fixpoint sort_keys (j : json) : json :=
  match j with
  | JArr items => JArr (map sort_keys items)
  | JObj fields =>
      JObj (sort_fields (map (fun kv => (fst kv, sort_keys (snd kv))) fields))
  | _ => j
  end.

(** ** Vocabulary for the mock backend *)

(** What a client sees of a reply of the backend: its status and headers,
    and a body that parses to the JSON the backend returned, with the keys
    as Flask wrote them; [text] is the body as it went over the wire. *)
Definition http_of_reply (text : string) (r : Wiremock.reply) : http_response :=
  {| status_code := Wiremock.reply_status r;
     resp_headers := Wiremock.reply_headers r;
     text := text;
     json_body := Some (sort_keys (Wiremock.reply_body r)) |}.

(** The answer of the mock's entry point to a client's POST of [req] to
    [path] on [host]. *)
Definition mock_post (o : WiremockRoutes.outside) (exn_text : exn -> string)
    (host path text : string) (req : http_request) : http_outcome :=
  match WiremockRoutes.icoraintent_wiremock_function o exn_text
          {| WiremockRoutes.fr_method := "POST";
             WiremockRoutes.fr_path := path;
             WiremockRoutes.fr_host := host;
             WiremockRoutes.fr_headers := req_headers req;
             WiremockRoutes.fr_form := form_of req;
             WiremockRoutes.fr_decodes := true |} with
  | Ok r => Response (http_of_reply text r)
  | Raise e => Failed e
  end.

(** The answer of the mock's entry point to a client's GET of [path] on
    [host]. *)
Definition mock_get (o : WiremockRoutes.outside) (exn_text : exn -> string)
    (host path text : string) : http_outcome :=
  match WiremockRoutes.icoraintent_wiremock_function o exn_text
          {| WiremockRoutes.fr_method := "GET";
             WiremockRoutes.fr_path := path;
             WiremockRoutes.fr_host := host;
             WiremockRoutes.fr_headers := [];
             WiremockRoutes.fr_form := [];
             WiremockRoutes.fr_decodes := true |} with
  | Ok r => Response (http_of_reply text r)
  | Raise e => Failed e
  end.

Definition token_path : string :=
  "/auth/keycloak_realm/protocol/openid-connect/token".

(** An identifier as [uuid.uuid4().hex] gives it: digits of lower-case
    hexadecimal, at least ten of them. *)
Definition is_uuid_hex (hex : string) : bool :=
  forallb WiremockRoutes.is_lower_hex (list_ascii_of_string hex)
  && Nat.leb 10 (String.length hex).

(** The paths the entry point answers whatever the method is, and the
    ones it answers to a POST only. *)
Definition open_paths : list string :=
  [ "/"; "/test"; "/health"; "/__admin/mappings"; "/docs" ].

Definition post_paths : list string :=
  [ token_path; "/intent/" ].

Definition example_outside : WiremockRoutes.outside :=
  {| WiremockRoutes.uuid4_hex := fun _ => "0123456789abcdef0123456789abcdef";
     WiremockRoutes.utcnow_isoformat := "2025-06-11T10:00:00";
     WiremockRoutes.root_endpoint := Raise TypeError;
     WiremockRoutes.created := inl "validation failed" |}.

(** A backend that answers every request as the mock's token endpoint
    does. *)
Definition mock_token_http (n : nat) (req : http_request) : http_outcome :=
  mock_post example_outside example_exn_text "mock" token_path "{}" req.

(** ** Vocabulary for the agent *)

(** What a client sees of an answer of the MCP entry point: its status, and
    a body that parses to the JSON the entry point returned, with the keys
    as Flask wrote them; [dumps] writes the body out. *)
Definition http_of_answer (dumps : json -> string) (answer : json * Z) : http_response :=
  {| status_code := snd answer;
     resp_headers := [ ("Content-Type", "application/json") ];
     text := dumps (fst answer);
     json_body := Some (sort_keys (fst answer)) |}.

(** [requests.post] and [requests.get] when the MCP server behind
    [MCP_FUNCTION_URL] is the entry point [serve]. *)
Definition entry_point_post {W} (serve : mcp_request -> ST W (json * Z))
    (dumps : json -> string) (body : json) : ST W http_response :=
  fun w =>
    match serve {| rq_method := "POST"; rq_path := "/"; rq_json := Ok body |} w with
    | (Ok answer, w') => (Ok (http_of_answer dumps answer), w')
    | (Raise e, w') => (Raise e, w')
    end.

Definition entry_point_get {W} (serve : mcp_request -> ST W (json * Z))
    (dumps : json -> string) (path : string) : ST W http_response :=
  fun w =>
    match serve {| rq_method := "GET"; rq_path := path;
                   rq_json := Raise JSONDecodeError |} w with
    | (Ok answer, w') => (Ok (http_of_answer dumps answer), w')
    | (Raise e, w') => (Raise e, w')
    end.

(** The answers of [call_mcp_tool]. *)
Definition tool_succeeded (result_text : json) : json :=
  JObj [ ("status", JStr "success"); ("result", result_text) ].

Definition http_error (status : Z) (body : string) : json :=
  JObj [ ("status", JStr "error");
         ("error_message",
          JStr ("HTTP " +:+ pretty status +:+ ": " +:+ utf8_take 200 body)) ].

(** The arguments [create_network_intent] sends. *)
Definition intent_arguments (name description intent_type : json)
    (bounds : string * string) : json :=
  JObj [ ("name", name);
         ("description", description);
         ("intentType", intent_type);
         ("validFor", JObj [ ("startDateTime", JStr (fst bounds));
                             ("endDateTime", JStr (snd bounds)) ]) ].

(** The arguments [configure_mcp_auth] sends. *)
Definition auth_arguments (WIREMOCK_FUNCTION_URL : string) : json :=
  JObj [ ("wiremockUrl", JStr WIREMOCK_FUNCTION_URL);
         ("clientId", JStr "test-client");
         ("clientSecret", JStr "test-secret");
         ("username", JStr "test-user");
         ("password", JStr "test-password") ].

(** The answer of [test_mcp_workflow] when all three steps went through. *)
Definition workflow_passed : json :=
  JObj [ ("status", JStr "success");
         ("message", JStr "Complete MCP workflow test passed");
         ("test_intent_id", JStr "TestIntent");
         ("steps_completed",
          JArr [ JStr "status_check"; JStr "auth_config"; JStr "intent_creation" ]) ].

(** The error message of an answer of the agent, when it has one. *)
Definition error_message_of (answer : json) : option string :=
  match assoc "error_message" (json_fields answer) with
  | Some (JStr msg) => Some msg
  | _ => None
  end.

(** The two answers of [create_network_intent], for the answer [result]
    of [call_mcp_tool]. *)
Definition intent_created_answer (value_text : json -> string)
    (name description intent_type max_participants quality longitude latitude : json)
    (bounds : string * string) (result : json) : json :=
  JObj [ ("status", JStr "success");
         ("intent_id", name);
         ("message",
          JStr ("Network intent '" +:+ format_value value_text name
                +:+ "' created successfully"));
         ("configuration",
          JObj [ ("name", name);
                 ("description", description);
                 ("intent_type", intent_type);
                 ("start_time", JStr (fst bounds));
                 ("end_time", JStr (snd bounds));
                 ("intent_typ", intent_type);
                 ("quality", quality);
                 ("max_participants", max_participants);
                 ("coordinates",
                  if json_ne_zero longitude || json_ne_zero latitude
                  then JArr [ longitude; latitude ]
                  else JNull) ]);
         ("mcp_result", result) ].

Definition intent_not_created_answer (value_text : json -> string) (result : json)
  : json :=
  JObj [ ("status", JStr "error");
         ("error_message",
          JStr ("Failed to create intent: "
                +:+ format_value value_text
                      (default (JStr "Unknown error")
                         (assoc "error_message" (json_fields result)))));
         ("mcp_result", result) ].

(** ** The services of the examples *)

(** A backend whose pages cannot be fetched. *)
Definition unreachable_get (n : nat) (url : string) : http_outcome :=
  Failed (TransportError "connection refused").

(** The MCP server of the examples, in front of a backend that cannot be
    reached. *)
Definition example_server : mcp_request -> ST world (json * Z) :=
  mcp_server example_clock unreachable_http unreachable_get example_exn_text
    example_value_text example_json_dumps (fun _ => "2025-06-11T10:00:00")
    "https://mock" "test-client" "test-secret" "test-user" "test-password".

Definition example_day : string * string :=
  ("2025-06-11T00:00:00", "2025-06-11T23:59:59").

(** [s] without the prefix [p], when it starts with it. *)
Fixpoint without_prefix (p s : string) : option string :=
  match p, s with
  | EmptyString, _ => Some s
  | String a p', String b s' =>
      if Ascii.eqb a b then without_prefix p' s' else None
  | String _ _, EmptyString => None
  end.

(** The pages of the mock's entry point, behind [https://mock]. *)
Definition mock_pages (n : nat) (url : string) : http_outcome :=
  match without_prefix "https://mock" url with
  | Some path => mock_get example_outside example_exn_text "mock" path "{}"
  | None => Failed (TransportError "connection refused")
  end.

(** A call of the mock's entry point that creates the intent
    [intent-0123456789]. *)
Definition creating_outside : WiremockRoutes.outside :=
  {| WiremockRoutes.uuid4_hex := fun _ => "0123456789abcdef0123456789abcdef";
     WiremockRoutes.utcnow_isoformat := "2025-06-11T10:00:00";
     WiremockRoutes.root_endpoint := Raise TypeError;
     WiremockRoutes.created :=
       inr (JObj [ ("id", JStr "intent-0123456789"); ("status", JStr "created") ],
            "intent-0123456789") |}.

Definition create_intent_request : WiremockRoutes.function_request :=
  {| WiremockRoutes.fr_method := "POST";
     WiremockRoutes.fr_path := "/intent/";
     WiremockRoutes.fr_host := "mock";
     WiremockRoutes.fr_headers := [ ("Authorization", "Bearer cloud_mock_token_1") ];
     WiremockRoutes.fr_form := [];
     WiremockRoutes.fr_decodes := true |}.

Definition get_intent_request : WiremockRoutes.function_request :=
  {| WiremockRoutes.fr_method := "GET";
     WiremockRoutes.fr_path := "/intent/intent-0123456789";
     WiremockRoutes.fr_host := "mock";
     WiremockRoutes.fr_headers := [];
     WiremockRoutes.fr_form := [];
     WiremockRoutes.fr_decodes := true |}.

(** ** Vocabulary for the payload *)

(** The keys a payload can have. *)
Definition payload_keys : list string :=
  [ "name"; "description"; "type"; "deliveryExpectations"; "validFor";
    "propertyExpectations"; "expression" ].

(** A request with the three mandatory fields and nothing else. *)
Definition minimal_request : json :=
  JObj [ ("name", JStr "Match day");
         ("description", JStr "Stadium broadcast");
         ("deliveryExpectations", JArr []) ].

(** A request without a name. *)
Definition nameless_request : json :=
  JObj [ ("description", JStr "Stadium broadcast");
         ("deliveryExpectations", JArr []) ].

(** A call of the mock's entry point that creates the intent
    [intent-0123456789], with the fields in the order the response model
    declares them. *)
Definition declaring_outside : WiremockRoutes.outside :=
  {| WiremockRoutes.uuid4_hex := fun _ => "0123456789abcdef0123456789abcdef";
     WiremockRoutes.utcnow_isoformat := "2025-06-11T10:00:00";
     WiremockRoutes.root_endpoint := Raise TypeError;
     WiremockRoutes.created :=
       inr (JObj [ ("id", JStr "intent-0123456789");
                   ("name", JStr "Match day");
                   ("description", JStr "Stadium broadcast");
                   ("type", JStr "Intent");
                   ("status", JStr "created") ],
            "intent-0123456789") |}.

(** The mock's entry point behind [https://mock], for the requests a
    client posts; every intent it creates is [intent-0123456789]. *)
Definition mock_backend (n : nat) (req : http_request) : http_outcome :=
  match without_prefix "https://mock" (req_url req) with
  | Some path => mock_post declaring_outside example_exn_text "mock" path "{}" req
  | None => Failed (TransportError "connection refused")
  end.

(** A printer that shows the keys of an object in the order it has
    them. *)
Definition keys_in_order (v : json) : string :=
  join "," (map fst (json_fields v)).

(** ** Vocabulary for the agent service *)

(** A JSON-RPC request as [parse_jsonrpc_message] accepts it. *)
Definition well_formed (request_data : json) : Prop :=
  exists fields,
    request_data = JObj fields
    /\ assoc "jsonrpc" fields = Some (JStr "2.0")
    /\ is_Some (assoc "id" fields)
    /\ is_Some (assoc "method" fields).

(** The [error] member of the answers with status 200. *)
Definition invalid_request (kind message : string) (input : json) : json :=
  JObj [ ("code", JInt (-32600));
         ("message", JStr "Request payload validation error");
         ("data", JArr [ JObj [ ("type", JStr kind);
                                ("message", JStr message);
                                ("input", input) ] ]) ].

(** The [input] the answer to a request that is not well formed quotes. *)
Definition quoted_input (request : AgentService.service_request) (request_data : json)
  : json :=
  if bool_decide (AgentService.sr_content_type request = Some "application/json")
  then request_data
  else JObj [].

(** A message/send request, and a language model that answers every
    message with the same task. *)
Definition send_request : AgentService.service_request :=
  {| AgentService.sr_json :=
       Ok (JObj [ ("jsonrpc", JStr "2.0");
                  ("id", JStr "7");
                  ("method", JStr "message/send");
                  ("params", JObj [ ("message", JObj [ ("parts", JArr []) ]) ]) ]);
     AgentService.sr_content_type := Some "application/json" |}.

Definition refusing_process (method params : json) (s : unit)
  : (AgentService.raised + json) * unit :=
  (inl (AgentService.ValueErrorOf "No message parts found"), s).

(** * Proofs *)

Local Open Scope nat_scope.

(** * Running a computation step by step *)

Lemma bind_ok {S A B} (m : ST S A) (k : A -> ST S B) s a s' :
  m s = (Ok a, s') -> bind m k s = k a s'.
Proof. unfold bind. intros ->. reflexivity. Qed.

Lemma bind_raise {S A B} (m : ST S A) (k : A -> ST S B) s e s' :
  m s = (Raise e, s') -> bind m k s = (Raise e, s').
Proof. unfold bind. intros ->. reflexivity. Qed.

Lemma bind_inv {S A B} (m : ST S A) (k : A -> ST S B) s b s'' :
  bind m k s = (Ok b, s'') ->
  exists a s', m s = (Ok a, s') /\ k a s' = (Ok b, s'').
Proof.
  unfold bind. destruct (m s) as [[a|e] s'] eqn:E; intros H.
  - exists a, s'. split; [reflexivity | exact H].
  - discriminate H.
Qed.

Lemma bind_cases {S A B} (m : ST S A) (k : A -> ST S B) s out :
  bind m k s = out ->
  (exists e s1, m s = (Raise e, s1) /\ out = (Raise e, s1))
  \/ (exists a s1, m s = (Ok a, s1) /\ k a s1 = out).
Proof.
  unfold bind. destruct (m s) as [[a|e] s1]; intros <-; eauto.
Qed.

Lemma ok_pair_inj {S A} (a b : A) (s s' : S) :
  (Ok a, s) = (Ok b, s') -> a = b /\ s = s'.
Proof. intros [= -> ->]. auto. Qed.

(** * Reading the store *)

Lemma truthy_run v h :
  Store.truthy v h =
  match truthy_in h v with
  | Some b => (Ok b, h)
  | None => (Raise SystemError, h)
  end.
Proof.
  destruct v; try reflexivity. simpl.
  destruct (h !! l) as [[|]|]; reflexivity.
Qed.

Lemma truthy_inv v h b h' :
  Store.truthy v h = (Ok b, h') -> h' = h /\ truthy_in h v = Some b.
Proof.
  rewrite truthy_run. destruct (truthy_in h v); intros H; inversion H; auto.
Qed.

Lemma getitem_inv v k h x h' :
  Store.getitem v k h = (Ok x, h') ->
  h' = h /\ exists entries, is_dict h v entries /\ assoc k entries = Some x.
Proof.
  unfold Store.getitem, is_dict.
  destruct v as [| | | |l]; try discriminate.
  destruct (h !! l) as [[items|entries]|] eqn:E; try discriminate.
  destruct (assoc k entries) eqn:Ea; intros H; inversion H; subst.
  split; [reflexivity|]. exists entries. split; [|assumption]. exists l. auto.
Qed.

Lemma getitem_ok l k h entries x :
  h !! l = Some (ODict entries) -> assoc k entries = Some x ->
  Store.getitem (VRef l) k h = (Ok x, h).
Proof. unfold Store.getitem. intros -> ->. reflexivity. Qed.

Lemma dict_get_inv v k h x h' :
  Store.dict_get v k h = (Ok x, h') ->
  h' = h /\ exists entries, is_dict h v entries /\ x = default VNone (assoc k entries).
Proof.
  unfold Store.dict_get, is_dict.
  destruct v as [| | | |l]; try discriminate.
  destruct (h !! l) as [[items|entries]|] eqn:E; try discriminate.
  intros H; inversion H; subst. split; [reflexivity|].
  exists entries. split; [|reflexivity]. exists l. auto.
Qed.

Lemma dict_get_ok l k h entries :
  h !! l = Some (ODict entries) ->
  Store.dict_get (VRef l) k h = (Ok (default VNone (assoc k entries)), h).
Proof. unfold Store.dict_get. intros ->. reflexivity. Qed.

Lemma setitem_ok l k v h entries :
  h !! l = Some (ODict entries) ->
  Store.setitem (VRef l) k v h = (Ok tt, <[l := ODict (assoc_set k v entries)]> h).
Proof. unfold Store.setitem. intros ->. reflexivity. Qed.

Lemma dict_contains_ok l k h entries :
  h !! l = Some (ODict entries) ->
  Store.dict_contains (VRef l) k h = (Ok (bool_decide (is_Some (assoc k entries))), h).
Proof. unfold Store.dict_contains. intros ->. reflexivity. Qed.

Lemma alloc_run o h : Store.alloc o h = (Ok (VRef (length h)), h ++ [o]).
Proof. reflexivity. Qed.

(** * Stores without dangling references *)

Lemma closed_lookup h l o :
  closed h = true -> h !! l = Some o -> obj_ok (length h) o = true.
Proof.
  unfold closed. rewrite forallb_forall. intros Hc Hl.
  apply Hc. apply list_elem_of_In. eapply list_elem_of_lookup_2; eauto.
Qed.

Lemma assoc_In {A} k (l : list (string * A)) v :
  assoc k l = Some v -> In (k, v) l.
Proof.
  induction l as [|[k' v'] l IH]; simpl; [discriminate|].
  destruct (String.eqb k k') eqn:E.
  - apply String.eqb_eq in E. intros [= ->]. subst. left; reflexivity.
  - intros H. right. auto.
Qed.

Lemma closed_entry h l entries k v :
  closed h = true -> h !! l = Some (ODict entries) -> assoc k entries = Some v ->
  val_ok (length h) v = true.
Proof.
  intros Hc Hl Ha. pose proof (closed_lookup _ _ _ Hc Hl) as Ho. simpl in Ho.
  rewrite forallb_forall in Ho. apply (Ho (k, v)). apply assoc_In; assumption.
Qed.

Lemma closed_arg h l entries k :
  closed h = true -> h !! l = Some (ODict entries) ->
  val_ok (length h) (default VNone (assoc k entries)) = true.
Proof.
  intros Hc Hl. destruct (assoc k entries) eqn:E; simpl; [|reflexivity].
  eapply closed_entry; eauto.
Qed.

Lemma closed_item h l items v :
  closed h = true -> h !! l = Some (OList items) -> In v items ->
  val_ok (length h) v = true.
Proof.
  intros Hc Hl Hin. pose proof (closed_lookup _ _ _ Hc Hl) as Ho. simpl in Ho.
  rewrite forallb_forall in Ho. auto.
Qed.

(** A value that is in the store keeps its truth value and its contents
    when the store grows. *)
Lemma truthy_in_grow h ext v :
  val_ok (length h) v = true -> truthy_in (h ++ ext) v = truthy_in h v.
Proof.
  destruct v; try reflexivity. unfold val_ok, truthy_in. intros Hl%Nat.ltb_lt.
  rewrite lookup_app_l by assumption. reflexivity.
Qed.

Lemma lookup_fresh (h R : list pyobj) i : (h ++ R) !! (length h + i) = R !! i.
Proof. rewrite lookup_app_r by lia. f_equal. lia. Qed.

Lemma lookup_fresh0 (h R : list pyobj) o : (h ++ o :: R) !! length h = Some o.
Proof. apply list_lookup_middle. reflexivity. Qed.

Lemma set_fresh0 (h R : list pyobj) o o' :
  <[length h := o']> (h ++ o :: R) = h ++ o' :: R.
Proof.
  rewrite insert_app_r_alt by lia. rewrite Nat.sub_diag. reflexivity.
Qed.

Lemma set_middle (X R : list pyobj) o o' i :
  i = length X -> <[i := o']> (X ++ o :: R) = X ++ o' :: R.
Proof. intros ->. apply set_fresh0. Qed.

Lemma getitem_at a args k h x h' :
  h !! a = Some (ODict args) ->
  Store.getitem (VRef a) k h = (Ok x, h') -> h' = h /\ assoc k args = Some x.
Proof.
  intros Ha H. apply getitem_inv in H as (-> & es & (l & [= <-] & Hl) & Hx).
  rewrite Ha in Hl. injection Hl as <-. auto.
Qed.

Lemma is_dict_grow h ext v entries :
  is_dict h v entries -> is_dict (h ++ ext) v entries.
Proof. intros (l & -> & Hl). exists l. split; [reflexivity|]. apply lookup_app_l_Some, Hl. Qed.

Lemma is_dict_shrink h ext v entries :
  val_ok (length h) v = true -> is_dict (h ++ ext) v entries -> is_dict h v entries.
Proof.
  intros Hv (l & -> & Hl). exists l. split; [reflexivity|].
  apply Nat.ltb_lt in Hv. rewrite lookup_app_l in Hl; assumption.
Qed.

(** ** The coordinates of a service area *)

Lemma geo_point_ok h p c :
  coords_of h p c ->
  geo_point p h = (Ok (VRef (length h)), h ++ [geo_object c]).
Proof.
  intros (d & (l & -> & Hl) & Hlo & Hla). unfold geo_point.
  erewrite bind_ok by (eapply getitem_ok; eauto).
  erewrite bind_ok by (eapply getitem_ok; eauto).
  reflexivity.
Qed.

Lemma geo_point_inv h p g h' :
  geo_point p h = (Ok g, h') ->
  exists c, coords_of h p c /\ g = VRef (length h) /\ h' = h ++ [geo_object c].
Proof.
  unfold geo_point. intros H.
  apply bind_inv in H as (lo & h1 & H1 & H).
  apply getitem_inv in H1 as (-> & d & Hd & Hlo).
  apply bind_inv in H as (la & h1 & H1 & H).
  apply getitem_inv in H1 as (-> & d' & Hd' & Hla).
  destruct Hd as (l & -> & Hl). destruct Hd' as (l' & [= <-] & Hl').
  rewrite Hl in Hl'. injection Hl' as <-.
  injection H as <- <-.
  exists (lo, la). split; [|auto]. exists d. split; [|auto]. exists l; auto.
Qed.

Lemma geo_loop_ok pts : forall h coords,
  Forall2 (coords_of h) pts coords ->
  Store.for_each geo_point pts h
  = (Ok (map VRef (seq (length h) (length coords))), h ++ map geo_object coords).
Proof.
  induction pts as [|p pts IH]; intros h coords Hc.
  - apply Forall2_nil_inv_l in Hc as ->. simpl. rewrite app_nil_r. reflexivity.
  - apply Forall2_cons_inv_l in Hc as (c & coords' & Hp & Hrest & ->).
    simpl. erewrite bind_ok by (apply geo_point_ok; eassumption).
    erewrite bind_ok.
    2:{ apply IH. eapply Forall2_impl; [exact Hrest|].
        intros q cq (d & Hd & ?). exists d. split; [|assumption].
        apply is_dict_grow, Hd. }
    unfold ret. rewrite length_app. simpl.
    rewrite <- app_assoc. simpl. repeat f_equal. lia.
Qed.

Lemma val_ok_mono n m v : n <= m -> val_ok n v = true -> val_ok m v = true.
Proof.
  destruct v; simpl; auto. intros Hnm H%Nat.ltb_lt. apply Nat.ltb_lt. lia.
Qed.

Lemma coords_shrink h ext p c :
  val_ok (length h) p = true -> coords_of (h ++ ext) p c -> coords_of h p c.
Proof.
  intros Hv (d & Hd & H). exists d. split; [|exact H].
  eapply is_dict_shrink; eassumption.
Qed.

Lemma coords_grow h ext p c : coords_of h p c -> coords_of (h ++ ext) p c.
Proof. intros (d & Hd & H). exists d. split; [|exact H]. apply is_dict_grow, Hd. Qed.

Lemma geo_loop_inv n pts : forall h gs h',
  n <= length h ->
  Forall (fun p => val_ok n p = true) pts ->
  Store.for_each geo_point pts h = (Ok gs, h') ->
  exists coords,
    Forall2 (coords_of h) pts coords
    /\ gs = map VRef (seq (length h) (length coords))
    /\ h' = h ++ map geo_object coords.
Proof.
  induction pts as [|p pts IH]; intros h gs h' Hn Hv H.
  - injection H as <- <-. exists []. rewrite app_nil_r. auto.
  - simpl in H. apply Forall_cons in Hv as [Hp Hv].
    apply bind_inv in H as (g & h1 & H1 & H).
    apply geo_point_inv in H1 as (c & Hc & -> & ->).
    apply bind_inv in H as (gs' & h2 & H2 & H).
    apply IH in H2 as (coords & Hcs & -> & ->); [| rewrite length_app; lia | assumption].
    injection H as <- <-.
    exists (c :: coords). split; [|split].
    + constructor; [assumption|].
      clear -Hcs Hv Hn. induction Hcs; constructor.
      * apply Forall_cons in Hv as [Hx _].
        eapply coords_shrink; [|eassumption]. eapply val_ok_mono; eassumption.
      * apply IHHcs. apply Forall_cons in Hv as [_ Hv]. exact Hv.
    + rewrite length_app. simpl. repeat f_equal. lia.
    + rewrite <- app_assoc. reflexivity.
Qed.

(** ** What a run of the builder leaves in the store *)

Lemma dict_get_at a args k (h : list pyobj) x h' :
  h !! a = Some (ODict args) ->
  Store.dict_get (VRef a) k h = (Ok x, h') -> h' = h /\ x = arg args k.
Proof.
  intros Ha H. rewrite (dict_get_ok _ _ _ _ Ha) in H. injection H as <- <-. auto.
Qed.

Lemma assoc_arg args k v : assoc k args = Some v -> arg args k = v.
Proof. unfold arg. intros ->. reflexivity. Qed.

Lemma truthy_arg h args k :
  truthy_in h (arg args k) = Some true -> assoc k args = Some (arg args k).
Proof.
  unfold arg. destruct (assoc k args); [reflexivity|]. simpl. discriminate.
Qed.

Lemma bound_append_inv v (h : list pyobj) l h' :
  Store.bound_append v h = (Ok l, h') ->
  h' = h /\ v = VRef l /\ exists items, h !! l = Some (OList items).
Proof.
  unfold Store.bound_append. destruct v as [| | | |l0]; try discriminate.
  destruct (h !! l0) as [[items|]|] eqn:E; try discriminate.
  intros [= <- <-]. eauto.
Qed.

Lemma bound_append_ok l (h : list pyobj) items :
  h !! l = Some (OList items) -> Store.bound_append (VRef l) h = (Ok l, h).
Proof. unfold Store.bound_append. intros ->. reflexivity. Qed.

Lemma list_append_ok l x (h : list pyobj) items :
  h !! l = Some (OList items) ->
  Store.list_append l x h = (Ok tt, <[l := OList (items ++ [x])]> h).
Proof. unfold Store.list_append. intros ->. reflexivity. Qed.

Lemma list_append_inv l x (h : list pyobj) h' :
  Store.list_append l x h = (Ok tt, h') ->
  exists items, h !! l = Some (OList items) /\ h' = <[l := OList (items ++ [x])]> h.
Proof.
  unfold Store.list_append. destruct (h !! l) as [[items|]|]; try discriminate.
  intros [= <-]. eauto.
Qed.

Lemma iter_list_ok l (h : list pyobj) items :
  h !! l = Some (OList items) -> Store.iter (VRef l) h = (Ok items, h).
Proof. unfold Store.iter. intros ->. reflexivity. Qed.

(** Only a list of coordinate dicts gets through the comprehension: the
    keys of a dict and the characters of a string are strings, which have
    no ["longitude"]. *)
Lemma iter_geo_inv v (h : list pyobj) points h1 gs h2 :
  truthy_in h v = Some true ->
  Store.iter v h = (Ok points, h1) ->
  Store.for_each geo_point points h1 = (Ok gs, h2) ->
  h1 = h /\ is_list h v points.
Proof.
  unfold Store.iter, truthy_in.
  destruct v as [| | |s|l]; try discriminate.
  - intros Ht [= <- <-]. destruct s as [|c s]; [discriminate|].
    simpl. unfold bind, geo_point, bind. simpl. discriminate.
  - destruct (h !! l) as [[items|entries]|] eqn:E; try discriminate.
    + intros _ [= <- <-] _. split; [reflexivity|]. exists l. auto.
    + intros Ht [= <- <-]. destruct entries as [|[k x] entries]; [discriminate|].
      simpl. unfold bind, geo_point, bind. simpl. discriminate.
Qed.

Lemma assoc_app_l {A} k (l1 l2 : list (string * A)) v :
  assoc k l1 = Some v -> assoc k (l1 ++ l2) = Some v.
Proof.
  induction l1 as [|[k' v'] l1 IH]; simpl; [discriminate|].
  destruct (String.eqb k k'); auto.
Qed.

Lemma assoc_app_r {A} k (l1 l2 : list (string * A)) :
  assoc k l1 = None -> assoc k (l1 ++ l2) = assoc k l2.
Proof.
  induction l1 as [|[k' v'] l1 IH]; simpl; [reflexivity|].
  destruct (String.eqb k k'); [discriminate|auto].
Qed.

Lemma assoc_set_app {A} k (v : A) (l : list (string * A)) :
  assoc k l = None -> assoc_set k v l = l ++ [(k, v)].
Proof.
  induction l as [|[k' v'] l IH]; simpl; [reflexivity|].
  destruct (String.eqb k k'); [discriminate|]. intros H. rewrite IH; auto.
Qed.

(** The keys a payload has after the optional fields are copied. *)
Lemma first_entries_pe h args :
  assoc "propertyExpectations" (first_entries h args)
  = match truthy_in h (arg args "propertyExpectations") with
    | Some true => Some (arg args "propertyExpectations")
    | _ => None
    end.
Proof.
  unfold first_entries, copied.
  destruct (truthy_in h (arg args "validFor")) as [[|]|];
    destruct (truthy_in h (arg args "propertyExpectations")) as [[|]|];
    reflexivity.
Qed.

Lemma first_entries_vf h args :
  assoc "validFor" (first_entries h args)
  = match truthy_in h (arg args "validFor") with
    | Some true => Some (arg args "validFor")
    | _ => None
    end.
Proof.
  unfold first_entries, copied.
  destruct (truthy_in h (arg args "validFor")) as [[|]|];
    destruct (truthy_in h (arg args "propertyExpectations")) as [[|]|];
    reflexivity.
Qed.

Lemma first_entries_expression h args :
  assoc "expression" (first_entries h args) = None.
Proof.
  unfold first_entries, copied.
  destruct (truthy_in h (arg args "validFor")) as [[|]|];
    destruct (truthy_in h (arg args "propertyExpectations")) as [[|]|];
    reflexivity.
Qed.

Lemma expression_objects_length n : length (expression_objects n) = 5.
Proof. reflexivity. Qed.

(** Every run that returns a payload ends in one of the four shapes. *)
Lemma build_inv (h : list pyobj) a args p h' :
  closed h = true ->
  h !! a = Some (ODict args) ->
  _build_cloud_intent_payload (VRef a) h = (Ok p, h') ->
  built h args p h'
  /\ is_Some (assoc "name" args)
  /\ is_Some (assoc "description" args)
  /\ is_Some (assoc "deliveryExpectations" args).
Proof.
  intros Hc Ha Hrun. unfold _build_cloud_intent_payload in Hrun.
  pose proof (lookup_lt_Some _ _ _ Ha) as Hlt.
  apply bind_inv in Hrun as (name & h1 & H1 & Hrun).
  apply (getitem_at _ _ _ _ _ _ Ha) in H1 as (-> & Hname).
  apply bind_inv in Hrun as (description & h1 & H1 & Hrun).
  apply (getitem_at _ _ _ _ _ _ Ha) in H1 as (-> & Hdesc).
  apply bind_inv in Hrun as (de & h1 & H1 & Hrun).
  apply (getitem_at _ _ _ _ _ _ Ha) in H1 as (-> & Hde).
  split; [|rewrite Hname, Hdesc, Hde; eauto].
  apply bind_inv in Hrun as (payload & h1 & H1 & Hrun).
  injection H1 as <- <-.
  rewrite <- (assoc_arg _ _ _ Hname), <- (assoc_arg _ _ _ Hdesc),
    <- (assoc_arg _ _ _ Hde) in Hrun.
  clear name description de Hname Hdesc Hde.
  (* validFor *)
  apply bind_inv in Hrun as (vf & h1 & H1 & Hrun).
  apply (dict_get_at a args) in H1 as (-> & ->); [|apply lookup_app_l_Some, Ha].
  apply bind_inv in Hrun as (has_vf & h1 & H1 & Hrun).
  apply truthy_inv in H1 as (-> & Hvf).
  rewrite truthy_in_grow in Hvf by (eapply closed_arg; eassumption).
  apply bind_inv in Hrun as ([] & h1 & H1 & Hrun).
  assert (h1 = h ++ [ODict ([ ("name", arg args "name");
                              ("description", arg args "description");
                              ("type", VStr "Intent");
                              ("deliveryExpectations", arg args "deliveryExpectations") ]
                            ++ copied h args "validFor")]) as ->.
  { unfold copied. rewrite Hvf. destruct has_vf.
    - apply bind_inv in H1 as (v & h2 & H2 & H1).
      apply (getitem_at a args) in H2 as (-> & Hv); [|apply lookup_app_l_Some, Ha].
      rewrite (setitem_ok _ _ _ _ _ (lookup_fresh0 _ _ _)) in H1.
      injection H1 as <-. rewrite set_fresh0. rewrite (assoc_arg _ _ _ Hv). reflexivity.
    - injection H1 as <-. reflexivity. }
  clear H1 Hvf has_vf.
  (* propertyExpectations *)
  apply bind_inv in Hrun as (pe & h1 & H1 & Hrun).
  apply (dict_get_at a args) in H1 as (-> & ->); [|apply lookup_app_l_Some, Ha].
  apply bind_inv in Hrun as (has_pe & h1 & H1 & Hrun).
  apply truthy_inv in H1 as (-> & Hpe).
  rewrite truthy_in_grow in Hpe by (eapply closed_arg; eassumption).
  apply bind_inv in Hrun as ([] & h1 & H1 & Hrun).
  assert (h1 = h ++ [ODict (first_entries h args)]) as ->.
  { unfold first_entries. unfold copied at 2. rewrite Hpe. destruct has_pe.
    - apply bind_inv in H1 as (v & h2 & H2 & H1).
      apply (getitem_at a args) in H2 as (-> & Hv); [|apply lookup_app_l_Some, Ha].
      rewrite (setitem_ok _ _ _ _ _ (lookup_fresh0 _ _ _)) in H1.
      injection H1 as <-. rewrite set_fresh0. rewrite (assoc_arg _ _ _ Hv).
      unfold copied. destruct (truthy_in h (arg args "validFor")) as [[|]|]; reflexivity.
    - injection H1 as <-. rewrite app_nil_r. reflexivity. }
  clear H1.
  (* intentType *)
  apply bind_inv in Hrun as (it & h1 & H1 & Hrun).
  apply (dict_get_at a args) in H1 as (-> & ->); [|apply lookup_app_l_Some, Ha].
  apply bind_inv in Hrun as ([] & h1 & H1 & Hrun).
  injection Hrun as <- <-.
  fold (is_elb args) in H1.
  destruct (is_elb args) eqn:Helb.
  2:{ injection H1 as <-. apply built_plain. assumption. }
  (* the expression *)
  do 5 (apply bind_inv in H1 as (? & ? & H2 & H1); injection H2 as <- <-).
  repeat rewrite length_app in H1. cbn [length] in H1.
  repeat rewrite <- app_assoc in H1. cbn [app] in H1.
  apply bind_inv in H1 as ([] & h2 & H2 & H1).
  rewrite (setitem_ok _ _ _ _ _ (lookup_fresh0 _ _ _)) in H2.
  injection H2 as <-. rewrite set_fresh0 in H1.
  match type of H1 with
  | _ ?heap = _ =>
      replace heap
        with (h ++ ODict (first_entries h args ++ [("expression", VRef (length h + 5))])
                :: expression_objects (length h + 1)) in H1
  end.
  2:{ unfold first_entries, expression_objects, copied.
      replace (length h + 1 + 1 + 1 + 1 + 1) with (length h + 5) by lia.
      replace (length h + 1 + 1 + 1 + 1) with (length h + 1 + 3) by lia.
      replace (length h + 1 + 1 + 1) with (length h + 1 + 2) by lia.
      destruct (truthy_in h (arg args "validFor")) as [[|]|];
        destruct (truthy_in h (arg args "propertyExpectations")) as [[|]|];
        reflexivity. }
  (* serviceArea *)
  apply bind_inv in H1 as (sa & h2 & H2 & H1).
  apply (dict_get_at a args) in H2 as (-> & ->); [|apply lookup_app_l_Some, Ha].
  apply bind_inv in H1 as (has_sa & h2 & H2 & H1).
  apply truthy_inv in H2 as (-> & Hsa).
  rewrite truthy_in_grow in Hsa by (eapply closed_arg; eassumption).
  destruct has_sa.
  2:{ injection H1 as <-. apply built_expression; assumption. }
  (* the service area *)
  apply bind_inv in H1 as (area & h2 & H2 & H1).
  apply (getitem_at a args) in H2 as (-> & Harea); [|apply lookup_app_l_Some, Ha].
  apply assoc_arg in Harea as <-.
  pose proof (closed_arg _ _ _ "serviceArea" Hc Ha) as Hsa_ok. fold (arg args "serviceArea") in Hsa_ok.
  apply bind_inv in H1 as (points & h2 & H2 & H1).
  apply bind_inv in H1 as (geo & h3 & H3 & H1).
  eapply iter_geo_inv in H2 as (-> & Hlist); [| | exact H3].
  2:{ rewrite truthy_in_grow by assumption. exact Hsa. }
  destruct Hlist as (ls & Hls & Hpts). rewrite Hls in Hsa_ok.
  apply Nat.ltb_lt in Hsa_ok. rewrite lookup_app_l in Hpts by assumption.
  apply (geo_loop_inv (length h)) in H3 as (coords & Hcoords & -> & ->).
  2:{ rewrite length_app. lia. }
  2:{ apply Forall_forall. intros p Hp. eapply closed_item; eauto.
      apply list_elem_of_In, Hp. }
  assert (Hcoords_h : Forall2 (coords_of h) points coords).
  { pose proof (closed_lookup _ _ _ Hc Hpts) as Hok. simpl in Hok.
    rewrite forallb_forall in Hok.
    clear -Hcoords Hok. induction Hcoords; constructor.
    - eapply coords_shrink; [|eassumption]. apply Hok. left. reflexivity.
    - apply IHHcoords. intros q Hq. apply Hok. right. exact Hq. }
  clear Hcoords.
  set (P := ODict (first_entries h args ++ [("expression", VRef (length h + 5))])) in *.
  set (EO := expression_objects (length h + 1)) in *.
  set (G := map geo_object coords) in *.
  assert (HlenG : length G = length coords) by apply length_map.
  replace (length (h ++ P :: EO)) with (length h + 6) in H1
    by (rewrite length_app; simpl; lia).
  apply bind_inv in H1 as (geo_points & h2 & H2 & H1).
  injection H2 as <- <-.
  replace (length ((h ++ P :: EO) ++ G)) with (length h + 6 + length coords) in H1
    by (rewrite !length_app; simpl; lia).
  set (GL := OList (map VRef (seq (length h + 6) (length coords)))) in *.
  assert (HP0 : (h ++ P :: EO) !! length h = Some P) by apply lookup_fresh0.
  assert (Hfe : assoc "propertyExpectations" (first_entries h args ++ [("expression", VRef (length h + 5))])
                = if has_pe then Some (arg args "propertyExpectations") else None).
  { pose proof (first_entries_pe h args) as E. rewrite Hpe in E. destruct has_pe.
    - apply assoc_app_l, E.
    - rewrite assoc_app_r by exact E. reflexivity. }
  apply bind_inv in H1 as (present & h2 & H2 & H1).
  erewrite dict_contains_ok in H2 by (do 2 apply lookup_app_l_Some; exact HP0).
  apply ok_pair_inj in H2 as [<- <-]. rewrite Hfe in H1.
  destruct has_pe.
  - (* the caller's list is the target *)
    rewrite bool_decide_true in H1 by eauto. cbn [negb] in H1.
    apply bind_inv in H1 as ([] & h2 & H2 & H1). apply ok_pair_inj in H2 as [_ <-].
    apply bind_inv in H1 as (target & h2 & H2 & H1).
    eapply getitem_at in H2 as (-> & Htarget);
      [|do 2 apply lookup_app_l_Some; exact HP0].
    rewrite Hfe in Htarget. injection Htarget as <-.
    apply bind_inv in H1 as (lpe & h2 & H2 & H1).
    apply bound_append_inv in H2 as (-> & Hlpe & items0 & Hitems0).
    pose proof (closed_arg _ _ _ "propertyExpectations" Hc Ha) as Hpe_ok.
    fold (arg args "propertyExpectations") in Hpe_ok. rewrite Hlpe in Hpe_ok.
    apply Nat.ltb_lt in Hpe_ok.
    do 2 (apply bind_inv in H1 as (? & ? & H2 & H1); apply ok_pair_inj in H2 as [<- <-]).
    apply list_append_inv in H1 as (items & Hitems & ->).
    rewrite !lookup_app_l in Hitems by (rewrite ?length_app; lia).
    replace (length ((((h ++ P :: EO) ++ G) ++ [GL])
                     ++ [ODict [("elb:areaOfService", VRef (length h + 6 + length coords))]]))
      with (length h + 8 + length coords)
      by (rewrite !length_app; simpl; lia).
    replace (length (((h ++ P :: EO) ++ G) ++ [GL]))
      with (length h + 7 + length coords)
      by (rewrite !length_app; simpl; lia).
    rewrite !insert_app_l by (rewrite ?length_app; lia).
    repeat rewrite <- app_assoc. cbn [app].
    eapply built_area_appended; eauto.
    + exists ls. auto.
    + rewrite Hlpe in Hpe. unfold truthy_in in Hpe. rewrite Hitems in Hpe.
      intros ->. discriminate.
  - (* a fresh list is the target *)
    rewrite bool_decide_false in H1 by (intros [? ?]; discriminate). cbn [negb] in H1.
    apply bind_inv in H1 as ([] & h2 & H2 & H1).
    apply bind_inv in H2 as (fresh & h3 & H3 & H2).
    apply ok_pair_inj in H3 as [<- <-].
    replace (length (((h ++ P :: EO) ++ G) ++ [GL]))
      with (length h + 7 + length coords) in H2
      by (rewrite !length_app; simpl; lia).
    erewrite setitem_ok in H2 by (do 3 apply lookup_app_l_Some; exact HP0).
    apply ok_pair_inj in H2 as [_ <-].
    rewrite assoc_set_app in H1 by exact Hfe.
    rewrite !insert_app_l in H1 by (rewrite ?length_app; simpl; lia).
    rewrite set_fresh0 in H1.
    set (P' := ODict ((first_entries h args ++ [("expression", VRef (length h + 5))])
                      ++ [("propertyExpectations", VRef (length h + 7 + length coords))])) in *.
    assert (HP0' : (h ++ P' :: EO) !! length h = Some P') by apply lookup_fresh0.
    apply bind_inv in H1 as (target & h2 & H2 & H1).
    eapply getitem_at in H2 as (-> & Htarget);
      [|do 3 apply lookup_app_l_Some; exact HP0'].
    rewrite assoc_app_r in Htarget by exact Hfe. simpl in Htarget.
    injection Htarget as <-.
    apply bind_inv in H1 as (lpe & h2 & H2 & H1).
    apply bound_append_inv in H2 as (-> & [= <-] & _).
    replace (length ((((h ++ P' :: EO) ++ G) ++ [GL]) ++ [OList []]))
      with (length h + 8 + length coords) in H1
      by (rewrite !length_app; simpl; lia).
    do 2 (apply bind_inv in H1 as (? & ? & H2 & H1); apply ok_pair_inj in H2 as [<- <-]).
    replace (length (((((h ++ P' :: EO) ++ G) ++ [GL]) ++ [OList []])
                     ++ [ODict [("elb:areaOfService", VRef (length h + 6 + length coords))]]))
      with (length h + 9 + length coords) in H1
      by (rewrite !length_app; simpl; lia).
    apply list_append_inv in H1 as (items & Hitems & ->).
    replace (length ((((h ++ P' :: EO) ++ G) ++ [GL]) ++ [OList []]))
      with (length h + 8 + length coords)
      by (rewrite !length_app; simpl; lia).
    rewrite !lookup_app_l in Hitems by (rewrite !length_app; simpl; lia).
    assert (Hx : length h + 7 + length coords = length (((h ++ P' :: EO) ++ G) ++ [GL]))
      by (rewrite !length_app; simpl; lia).
    rewrite (list_lookup_middle _ _ _ _ Hx) in Hitems.
    injection Hitems as <-.
    match goal with
    | |- built _ _ _ (<[_ := _]> (((?X ++ [?o1]) ++ [?o2]) ++ [?o3])) =>
        replace (((X ++ [o1]) ++ [o2]) ++ [o3]) with (X ++ o1 :: [o2; o3])
          by (repeat rewrite <- app_assoc; reflexivity)
    end.
    rewrite (set_middle _ _ _ _ _ Hx).
    unfold P'. repeat rewrite <- app_assoc. cbn [app].
    eapply built_area_fresh; eauto.
    exists ls. auto.
Qed.

Lemma truthy_in_valid (h : list pyobj) v :
  val_ok (length h) v = true -> is_Some (truthy_in h v).
Proof.
  destruct v; simpl; eauto. intros Hl%Nat.ltb_lt.
  destruct (lookup_lt_is_Some_2 h l Hl) as [[|] ->]; eauto.
Qed.

(** The copy of one optional field, whatever comes after it. *)
Lemma copy_field_ok {B} (h R : list pyobj) a args k es (K : unit -> Store.M B) :
  closed h = true ->
  h !! a = Some (ODict args) ->
  assoc k es = None ->
  bind (Store.dict_get (VRef a) k)
    (fun v => bind (Store.truthy v)
       (fun t => bind (if t
                       then bind (Store.getitem (VRef a) k)
                              (fun x => Store.setitem (VRef (length h)) k x)
                       else ret tt) K))
    (h ++ ODict es :: R)
  = K tt (h ++ ODict (es ++ copied h args k) :: R).
Proof.
  intros Hc Ha Hk.
  erewrite bind_ok by (eapply dict_get_ok, lookup_app_l_Some, Ha).
  fold (arg args k).
  pose proof (closed_arg _ _ _ k Hc Ha) as Hok. fold (arg args k) in Hok.
  destruct (truthy_in_valid _ _ Hok) as [t Ht].
  erewrite bind_ok.
  2:{ rewrite truthy_run, truthy_in_grow by exact Hok. rewrite Ht. reflexivity. }
  unfold copied. rewrite Ht. destruct t.
  - erewrite bind_ok; [reflexivity|].
    erewrite bind_ok.
    2:{ eapply getitem_ok; [apply lookup_app_l_Some, Ha|]. eapply truthy_arg, Ht. }
    rewrite (setitem_ok _ _ _ _ _ (lookup_fresh0 _ _ _)).
    rewrite set_fresh0, assoc_set_app by exact Hk. reflexivity.
  - erewrite bind_ok by reflexivity. rewrite app_nil_r. reflexivity.
Qed.

(** The expression: five fresh objects, then one more key in the payload. *)
Lemma expression_ok {B} (h : list pyobj) es (K : unit -> Store.M B) :
  assoc "expression" es = None ->
  bind (Store.new_dict expression_context)
    (fun context => bind (Store.new_list [])
       (fun has_expectation =>
          bind (Store.new_dict [ ("@type", VStr "icm:Intent");
                                 ("icm:intentOwner", VStr "idan:ABCEvents");
                                 ("icm:hasExpectation", has_expectation) ])
            (fun node => bind (Store.new_dict [ ("EventLiveBroadcast", node) ])
               (fun idan =>
                  bind (Store.new_dict [ ("context", context); ("idan", idan) ])
                    (fun expression =>
                       bind (Store.setitem (VRef (length h)) "expression" expression)
                         K)))))
    (h ++ [ODict es])
  = K tt (h ++ ODict (es ++ [("expression", VRef (length h + 5))])
            :: expression_objects (length h + 1)).
Proof.
  intros Hes.
  do 5 (erewrite bind_ok by reflexivity).
  repeat rewrite length_app. cbn [length].
  repeat rewrite <- app_assoc. cbn [app].
  erewrite bind_ok.
  2:{ apply setitem_ok, lookup_fresh0. }
  rewrite set_fresh0, assoc_set_app by exact Hes.
  unfold expression_objects.
  replace (length h + 1 + 1 + 1 + 1 + 1) with (length h + 5) by lia.
  replace (length h + 1 + 1 + 1 + 1) with (length h + 1 + 3) by lia.
  replace (length h + 1 + 1 + 1) with (length h + 1 + 2) by lia.
  reflexivity.
Qed.

(** Each of the four shapes is what the builder does, when the three
    mandatory keys are there. *)
Lemma build_ok (h : list pyobj) a args p h' :
  closed h = true ->
  h !! a = Some (ODict args) ->
  is_Some (assoc "name" args) ->
  is_Some (assoc "description" args) ->
  is_Some (assoc "deliveryExpectations" args) ->
  built h args p h' ->
  _build_cloud_intent_payload (VRef a) h = (Ok p, h').
Proof.
  intros Hc Ha [name Hname] [description Hdesc] [de Hde] Hb.
  unfold _build_cloud_intent_payload.
  do 3 (erewrite bind_ok by (eapply getitem_ok; eauto)).
  erewrite bind_ok by reflexivity.
  rewrite <- (assoc_arg _ _ _ Hname), <- (assoc_arg _ _ _ Hdesc), <- (assoc_arg _ _ _ Hde).
  rewrite (copy_field_ok h [] a args "validFor") by (assumption || reflexivity).
  rewrite (copy_field_ok h [] a args "propertyExpectations").
  2,3: assumption.
  2:{ unfold copied. destruct (truthy_in h (arg args "validFor")) as [[|]|]; reflexivity. }
  rewrite <- app_assoc. fold (first_entries h args).
  erewrite bind_ok by (eapply dict_get_ok, lookup_app_l_Some, Ha).
  fold (arg args "intentType"). fold (is_elb args).
  set (P0 := first_entries h args).
  destruct Hb as [Helb | Helb Hsa | pts coords lpe items Helb Hsa Hlist Hcoords Hpe Hitems Hne
                 | pts coords Helb Hsa Hlist Hcoords Hpe]; rewrite Helb.
  - reflexivity.
  - erewrite bind_ok; [reflexivity|].
    rewrite expression_ok by apply first_entries_expression.
    erewrite bind_ok by (eapply dict_get_ok, lookup_app_l_Some, Ha).
    fold (arg args "serviceArea").
    erewrite bind_ok.
    2:{ rewrite truthy_run, truthy_in_grow, Hsa; [reflexivity|].
        eapply closed_arg; eassumption. }
    reflexivity.
  - pose proof (closed_arg _ _ _ "serviceArea" Hc Ha) as Hsa_ok.
    fold (arg args "serviceArea") in Hsa_ok.
    destruct Hlist as (ls & Hls & Hpts).
    erewrite bind_ok; [reflexivity|].
    rewrite expression_ok by apply first_entries_expression.
    erewrite bind_ok by (eapply dict_get_ok, lookup_app_l_Some, Ha).
    fold (arg args "serviceArea").
    erewrite bind_ok.
    2:{ rewrite truthy_run, truthy_in_grow, Hsa; [reflexivity|assumption]. }
    cbv beta iota.
    erewrite bind_ok.
    2:{ eapply getitem_ok; [apply lookup_app_l_Some, Ha|]. eapply truthy_arg, Hsa. }
    rewrite Hls.
    erewrite bind_ok by (eapply iter_list_ok, lookup_app_l_Some, Hpts).
    erewrite bind_ok.
    2:{ apply geo_loop_ok. eapply Forall2_impl; [exact Hcoords|].
        intros q c Hq. apply coords_grow, Hq. }
    erewrite bind_ok by reflexivity.
    set (P := ODict (P0 ++ [("expression", VRef (length h + 5))])) in *.
    set (EO := expression_objects (length h + 1)) in *.
    set (G := map geo_object coords) in *.
    assert (HlenG : length G = length coords) by apply length_map.
    assert (HP0 : (h ++ P :: EO) !! length h = Some P) by apply lookup_fresh0.
    assert (Hfe : assoc "propertyExpectations" (P0 ++ [("expression", VRef (length h + 5))])
                  = Some (VRef lpe)).
    { apply assoc_app_l. unfold P0. rewrite first_entries_pe, Hpe.
      unfold truthy_in. rewrite Hitems. destruct items; [contradiction|reflexivity]. }
    erewrite bind_ok by (eapply dict_contains_ok; do 2 apply lookup_app_l_Some; exact HP0).
    rewrite Hfe, bool_decide_true by eauto. cbv beta iota.
    erewrite bind_ok by reflexivity.
    erewrite bind_ok by (eapply getitem_ok; [do 2 apply lookup_app_l_Some; exact HP0|exact Hfe]).
    pose proof (lookup_lt_Some _ _ _ Hitems) as Hlpe.
    erewrite bind_ok by (eapply bound_append_ok; do 3 apply lookup_app_l_Some; exact Hitems).
    do 2 (erewrite bind_ok by reflexivity).
    erewrite list_append_ok by (do 5 apply lookup_app_l_Some; exact Hitems).
    f_equal.
    rewrite !insert_app_l by (rewrite ?length_app; lia).
    repeat rewrite <- app_assoc. cbn [app].
    subst P EO G.
    replace (length (h ++ ODict (P0 ++ [("expression", VRef (length h + 5))])
                       :: expression_objects (length h + 1)))
      with (length h + 6) by heap_len.
    repeat match goal with
    | |- context [VRef (length ?X)] =>
        first [ replace (length X) with (length h + 8 + length coords) by heap_len
              | replace (length X) with (length h + 7 + length coords) by heap_len
              | replace (length X) with (length h + 6 + length coords) by heap_len ]
    end.
    reflexivity.
  - pose proof (closed_arg _ _ _ "serviceArea" Hc Ha) as Hsa_ok.
    fold (arg args "serviceArea") in Hsa_ok.
    destruct Hlist as (ls & Hls & Hpts).
    erewrite bind_ok; [reflexivity|].
    rewrite expression_ok by apply first_entries_expression.
    erewrite bind_ok by (eapply dict_get_ok, lookup_app_l_Some, Ha).
    fold (arg args "serviceArea").
    erewrite bind_ok.
    2:{ rewrite truthy_run, truthy_in_grow, Hsa; [reflexivity|assumption]. }
    cbv beta iota.
    erewrite bind_ok.
    2:{ eapply getitem_ok; [apply lookup_app_l_Some, Ha|]. eapply truthy_arg, Hsa. }
    rewrite Hls.
    erewrite bind_ok by (eapply iter_list_ok, lookup_app_l_Some, Hpts).
    erewrite bind_ok.
    2:{ apply geo_loop_ok. eapply Forall2_impl; [exact Hcoords|].
        intros q c Hq. apply coords_grow, Hq. }
    erewrite bind_ok by reflexivity.
    set (E1 := P0 ++ [("expression", VRef (length h + 5))]) in *.
    assert (Hfe : assoc "propertyExpectations" E1 = None).
    { unfold E1. rewrite assoc_app_r; [reflexivity|].
      unfold P0. rewrite first_entries_pe, Hpe. reflexivity. }
    erewrite bind_ok by (eapply dict_contains_ok; do 2 apply lookup_app_l_Some; apply lookup_fresh0).
    rewrite Hfe, bool_decide_false by (intros [? ?]; discriminate). cbn [negb].
    erewrite bind_ok.
    2:{ erewrite bind_ok by reflexivity.
        erewrite setitem_ok by (do 3 apply lookup_app_l_Some; apply lookup_fresh0).
        rewrite !insert_app_l by heap_len. rewrite set_fresh0.
        rewrite assoc_set_app by exact Hfe. reflexivity. }
    erewrite bind_ok.
    2:{ eapply getitem_ok; [do 3 apply lookup_app_l_Some; apply lookup_fresh0|].
        rewrite assoc_app_r by exact Hfe. reflexivity. }
    erewrite bind_ok.
    2:{ eapply bound_append_ok. apply list_lookup_middle. heap_len. }
    do 2 (erewrite bind_ok by reflexivity).
    erewrite list_append_ok.
    2:{ do 2 apply lookup_app_l_Some. apply list_lookup_middle. heap_len. }
    f_equal.
    match goal with
    | |- <[_ := _]> (((?X ++ [?o1]) ++ [?o2]) ++ [?o3]) = _ =>
        replace (((X ++ [o1]) ++ [o2]) ++ [o3]) with (X ++ o1 :: [o2; o3])
          by (repeat rewrite <- app_assoc; reflexivity)
    end.
    rewrite set_middle by heap_len.
    repeat rewrite <- app_assoc. cbn [app].
    unfold E1.
    replace (length (h ++ ODict (P0 ++ [("expression", VRef (length h + 5))])
                       :: expression_objects (length h + 1)))
      with (length h + 6) by heap_len.
    repeat match goal with
    | |- context [VRef (length ?X)] =>
        first [ replace (length X) with (length h + 9 + length coords) by heap_len
              | replace (length X) with (length h + 8 + length coords) by heap_len
              | replace (length X) with (length h + 7 + length coords) by heap_len
              | replace (length X) with (length h + 6 + length coords) by heap_len ]
    end.
    rewrite <- app_assoc. reflexivity.
Qed.

(** * The shapes, object by object *)

Lemma lookup_after (X L : list pyobj) n i :
  length X = n -> (X ++ L) !! (n + i) = L !! i.
Proof. intros <-. apply lookup_fresh. Qed.

(** The payload sits right after the old store, the expression objects
    after the payload. *)
Lemma lookup_payload (X R : list pyobj) P n :
  length X = n -> (X ++ P :: R) !! n = Some P.
Proof. intros <-. apply lookup_fresh0. Qed.

Lemma lookup_expression_object (X R : list pyobj) P n m i o :
  length X = n ->
  expression_objects m !! i = Some o ->
  (X ++ P :: expression_objects m ++ R) !! (n + 1 + i) = Some o.
Proof.
  intros <- Hi. rewrite <- Nat.add_assoc, lookup_fresh.
  change ((expression_objects m ++ R) !! i = Some o).
  apply lookup_app_l_Some, Hi.
Qed.

(** What a JSON encoder reads from the five objects of the expression. *)
Lemma reify_expression (H : list pyobj) n f :
  (forall i o, expression_objects n !! i = Some o -> H !! (n + i) = Some o) ->
  reify (4 + f) H (VRef (n + 4)) = Some expression_json.
Proof.
  intros Hobj.
  pose proof (Hobj 0 _ eq_refl) as H0. rewrite Nat.add_0_r in H0.
  pose proof (Hobj 1 _ eq_refl) as H1.
  pose proof (Hobj 2 _ eq_refl) as H2.
  pose proof (Hobj 3 _ eq_refl) as H3.
  pose proof (Hobj 4 _ eq_refl) as H4.
  change (4 + f) with (S (S (S (S f)))).
  cbn [reify]. rewrite H4. cbn [mapM fmap option_fmap option_map mbind option_bind mret option_ret fst snd reify].
  rewrite H0, H3. cbn [mapM fmap option_fmap option_map mbind option_bind mret option_ret fst snd reify expression_context].
  rewrite H2. cbn [mapM fmap option_fmap option_map mbind option_bind mret option_ret fst snd reify].
  rewrite H1. reflexivity.
Qed.

Lemma encode_expression (X R : list pyobj) P n :
  length X = n ->
  json_encode (X ++ P :: expression_objects (n + 1) ++ R) (VRef (n + 5))
  = Some expression_json.
Proof.
  intros Hn. unfold json_encode.
  replace (length (X ++ P :: expression_objects (n + 1) ++ R))
    with (4 + (n + 2 + length R)) by (heap_len).
  replace (n + 5) with (n + 1 + 4) by lia.
  apply reify_expression. intros i o Hi.
  apply lookup_expression_object; assumption.
Qed.

(** * The expression field (C3) *)

(** C3, as the code has it: when [intentType] is ["EventLiveBroadcast"] the
    payload gets an [expression] field that encodes to [expression_json]:
    a block under the key [context] with the four prefixes [icm], [cat],
    [idan], [geo], and under the key [idan] an [EventLiveBroadcast] node
    with [@type] [icm:Intent], the owner [idan:ABCEvents] and an empty
    [icm:hasExpectation]; for every other [intentType] the payload has no
    [expression] field. *)
Theorem expression_field (h : list pyobj) a args p h' :
  closed h = true ->
  h !! a = Some (ODict args) ->
  _build_cloud_intent_payload (VRef a) h = (Ok p, h') ->
  exists entries,
    is_dict h' p entries
    /\ if is_elb args
       then exists e, assoc "expression" entries = Some e
                      /\ json_encode h' e = Some expression_json
       else assoc "expression" entries = None.
Proof.
  intros Hc Ha Hrun.
  destruct (build_inv _ _ _ _ _ Hc Ha Hrun) as (Hb & _).
  destruct Hb as [Helb | Helb Hsa | pts coords lpe items Helb Hsa Hlist Hcoords Hpe Hitems Hne
                 | pts coords Helb Hsa Hlist Hcoords Hpe]; rewrite Helb.
  - eexists. split.
    + exists (length h). split; [reflexivity|]. apply lookup_fresh0.
    + apply first_entries_expression.
  - eexists. split.
    + exists (length h). split; [reflexivity|]. apply lookup_fresh0.
    + exists (VRef (length h + 5)). split.
      * rewrite assoc_app_r by apply first_entries_expression. reflexivity.
      * rewrite <- (app_nil_r (expression_objects _)).
        apply encode_expression. reflexivity.
  - eexists. split.
    + exists (length h). split; [reflexivity|].
      apply lookup_payload, length_insert.
    + exists (VRef (length h + 5)). split.
      * rewrite assoc_app_r by apply first_entries_expression. reflexivity.
      * apply encode_expression, length_insert.
  - eexists. split.
    + exists (length h). split; [reflexivity|]. apply lookup_fresh0.
    + exists (VRef (length h + 5)). split.
      * rewrite assoc_app_r by apply first_entries_expression. reflexivity.
      * apply encode_expression. reflexivity.
Qed.

(** The prefixes of the context block and the node under [idan]. *)
Lemma expression_json_shape :
  exists context node,
    assoc "context" (json_fields expression_json) = Some (JObj context)
    /\ map fst context = ["icm"; "cat"; "idan"; "geo"]
    /\ assoc "idan" (json_fields expression_json)
       = Some (JObj [("EventLiveBroadcast", JObj node)])
    /\ node = [ ("@type", JStr "icm:Intent");
                ("icm:intentOwner", JStr "idan:ABCEvents");
                ("icm:hasExpectation", JArr []) ].
Proof. do 2 eexists. repeat split; reflexivity. Qed.

(** The theorem at the broadcast request of the examples. *)
Lemma expression_field_witness :
  exists p h' entries e,
    _build_cloud_intent_payload (request_ref broadcast_request)
      (request_store broadcast_request) = (Ok p, h')
    /\ is_dict h' p entries
    /\ assoc "expression" entries = Some e
    /\ json_encode h' e = Some expression_json.
Proof.
  destruct (_build_cloud_intent_payload (request_ref broadcast_request)
              (request_store broadcast_request)) as [[p|e] h'] eqn:Hrun;
    [|vm_compute in Hrun; discriminate Hrun].
  assert (Hc : closed (request_store broadcast_request) = true) by reflexivity.
  assert (Ha : request_store broadcast_request !! 5
               = Some (ODict [ ("name", VStr "Match day");
                               ("description", VStr "Stadium broadcast");
                               ("intentType", VStr "EventLiveBroadcast");
                               ("deliveryExpectations", VRef 2);
                               ("serviceArea", VRef 4);
                               ("validFor", VNone);
                               ("propertyExpectations", VNone) ]))
    by reflexivity.
  destruct (expression_field _ 5 _ p h' Hc Ha Hrun) as (entries & Hd & e & He & Henc).
  exists p, h', entries, e. auto.
Defined.

(** C3 as the spec words it fails: the expression the builder makes has
    neither an [@context] key nor an [idan:EventLiveBroadcast] key. *)
Lemma expression_field_counterexample :
  exists p h' expression,
    _build_cloud_intent_payload (request_ref broadcast_request)
      (request_store broadcast_request) = (Ok p, h')
    /\ payload_field h' p "expression" = Some expression
    /\ ~ has_at_context_shape expression.
Proof.
  eexists _, _, expression_json. split; [vm_compute; reflexivity|].
  split; [vm_compute; reflexivity|].
  intros (context & node & H & _). vm_compute in H. discriminate H.
Qed.

(** * The service area (C4) *)

Lemma lookup_geo_object (X T : list pyobj) P n m coords i c :
  length X = n ->
  coords !! i = Some c ->
  (X ++ P :: expression_objects m ++ map geo_object coords ++ T) !! (n + 6 + i)
  = Some (geo_object c).
Proof.
  intros <- Hi. rewrite <- Nat.add_assoc, lookup_fresh.
  change ((expression_objects m ++ map geo_object coords ++ T) !! (5 + i)
          = Some (geo_object c)).
  rewrite lookup_app_r by (rewrite expression_objects_length; lia).
  rewrite expression_objects_length.
  replace (5 + i - 5) with i by lia.
  apply lookup_app_l_Some. rewrite list_lookup_fmap, Hi. reflexivity.
Qed.

Lemma lookup_area_object (X T : list pyobj) P n m coords j :
  length X = n ->
  (X ++ P :: expression_objects m ++ map geo_object coords ++ T)
    !! (n + 6 + length coords + j)
  = T !! j.
Proof.
  intros <-. rewrite <- !Nat.add_assoc, lookup_fresh.
  change ((expression_objects m ++ map geo_object coords ++ T)
            !! (5 + (length coords + j)) = T !! j).
  rewrite lookup_app_r by (rewrite expression_objects_length; lia).
  rewrite expression_objects_length.
  rewrite lookup_app_r by (rewrite length_map; lia).
  rewrite length_map. f_equal. lia.
Qed.

Lemma geo_dicts (H : list pyobj) coords : forall m,
  (forall i c, coords !! i = Some c -> H !! (m + i) = Some (geo_object c)) ->
  Forall2 (fun g c => is_dict H g [("geo:longitude", fst c); ("geo:latitude", snd c)])
    (map VRef (seq m (length coords))) coords.
Proof.
  induction coords as [|c coords IH]; intros m Hobj; simpl; constructor.
  - exists m. split; [reflexivity|].
    specialize (Hobj 0 c eq_refl). rewrite Nat.add_0_r in Hobj. exact Hobj.
  - apply IH. intros i c' Hi. specialize (Hobj (S i) c' Hi).
    replace (S m + i) with (m + S i) by lia. exact Hobj.
Qed.

Lemma truthy_list (h : list pyobj) v items :
  is_list h v items -> truthy_in h v = Some (negb (Nat.eqb (length items) 0)).
Proof. intros (l & -> & Hl). unfold truthy_in. rewrite Hl. reflexivity. Qed.

(** C4, as the code has it: for an event live broadcast whose service area
    is a non-empty list of points with a longitude and a latitude, the
    builder returns a payload whose [propertyExpectations] is a list that
    ends with one more entry, [{"target": "_:service", "params":
    {"elb:areaOfService": points}}], where [points] has one
    [{"geo:longitude", "geo:latitude"}] dict per point, in order; before
    that entry come the items the caller gave, none when the field was
    missing.  For any other intent type the service area is not folded
    in, whatever it is: the builder returns, the payload is the one object
    it adds to the store, without an [expression], and its
    [propertyExpectations] is the caller's when that is truthy and is
    missing otherwise. *)
Theorem service_area_folding (h : list pyobj) a args :
  closed h = true ->
  h !! a = Some (ODict args) ->
  is_Some (assoc "name" args) ->
  is_Some (assoc "description" args) ->
  is_Some (assoc "deliveryExpectations" args) ->
  (forall pts coords old,
      is_elb args = true ->
      is_list h (arg args "serviceArea") pts ->
      pts <> [] ->
      Forall2 (coords_of h) pts coords ->
      pe_items h (arg args "propertyExpectations") old ->
      exists p h' entries target entry params geo gs,
        _build_cloud_intent_payload (VRef a) h = (Ok p, h')
        /\ is_dict h' p entries
        /\ assoc "propertyExpectations" entries = Some target
        /\ is_list h' target (old ++ [entry])
        /\ is_dict h' entry [("target", VStr "_:service"); ("params", params)]
        /\ is_dict h' params [("elb:areaOfService", geo)]
        /\ is_list h' geo gs
        /\ Forall2 (fun g c => is_dict h' g [("geo:longitude", fst c);
                                             ("geo:latitude", snd c)]) gs coords)
  /\ (is_elb args = false ->
      exists entries,
        _build_cloud_intent_payload (VRef a) h
        = (Ok (VRef (length h)), h ++ [ODict entries])
        /\ assoc "propertyExpectations" entries
           = match truthy_in h (arg args "propertyExpectations") with
             | Some true => Some (arg args "propertyExpectations")
             | _ => None
             end
        /\ assoc "expression" entries = None).
Proof.
  intros Hc Ha Hname Hdesc Hde. split.
  2:{ intros Helb. exists (first_entries h args).
      split; [|split; [apply first_entries_pe|apply first_entries_expression]].
      apply (build_ok _ _ _ _ _ Hc Ha Hname Hdesc Hde). apply built_plain, Helb. }
  intros pts coords old Helb Hlist Hne Hcoords Hold.
  assert (Hsa : truthy_in h (arg args "serviceArea") = Some true).
  { rewrite (truthy_list _ _ _ Hlist). destruct pts; [contradiction|reflexivity]. }
  set (n := length h). set (k := length coords).
  assert (Hfresh : truthy_in h (arg args "propertyExpectations") = Some false ->
                   old = [] ->
                   exists p h' entries target entry params geo gs,
    _build_cloud_intent_payload (VRef a) h = (Ok p, h')
    /\ is_dict h' p entries
    /\ assoc "propertyExpectations" entries = Some target
    /\ is_list h' target (old ++ [entry])
    /\ is_dict h' entry [("target", VStr "_:service"); ("params", params)]
    /\ is_dict h' params [("elb:areaOfService", geo)]
    /\ is_list h' geo gs
    /\ Forall2 (fun g c => is_dict h' g [("geo:longitude", fst c);
                                         ("geo:latitude", snd c)]) gs coords).
  { intros Hpe ->.
    pose proof (built_area_fresh h args pts coords Helb Hsa Hlist Hcoords Hpe) as Hb.
    pose proof (build_ok _ _ _ _ _ Hc Ha Hname Hdesc Hde Hb) as Hrun.
    eexists _, _, _, (VRef (n + 7 + k)), (VRef (n + 9 + k)), (VRef (n + 8 + k)),
      (VRef (n + 6 + k)), _.
    split; [exact Hrun|].
    split; [exists n; split; [reflexivity|apply lookup_fresh0]|].
    split.
    { rewrite assoc_app_r; [reflexivity|].
      rewrite first_entries_pe, Hpe. reflexivity. }
    split.
    { exists (n + 7 + k). split; [reflexivity|].
      replace (n + 7 + k) with (n + 6 + k + 1) by lia.
      unfold n, k. rewrite lookup_area_object by reflexivity. reflexivity. }
    split.
    { exists (n + 9 + k). split; [reflexivity|].
      replace (n + 9 + k) with (n + 6 + k + 3) by lia.
      unfold n, k. rewrite lookup_area_object by reflexivity. reflexivity. }
    split.
    { exists (n + 8 + k). split; [reflexivity|].
      replace (n + 8 + k) with (n + 6 + k + 2) by lia.
      unfold n, k. rewrite lookup_area_object by reflexivity. reflexivity. }
    split.
    { exists (n + 6 + k). split; [reflexivity|].
      replace (n + 6 + k) with (n + 6 + k + 0) by lia.
      unfold n, k. rewrite lookup_area_object by reflexivity. reflexivity. }
    apply geo_dicts. intros i c Hi. apply lookup_geo_object; [reflexivity|exact Hi]. }
  inversion Hold as [Hv Ho | lpe items Hitems Hv Ho]; subst old.
  - apply Hfresh; [|reflexivity]. rewrite <- Hv. reflexivity.
  - destruct items as [|x items].
    + apply Hfresh; [|reflexivity]. rewrite <- Hv. unfold truthy_in. rewrite Hitems. reflexivity.
    + symmetry in Hv.
      assert (Hne' : x :: items <> []) by discriminate.
      pose proof (built_area_appended h args pts coords lpe (x :: items)
                    Helb Hsa Hlist Hcoords Hv Hitems Hne') as Hb.
      pose proof (build_ok _ _ _ _ _ Hc Ha Hname Hdesc Hde Hb) as Hrun.
      pose proof (lookup_lt_Some _ _ _ Hitems) as Hlpe.
      eexists _, _, _, (VRef lpe), (VRef (n + 8 + k)), (VRef (n + 7 + k)),
        (VRef (n + 6 + k)), _.
      split; [exact Hrun|].
      split; [exists n; split; [reflexivity|apply lookup_payload, length_insert]|].
      split.
      { apply assoc_app_l. rewrite first_entries_pe, Hv.
        unfold truthy_in. rewrite Hitems. reflexivity. }
      split.
      { exists lpe. split; [reflexivity|].
        apply lookup_app_l_Some. apply list_lookup_insert_eq. exact Hlpe. }
      split.
      { exists (n + 8 + k). split; [reflexivity|].
        replace (n + 8 + k) with (n + 6 + k + 2) by lia.
        unfold n, k. rewrite lookup_area_object by apply length_insert. reflexivity. }
      split.
      { exists (n + 7 + k). split; [reflexivity|].
        replace (n + 7 + k) with (n + 6 + k + 1) by lia.
        unfold n, k. rewrite lookup_area_object by apply length_insert. reflexivity. }
      split.
      { exists (n + 6 + k). split; [reflexivity|].
        replace (n + 6 + k) with (n + 6 + k + 0) by lia.
        unfold n, k. rewrite lookup_area_object by apply length_insert. reflexivity. }
      apply geo_dicts. intros i c Hi.
      apply lookup_geo_object; [apply length_insert|exact Hi].
Qed.

(** The theorem at the broadcast request of the examples: one point, no
    property expectations given; and at the same request for a video
    conference, where nothing is folded in. *)
Lemma service_area_folding_witness :
  (exists p h' entries target entry params geo gs,
    _build_cloud_intent_payload (VRef 5) (request_store broadcast_request) = (Ok p, h')
    /\ is_dict h' p entries
    /\ assoc "propertyExpectations" entries = Some target
    /\ is_list h' target ([] ++ [entry])
    /\ is_dict h' entry [("target", VStr "_:service"); ("params", params)]
    /\ is_dict h' params [("elb:areaOfService", geo)]
    /\ is_list h' geo gs
    /\ Forall2 (fun g c => is_dict h' g [("geo:longitude", fst c);
                                         ("geo:latitude", snd c)])
         gs [(VInt 10, VInt 20)])
  /\ (exists entries,
        truthy_in (request_store conference_request)
          (arg (request_args conference_request) "serviceArea") = Some true
        /\ _build_cloud_intent_payload (VRef 5) (request_store conference_request)
           = (Ok (VRef (length (request_store conference_request))),
              request_store conference_request ++ [ODict entries])
        /\ assoc "propertyExpectations" entries = None
        /\ assoc "expression" entries = None).
Proof.
  split.
  - destruct (service_area_folding (request_store broadcast_request) 5
                [ ("name", VStr "Match day");
                  ("description", VStr "Stadium broadcast");
                  ("intentType", VStr "EventLiveBroadcast");
                  ("deliveryExpectations", VRef 2);
                  ("serviceArea", VRef 4);
                  ("validFor", VNone);
                  ("propertyExpectations", VNone) ])
      as [Hfolded _];
      [reflexivity|reflexivity|eexists; reflexivity|eexists; reflexivity
      |eexists; reflexivity|].
    apply (Hfolded [VRef 3] [(VInt 10, VInt 20)] []).
    + reflexivity.
    + exists 4. split; reflexivity.
    + discriminate.
    + constructor; [|constructor].
      exists [("longitude", VInt 10); ("latitude", VInt 20)].
      split; [exists 3; split; reflexivity|split; reflexivity].
    + apply pe_absent.
  - destruct (service_area_folding (request_store conference_request) 5
                (request_args conference_request))
      as [_ Hplain];
      [reflexivity|reflexivity|eexists; reflexivity|eexists; reflexivity
      |eexists; reflexivity|].
    destruct (Hplain eq_refl) as (entries & Hrun & Hpe & Hexpression).
    exists entries. split; [reflexivity|]. split; [exact Hrun|].
    split; [exact Hpe|exact Hexpression].
Defined.

(** The example of the spec: one point, no property expectations, and the
    payload's [propertyExpectations] is the one folded entry. *)
Lemma service_area_example :
  exists p h',
    _build_cloud_intent_payload (request_ref broadcast_request)
      (request_store broadcast_request) = (Ok p, h')
    /\ payload_field h' p "propertyExpectations"
       = Some (JArr [ JObj [ ("target", JStr "_:service");
                             ("params",
                              JObj [ ("elb:areaOfService",
                                      JArr [ JObj [ ("geo:longitude", JInt 10);
                                                    ("geo:latitude", JInt 20) ] ]) ]) ] ]).
Proof. eexists _, _. split; vm_compute; reflexivity. Qed.

(** C4 as the spec words it fails: a service area on a request that is not
    an event live broadcast is not folded in, the payload has no
    [propertyExpectations] at all. *)
Lemma service_area_counterexample :
  exists p h' fields,
    json_getitem conference_request "serviceArea"
    = Ok (JArr [ JObj [ ("longitude", JInt 10); ("latitude", JInt 20) ] ])
    /\ _build_cloud_intent_payload (request_ref conference_request)
         (request_store conference_request) = (Ok p, h')
    /\ json_encode h' p = Some (JObj fields)
    /\ assoc "propertyExpectations" fields = None.
Proof.
  eexists _, _, _. split; [reflexivity|].
  split; [vm_compute; reflexivity|].
  split; [vm_compute; reflexivity|]. reflexivity.
Qed.

(** * What the builder does to the caller's objects *)

(** Only one object of the caller can change: the list behind
    [propertyExpectations], when a service area is folded into it. *)
Lemma build_frame (h : list pyobj) a args p h' :
  closed h = true ->
  h !! a = Some (ODict args) ->
  _build_cloud_intent_payload (VRef a) h = (Ok p, h') ->
  forall l o, h !! l = Some o ->
              arg args "propertyExpectations" <> VRef l ->
              h' !! l = Some o.
Proof.
  intros Hc Ha Hrun l o Hl Hpe.
  destruct (build_inv _ _ _ _ _ Hc Ha Hrun) as (Hb & _).
  destruct Hb as [Helb | Helb Hsa | pts coords lpe items Helb Hsa Hlist Hcoords Hpe' Hitems Hne
                 | pts coords Helb Hsa Hlist Hcoords Hpe'];
    try (apply lookup_app_l_Some, Hl).
  apply lookup_app_l_Some. rewrite list_lookup_insert_ne; [exact Hl|].
  intros ->. apply Hpe. exact Hpe'.
Qed.

(** When no service area is folded in, the builder only adds objects. *)
Lemma build_extends (h : list pyobj) a args p h' :
  closed h = true ->
  h !! a = Some (ODict args) ->
  _build_cloud_intent_payload (VRef a) h = (Ok p, h') ->
  folds_area h args = false ->
  exists new, h' = h ++ new.
Proof.
  intros Hc Ha Hrun Hfold.
  destruct (build_inv _ _ _ _ _ Hc Ha Hrun) as (Hb & _).
  unfold folds_area in Hfold.
  destruct Hb as [Helb | Helb Hsa | pts coords lpe items Helb Hsa Hlist Hcoords Hpe' Hitems Hne
                 | pts coords Helb Hsa Hlist Hcoords Hpe'];
    rewrite Helb in Hfold; try rewrite Hsa in Hfold; try discriminate Hfold;
    eexists; reflexivity.
Qed.

(** The list the caller passed grows by the folded entry. *)
Lemma caller_list_grows (h : list pyobj) a args p h' lpe items :
  closed h = true ->
  h !! a = Some (ODict args) ->
  _build_cloud_intent_payload (VRef a) h = (Ok p, h') ->
  folds_area h args = true ->
  arg args "propertyExpectations" = VRef lpe ->
  h !! lpe = Some (OList items) ->
  items <> [] ->
  exists entry, h' !! lpe = Some (OList (items ++ [entry])).
Proof.
  intros Hc Ha Hrun Hfold Hpe Hitems Hne.
  destruct (build_inv _ _ _ _ _ Hc Ha Hrun) as (Hb & _).
  unfold folds_area in Hfold.
  destruct Hb as [Helb | Helb Hsa | pts coords lpe' items' Helb Hsa Hlist Hcoords Hpe' Hitems' Hne'
                 | pts coords Helb Hsa Hlist Hcoords Hpe'];
    rewrite Helb in Hfold; try rewrite Hsa in Hfold; try discriminate Hfold.
  - rewrite Hpe in Hpe'. injection Hpe' as <-.
    rewrite Hitems in Hitems'. injection Hitems' as <-.
    eexists. apply lookup_app_l_Some, list_lookup_insert_eq.
    eapply lookup_lt_Some, Hitems.
  - rewrite Hpe in Hpe'. unfold truthy_in in Hpe'. rewrite Hitems in Hpe'.
    destruct items; [contradiction|discriminate].
Qed.

Lemma assoc_app_none_r {A} k (l1 l2 : list (string * A)) :
  assoc k l2 = None -> assoc k (l1 ++ l2) = assoc k l1.
Proof.
  intros H2. induction l1 as [|[k' v'] l1 IH]; simpl; [exact H2|].
  destruct (String.eqb k k'); [reflexivity|exact IH].
Qed.

(** * The optional fields (C6) *)

(** C6, as the code has it: the payload has [validFor] exactly when the
    request's [validFor] is truthy (there and not empty), and then it is the
    request's value itself; the same holds for [propertyExpectations] as
    long as no service area is folded in, and then the builder leaves every
    object of the request as it was; a truthy [propertyExpectations] is
    the payload's in every case. *)
Theorem optional_fields_copied (h : list pyobj) a args p h' :
  closed h = true ->
  h !! a = Some (ODict args) ->
  _build_cloud_intent_payload (VRef a) h = (Ok p, h') ->
  exists entries,
    is_dict h' p entries
    /\ assoc "validFor" entries
       = match truthy_in h (arg args "validFor") with
         | Some true => Some (arg args "validFor")
         | _ => None
         end
    /\ (truthy_in h (arg args "propertyExpectations") = Some true ->
        assoc "propertyExpectations" entries
        = Some (arg args "propertyExpectations"))
    /\ (folds_area h args = false ->
        assoc "propertyExpectations" entries
        = match truthy_in h (arg args "propertyExpectations") with
          | Some true => Some (arg args "propertyExpectations")
          | _ => None
          end
        /\ exists new, h' = h ++ new).
Proof.
  intros Hc Ha Hrun.
  destruct (build_inv _ _ _ _ _ Hc Ha Hrun) as (Hb & _).
  unfold folds_area.
  destruct Hb as [Helb | Helb Hsa | pts coords lpe items Helb Hsa Hlist Hcoords Hpe Hitems Hne
                 | pts coords Helb Hsa Hlist Hcoords Hpe]; rewrite Helb; try rewrite Hsa.
  - eexists. split; [exists (length h); split; [reflexivity|apply lookup_fresh0]|].
    split; [apply first_entries_vf|].
    split; [intros Ht; rewrite first_entries_pe, Ht; reflexivity|].
    intros _. split; [apply first_entries_pe|eexists; reflexivity].
  - eexists. split; [exists (length h); split; [reflexivity|apply lookup_fresh0]|].
    split.
    { rewrite assoc_app_none_r by reflexivity. apply first_entries_vf. }
    split.
    { intros Ht. apply assoc_app_l. rewrite first_entries_pe, Ht. reflexivity. }
    intros _. split; [|eexists; reflexivity].
    rewrite assoc_app_none_r by reflexivity. apply first_entries_pe.
  - eexists. split; [exists (length h); split; [reflexivity|apply lookup_payload, length_insert]|].
    split.
    { rewrite assoc_app_none_r by reflexivity. apply first_entries_vf. }
    split; [|discriminate].
    intros Ht. apply assoc_app_l. rewrite first_entries_pe, Ht. reflexivity.
  - eexists. split; [exists (length h); split; [reflexivity|apply lookup_fresh0]|].
    split.
    { rewrite assoc_app_none_r by reflexivity. apply first_entries_vf. }
    split; [|discriminate].
    rewrite Hpe. discriminate.
Qed.

(** The theorem at a conference request whose [validFor] and
    [propertyExpectations] are there and not empty: both are truthy, the
    payload has both, each the request's own object, which encodes to the
    JSON the request brought, and the builder only adds to the store. *)
Lemma optional_fields_copied_witness :
  exists p h' entries,
    truthy_in (request_store scheduled_request)
      (arg (request_args scheduled_request) "validFor") = Some true
    /\ truthy_in (request_store scheduled_request)
         (arg (request_args scheduled_request) "propertyExpectations") = Some true
    /\ _build_cloud_intent_payload (request_ref scheduled_request)
         (request_store scheduled_request) = (Ok p, h')
    /\ is_dict h' p entries
    /\ assoc "validFor" entries
       = Some (arg (request_args scheduled_request) "validFor")
    /\ assoc "propertyExpectations" entries
       = Some (arg (request_args scheduled_request) "propertyExpectations")
    /\ (exists new, h' = request_store scheduled_request ++ new)
    /\ payload_field h' p "validFor"
       = Some (JObj [ ("startDateTime", JStr "2025-06-11T00:00:00");
                      ("endDateTime", JStr "2025-06-12T00:00:00") ])
    /\ payload_field h' p "propertyExpectations"
       = Some (JArr [ JObj [ ("target", JStr "_:service");
                             ("params", JObj [ ("latency", JInt 5) ]) ] ]).
Proof.
  assert (Hvalid : truthy_in (request_store scheduled_request)
                     (arg (request_args scheduled_request) "validFor") = Some true)
    by reflexivity.
  assert (Hproperty : truthy_in (request_store scheduled_request)
                        (arg (request_args scheduled_request) "propertyExpectations")
                      = Some true)
    by reflexivity.
  destruct (_build_cloud_intent_payload (request_ref scheduled_request)
              (request_store scheduled_request))
    as [[p|e] h'] eqn:Hrun; [|vm_compute in Hrun; discriminate Hrun].
  destruct (optional_fields_copied (request_store scheduled_request) 9
              (request_args scheduled_request) p h' eq_refl eq_refl Hrun)
    as (entries & Hdict & Hvf & Hpe & Hfold).
  rewrite Hvalid in Hvf.
  destruct (Hfold eq_refl) as (_ & Hnew).
  exists p, h', entries.
  split; [exact Hvalid|]. split; [exact Hproperty|]. split; [reflexivity|].
  split; [exact Hdict|]. split; [exact Hvf|]. split; [exact (Hpe Hproperty)|].
  split; [exact Hnew|].
  clear Hdict Hvf Hpe Hfold Hnew.
  vm_compute in Hrun. injection Hrun as <- <-.
  split; vm_compute; reflexivity.
Defined.

(** C6 as the spec words it fails: a [validFor] and a
    [propertyExpectations] that are in the request, but empty, are not in
    the payload. *)
Lemma optional_fields_counterexample :
  exists p h' fields,
    json_getitem empty_fields_request "validFor" = Ok (JObj [])
    /\ json_getitem empty_fields_request "propertyExpectations" = Ok (JArr [])
    /\ _build_cloud_intent_payload (request_ref empty_fields_request)
         (request_store empty_fields_request) = (Ok p, h')
    /\ json_encode h' p = Some (JObj fields)
    /\ assoc "validFor" fields = None
    /\ assoc "propertyExpectations" fields = None.
Proof.
  eexists _, _, _. split; [reflexivity|]. split; [reflexivity|].
  split; [vm_compute; reflexivity|].
  split; [vm_compute; reflexivity|]. split; reflexivity.
Qed.

(** * Purity (C9) *)

(** C9 fails on a broadcast request that brings property expectations of
    its own: the builder appends the folded entry to the caller's list, so
    the arguments are not what they were (two items instead of one), and a
    second call on the same arguments returns another payload (three items
    instead of two). *)
Theorem builder_changes_its_argument :
  field_length (Some latency_request) "propertyExpectations" = Some 1
  /\ field_length (snd (build_twice latency_request)) "propertyExpectations" = Some 2
  /\ field_length (fst (fst (build_twice latency_request))) "propertyExpectations" = Some 2
  /\ field_length (snd (fst (build_twice latency_request))) "propertyExpectations" = Some 3.
Proof. repeat split; vm_compute; reflexivity. Qed.

Local Open Scope Z_scope.

(** * The token manager (C1, C2) *)

Section TokenManager.

Variable clock : nat -> datetime.
Variable http : nat -> http_request -> http_outcome.
Variable exn_text : exn -> string.

Local Abbreviation refresh := (_refresh_access_token clock http exn_text).
Local Abbreviation get_token := (get_valid_token clock http exn_text).

(** A refresh sends exactly one request, the password grant, whether it
    succeeds or not, and never touches the configuration. *)
Lemma refresh_sends_one_request self s r self' s' :
  refresh (self, s) = (r, (self', s')) ->
  io_log s' = io_log s ++ [token_request (auth_config self)]
  /\ auth_config self' = auth_config self.
Proof.
  unfold _refresh_access_token, catch, bind, self_get, lift_io, post, lift_result,
    self_update, now, raise, ret.
  destruct (http (length (io_log s)) (token_request (auth_config self))) as [resp|e];
    [|intros [= <- <- <-]; auto].
  destruct (raise_for_status resp); [|intros [= <- <- <-]; auto].
  destruct (json_body resp) as [token_data|]; [|intros [= <- <- <-]; auto].
  destruct (json_getitem token_data "access_token") as [tok|]; [|intros [= <- <- <-]; auto].
  destruct (json_get token_data "expires_in" (JInt 3600)) as [granted|];
    [|intros [= <- <- <-]; auto].
  destruct (json_sub_int granted 30) as [expires_in|]; [|intros [= <- <- <-]; auto].
  cbn [fst snd io_reads io_log].
  destruct (timedelta_seconds expires_in) as [delta|]; [|intros [= <- <- <-]; auto].
  destruct (datetime_add (clock (io_reads s)) delta); intros [= <- <- <-]; auto.
Qed.

(** A refresh that fails raises the source's own exception. *)
Lemma refresh_failure self s e st :
  refresh (self, s) = (Raise e, st) ->
  exists cause, e = Exception ("Cloud authentication failed: " +:+ str_exn exn_text cause).
Proof.
  unfold _refresh_access_token, catch, bind, self_get, lift_io, post, lift_result,
    self_update, now, raise, ret.
  repeat match goal with
         | |- context [match ?x with _ => _ end] => destruct x
         end;
    intros [= <- <-]; eauto.
Qed.

(** C2: a refresh that succeeds got a response with a JSON object that
    has an [access_token]; the manager then holds that token, and its
    expiry is the time of the refresh plus [expires_in] seconds, 3600 when
    the field is missing, minus 30 seconds. *)
Theorem refresh_stores_token self s self' s' :
  refresh (self, s) = (Ok tt, (self', s')) ->
  exists response fields access_token,
    http (length (io_log s)) (token_request (auth_config self)) = Response response
    /\ json_body response = Some (JObj fields)
    /\ assoc "access_token" fields = Some access_token
    /\ token self' = access_token
    /\ (assoc "expires_in" fields = None ->
        token_expiry self' = Some (clock (io_reads s) + seconds (3600 - 30)))
    /\ (forall expires_in,
          assoc "expires_in" fields = Some (JInt expires_in) ->
          token_expiry self' = Some (clock (io_reads s) + seconds (expires_in - 30))).
Proof.
  unfold _refresh_access_token, catch, bind, self_get, lift_io, post, lift_result,
    self_update, now, raise, ret.
  destruct (http (length (io_log s)) (token_request (auth_config self))) as [resp|e];
    [|discriminate].
  destruct (raise_for_status resp); [|discriminate].
  destruct (json_body resp) as [token_data|] eqn:Hbody; [|discriminate].
  destruct token_data as [| | | | |fields]; try discriminate.
  cbn [json_getitem json_get].
  destruct (assoc "access_token" fields) as [tok|] eqn:Htok; [|discriminate].
  destruct (json_sub_int (default (JInt 3600) (assoc "expires_in" fields)) 30)
    as [expires_in|] eqn:Hsub; [|discriminate].
  cbn [fst snd io_reads io_log].
  destruct (timedelta_seconds expires_in) as [delta|] eqn:Hdelta; [|discriminate].
  destruct (datetime_add (clock (io_reads s)) delta) as [expiry|] eqn:Hadd; [|discriminate].
  intros [= <- <-].
  exists resp, fields, tok. repeat split; try reflexivity; try assumption.
  - intros Hnone. rewrite Hnone in Hsub. injection Hsub as <-.
    unfold timedelta_seconds in Hdelta.
    destruct (_ && _) in Hdelta; [|discriminate]. injection Hdelta as <-.
    unfold datetime_add in Hadd.
    destruct (_ && _) in Hadd; [|discriminate]. injection Hadd as <-.
    reflexivity.
  - intros e He. rewrite He in Hsub. injection Hsub as <-.
    unfold timedelta_seconds in Hdelta.
    destruct (_ && _) in Hdelta; [|discriminate]. injection Hdelta as <-.
    unfold datetime_add in Hadd.
    destruct (_ && _) in Hadd; [|discriminate]. injection Hadd as <-.
    reflexivity.
Qed.

(** The other direction: such a response makes the refresh succeed, as
    long as the expiry is a date. *)
Lemma refresh_succeeds self s response fields access_token granted :
  http (length (io_log s)) (token_request (auth_config self)) = Response response ->
  200 <= status_code response <= 299 ->
  json_body response = Some (JObj fields) ->
  assoc "access_token" fields = Some access_token ->
  default (JInt 3600) (assoc "expires_in" fields) = JInt granted ->
  -999999999 <= (granted - 30) / 86400 <= 999999999 ->
  0 <= clock (io_reads s) + seconds (granted - 30) < datetime_range ->
  refresh (self, s)
  = (Ok tt,
     ({| auth_config := auth_config self;
         token := access_token;
         token_expiry := Some (clock (io_reads s) + seconds (granted - 30)) |},
      {| io_reads := S (io_reads s);
         io_log := io_log s ++ [token_request (auth_config self)] |})).
Proof.
  intros Hhttp Hstatus Hbody Htok Hgranted Hdays Hrange.
  unfold _refresh_access_token, catch, bind, self_get, lift_io, post, lift_result,
    self_update, now, raise, ret.
  rewrite Hhttp. unfold raise_for_status.
  replace (Z.leb 200 (status_code response)) with true by (symmetry; apply Z.leb_le; lia).
  replace (Z.leb (status_code response) 299) with true by (symmetry; apply Z.leb_le; lia).
  cbn [andb]. rewrite Hbody. cbn [json_getitem json_get]. rewrite Htok, Hgranted.
  cbn [json_sub_int fst snd io_reads io_log]. unfold timedelta_seconds.
  replace (Z.leb (-999999999) ((granted - 30) / 86400)) with true
    by (symmetry; apply Z.leb_le; lia).
  replace (Z.leb ((granted - 30) / 86400) 999999999) with true
    by (symmetry; apply Z.leb_le; lia).
  cbn [andb]. unfold datetime_add. fold (seconds (granted - 30)).
  replace (Z.leb 0 (clock (io_reads s) + seconds (granted - 30))) with true
    by (symmetry; apply Z.leb_le; lia).
  replace (Z.ltb (clock (io_reads s) + seconds (granted - 30)) datetime_range) with true
    by (symmetry; apply Z.ltb_lt; lia).
  reflexivity.
Qed.

(** What a call does once it has decided to refresh. *)
Lemma refresh_then_return self s0 :
  exists r self' s',
    bind refresh (fun _ => bind self_get (fun self => ret (token self))) (self, s0)
    = (r, (self', s'))
    /\ io_log s' = io_log s0 ++ [token_request (auth_config self)]
    /\ match r with
       | Ok t => t = token self' /\ refresh (self, s0) = (Ok tt, (self', s'))
       | Raise e =>
           exists cause,
             e = Exception ("Cloud authentication failed: " +:+ str_exn exn_text cause)
       end.
Proof.
  unfold bind at 1.
  destruct (refresh (self, s0)) as [[[]|e] [self' s']] eqn:Hr.
  - exists (Ok (token self')), self', s'. split; [reflexivity|].
    split; [eapply refresh_sends_one_request, Hr|]. auto.
  - exists (Raise e), self', s'. split; [reflexivity|].
    split; [eapply refresh_sends_one_request, Hr|].
    eapply refresh_failure, Hr.
Qed.

Lemma get_valid_token_unfold self s :
  get_token (self, s)
  = if still_valid clock self s
    then (Ok (token self), (self, tick s))
    else bind refresh (fun _ => bind self_get (fun self => ret (token self)))
           (self, checked self s).
Proof.
  unfold get_valid_token, still_valid, unexpired, checked, tick.
  unfold bind, self_get, lift_io, now, ret.
  destruct (json_truthy (token self)); cbn [andb]; [|reflexivity].
  destruct (token_expiry self) as [expiry|]; [|reflexivity].
  cbn [fst snd]. destruct (Z.ltb (clock (io_reads s)) expiry); reflexivity.
Qed.

Lemma checked_log self s : io_log (checked self s) = io_log s.
Proof.
  unfold checked. destruct (json_truthy (token self)); [|reflexivity].
  destruct (token_expiry self); reflexivity.
Qed.

(** C1, as the code has it: when the cached token is truthy (there and not
    empty) and the clock is strictly before its expiry, the call returns
    it and sends nothing; otherwise it sends exactly one token request,
    and either that refresh succeeds and the call returns the token the
    manager now holds, or it raises "Cloud authentication failed". *)
Theorem get_valid_token_cached_or_refreshed self s :
  (still_valid clock self s = true ->
   get_token (self, s) = (Ok (token self), (self, tick s)))
  /\ (still_valid clock self s = false ->
      exists r self' s',
        get_token (self, s) = (r, (self', s'))
        /\ io_log s' = io_log s ++ [token_request (auth_config self)]
        /\ match r with
           | Ok t =>
               t = token self'
               /\ exists s0, io_log s0 = io_log s
                             /\ refresh (self, s0) = (Ok tt, (self', s'))
           | Raise e =>
               exists cause,
                 e = Exception ("Cloud authentication failed: "
                                +:+ str_exn exn_text cause)
           end).
Proof.
  rewrite get_valid_token_unfold. split; intros Hvalid; rewrite Hvalid; [reflexivity|].
  destruct (refresh_then_return self (checked self s))
    as (r & self' & s' & Hrun & Hlog & Hr).
  rewrite checked_log in Hlog.
  exists r, self', s'. split; [exact Hrun|]. split; [exact Hlog|].
  destruct r; [|exact Hr]. destruct Hr as [Ht Hr].
  split; [exact Ht|]. exists (checked self s). split; [apply checked_log|exact Hr].
Qed.

End TokenManager.

(** C2 at the example backend: the token of the response, valid for an
    hour less thirty seconds. *)
Lemma refresh_stores_token_witness :
  exists self' s',
    _refresh_access_token example_clock (example_http token_response) example_exn_text
      (new_manager example_config, no_io) = (Ok tt, (self', s'))
    /\ token self' = JStr "cloud_mock_token_1"
    /\ token_expiry self' = Some (example_clock 0 + seconds (3600 - 30)).
Proof.
  destruct (_refresh_access_token example_clock (example_http token_response)
              example_exn_text (new_manager example_config, no_io))
    as [[[]|e] [self' s']] eqn:Hrun; [|vm_compute in Hrun; discriminate Hrun].
  exists self', s'. split; [reflexivity|].
  destruct (refresh_stores_token _ _ _ _ _ _ _ Hrun)
    as (response & fields & tok & Hhttp & Hbody & Htok & Htoken & _ & Hexpiry).
  injection Hhttp as <-. injection Hbody as <-. injection Htok as <-.
  split; [exact Htoken|]. apply Hexpiry. reflexivity.
Defined.

(** C1 at the example backend: a manager without a token refreshes once,
    and the next call, one tick later, returns the cached token. *)
Lemma get_valid_token_witness :
  (exists self' s',
     get_valid_token example_clock (example_http token_response) example_exn_text
       (new_manager example_config, no_io)
     = (Ok (JStr "cloud_mock_token_1"), (self', s'))
     /\ io_log s' = [token_request example_config]
     /\ still_valid example_clock self' s' = true
     /\ get_valid_token example_clock (example_http token_response) example_exn_text
          (self', s')
        = (Ok (JStr "cloud_mock_token_1"), (self', tick s'))).
Proof.
  destruct (get_valid_token_cached_or_refreshed example_clock
              (example_http token_response) example_exn_text
              (new_manager example_config) no_io) as [_ Hrefresh].
  destruct (Hrefresh eq_refl) as (r & self' & s' & Hrun & Hlog & Hr).
  assert (Hconcrete : (r, (self', s'))
                      = (Ok (JStr "cloud_mock_token_1"),
                         ({| auth_config := example_config;
                             token := JStr "cloud_mock_token_1";
                             token_expiry := Some (seconds 4570) |},
                          {| io_reads := 1;
                             io_log := [token_request example_config] |})))
    by (rewrite <- Hrun; vm_compute; reflexivity).
  injection Hconcrete as -> -> ->.
  eexists _, _. split; [exact Hrun|]. split; [reflexivity|].
  split; [reflexivity|].
  apply (get_valid_token_cached_or_refreshed example_clock
           (example_http token_response) example_exn_text). reflexivity.
Defined.

(** C1 as the spec words it fails twice: an empty string is a cached
    token, yet the call refreshes; and when the token endpoint cannot be
    reached the call raises instead of returning a token. *)
Lemma get_valid_token_counterexample :
  ~ get_valid_token_as_stated example_clock (example_http token_response)
      example_exn_text empty_token_manager no_io
  /\ ~ get_valid_token_as_stated example_clock unreachable_http
        example_exn_text (new_manager example_config) no_io.
Proof.
  split.
  - unfold get_valid_token_as_stated.
    destruct (get_valid_token _ _ _ _) as [r [self' s']] eqn:Hrun.
    vm_compute in Hrun. injection Hrun as <- <- <-.
    cbn. intros [H _]. discriminate H.
  - unfold get_valid_token_as_stated.
    destruct (get_valid_token _ _ _ _) as [r [self' s']] eqn:Hrun.
    vm_compute in Hrun. injection Hrun as <- <- <-.
    cbn. intros [H _]. discriminate H.
Qed.

Local Open Scope nat_scope.

(** * The tools (C5, C7, C8) *)

Lemma prefix_append (s t : string) : String.prefix s (s +:+ t) = true.
Proof.
  induction s as [|c s IH]; simpl; [destruct t; reflexivity|].
  destruct (ascii_dec c c); [exact IH|contradiction].
Qed.

Section Tools.

Variable clock : nat -> datetime.
Variable http : nat -> http_request -> http_outcome.
Variable exn_text : exn -> string.
Variable value_text : json -> string.
Variable json_dumps_indent2 : json -> string.

Local Abbreviation test_auth :=
  (icoraintent_test_cloud_auth clock http exn_text value_text).
Local Abbreviation create :=
  (icoraintent_create_cloud_intent clock http exn_text value_text json_dumps_indent2).

(** C7: with no token manager installed, [icoraintent_test_cloud_auth] and
    [icoraintent_create_cloud_intent] return, without raising and without
    touching anything, the answer that says the authentication is not
    configured, which is an error answer. *)
Theorem unconfigured_tools_answer
    (w : world) (name description intentType deliveryExpectations serviceArea
       validFor propertyExpectations : pyval) :
  w_token_manager w = None ->
  test_auth w = (Ok not_configured_text, w)
  /\ create name description intentType deliveryExpectations serviceArea validFor
       propertyExpectations w = (Ok not_configured_text, w)
  /\ is_error_text not_configured_text = true
  /\ contains "not configured" not_configured_text = true.
Proof.
  intros Htm. unfold icoraintent_test_cloud_auth, icoraintent_create_cloud_intent.
  unfold catch, bind, global_token_manager. rewrite Htm.
  repeat split; reflexivity.
Qed.

(** A call of [get_valid_token] sends password grants only. *)
Lemma get_valid_token_log self s r self' s' :
  get_valid_token clock http exn_text (self, s) = (r, (self', s')) ->
  exists posts, io_log s' = io_log s ++ posts /\ Forall is_form posts.
Proof.
  rewrite get_valid_token_unfold.
  destruct (still_valid clock self s).
  - intros [= <- <- <-]. exists []. rewrite app_nil_r. auto.
  - intros Hrun.
    destruct (refresh_then_return clock http exn_text self (checked self s))
      as (r0 & self0 & s0 & Hrun0 & Hlog & _).
    rewrite Hrun in Hrun0. injection Hrun0 as <- <- <-.
    rewrite checked_log in Hlog.
    exists [token_request (auth_config self)]. split; [exact Hlog|].
    constructor; [|constructor]. eexists. reflexivity.
Qed.

(** How a configured call of [icoraintent_create_cloud_intent] goes:
    password grants first; then either nothing more, or one intent request
    that carries the payload the builder made, and the answer to it. *)
Lemma create_run
    (w : world) mgr (name description intentType de0 serviceArea validFor
       propertyExpectations : pyval) res w' :
  w_token_manager w = Some mgr ->
  create name description intentType de0 serviceArea validFor propertyExpectations w
  = (res, w') ->
  exists posts,
    Forall is_form posts
    /\ (io_log (w_io w') = io_log (w_io w) ++ posts
        \/ exists de h1 tok p h2 body,
            ((truthy_in (w_heap w) de0 = Some true /\ de = de0 /\ h1 = w_heap w)
             \/ (truthy_in (w_heap w) de0 = Some false
                 /\ default_delivery_expectations (w_heap w) = (Ok de, h1)))
            /\ _build_cloud_intent_payload (VRef (length h1))
                 (h1 ++ [ODict (arguments_entries name description intentType de
                                  serviceArea validFor propertyExpectations)])
               = (Ok p, h2)
            /\ json_encode h2 p = Some body
            /\ io_log (w_io w')
               = io_log (w_io w) ++ posts
                   ++ [intent_request value_text (w_base_url w +:+ "/intent/") tok body]
            /\ res = Ok match http (length (io_log (w_io w) ++ posts))
                                (intent_request value_text
                                   (w_base_url w +:+ "/intent/") tok body) with
                        | Response r => intent_answer_text exn_text json_dumps_indent2 r
                        | Failed e =>
                            cross_mark +:+ " Error creating cloud intent: "
                            +:+ str_exn exn_text e
                        end).
Proof.
  intros Htm Hcreate. unfold icoraintent_create_cloud_intent, catch in Hcreate.
  match type of Hcreate with
  | match ?body w with _ => _ end = _ => destruct (body w) as [r w1] eqn:Hbody
  end.
  assert (Hw : w' = w1) by (destruct r; injection Hcreate; auto). subst w1.
  (* the globals *)
  apply bind_cases in Hbody as [(e & s1 & H & _)|(tm & s1 & H & Hbody)];
    [discriminate H|].
  unfold global_token_manager in H. apply ok_pair_inj in H as [<- <-].
  rewrite Htm in Hbody.
  (* the default *)
  apply bind_cases in Hbody as [(e & s1 & H & Hout)|(given & s1 & H & Hbody)].
  { exists []. split; [constructor|]. left. injection Hout as _ ->.
    unfold lift_heap in H. destruct (Store.truthy de0 (w_heap w)) as [r0 h0] eqn:Ht.
    rewrite truthy_run in Ht. destruct (truthy_in (w_heap w) de0); injection Ht as <- <-;
      injection H as _ <-; cbn; rewrite app_nil_r; reflexivity. }
  unfold lift_heap in H. rewrite truthy_run in H.
  destruct (truthy_in (w_heap w) de0) as [given'|] eqn:Hgiven in H; [|discriminate H].
  apply ok_pair_inj in H as [<- <-].
  apply bind_cases in Hbody as [(e & s1 & H & Hout)|(de & s1 & H & Hbody)].
  { destruct given'; discriminate H. }
  assert (Hde : exists h1,
             s1 = {| w_heap := h1; w_io := w_io w;
                     w_token_manager := Some mgr; w_base_url := w_base_url w |}
             /\ ((truthy_in (w_heap w) de0 = Some true /\ de = de0 /\ h1 = w_heap w)
                 \/ (truthy_in (w_heap w) de0 = Some false
                     /\ default_delivery_expectations (w_heap w) = (Ok de, h1)))).
  { destruct given'.
    - apply ok_pair_inj in H as [<- <-]. exists (w_heap w). rewrite Htm. auto.
    - unfold lift_heap in H. cbn [w_heap w_io w_token_manager w_base_url] in H.
      destruct (default_delivery_expectations (w_heap w)) as [rd hd] eqn:Hd.
      injection H as -> <-. exists hd. rewrite Htm. auto. }
  destruct Hde as (h1 & -> & Hde). clear H Hgiven given'.
  (* the token *)
  apply bind_cases in Hbody as [(e & s1 & H & Hout)|(tok & s1 & H & Hbody)];
    unfold call_manager in H; cbn [w_heap w_io w_token_manager w_base_url] in H;
    destruct (get_valid_token clock http exn_text (mgr, w_io w)) as [rt [mgr' io1]] eqn:Htok;
    destruct (get_valid_token_log _ _ _ _ _ Htok) as (posts & Hlog & Hforms);
    exists posts; (split; [exact Hforms|]).
  { left. injection Hout as _ ->. injection H as _ <-. exact Hlog. }
  injection H as -> <-.
  (* the arguments and the payload *)
  apply bind_cases in Hbody as [(e & s1 & H & Hout)|(arguments & s1 & H & Hbody)];
    [discriminate H|].
  unfold lift_heap in H. cbn [w_heap w_io w_token_manager w_base_url] in H.
  unfold Store.new_dict, Store.alloc in H. apply ok_pair_inj in H as [<- <-].
  fold (arguments_entries name description intentType de serviceArea validFor
          propertyExpectations) in Hbody.
  apply bind_cases in Hbody as [(e & s1 & H & Hout)|(p & s1 & H & Hbody)];
    unfold lift_heap in H; cbn [w_heap w_io w_token_manager w_base_url] in H;
    destruct (_build_cloud_intent_payload (VRef (length h1)) _) as [rp h2] eqn:Hbuild.
  { left. injection Hout as _ ->. injection H as _ <-. exact Hlog. }
  injection H as -> <-.
  apply bind_cases in Hbody as [(e & s1 & H & Hout)|(base & s1 & H & Hbody)];
    [discriminate H|].
  unfold global_base_url in H. apply ok_pair_inj in H as [<- <-].
  cbn [w_heap w_io w_token_manager w_base_url] in Hbody.
  (* the request *)
  apply bind_cases in Hbody as [(e & s1 & H & Hout)|(body & s1 & H & Hbody)];
    unfold encode_body in H; cbn [w_heap w_io w_token_manager w_base_url] in H;
    destruct (json_encode h2 p) as [body'|] eqn:Henc; try discriminate H.
  { left. injection Hout as _ ->. injection H as _ <-. exact Hlog. }
  apply ok_pair_inj in H as [<- <-].
  right. exists de, h1, tok, p, h2, body'.
  split; [exact Hde|]. split; [exact Hbuild|]. split; [exact Henc|].
  rewrite app_assoc, <- Hlog.
  apply bind_cases in Hbody as [(e & s1 & H & Hout)|(response & s1 & H & Hbody)];
    unfold lift_world_io, post in H; cbn [w_heap w_io w_token_manager w_base_url] in H;
    destruct (http (length (io_log io1)) _) as [r0|e0] eqn:Hhttp; try discriminate H.
  { injection H as <- <-. injection Hout as -> ->. injection Hcreate as <-.
    split; reflexivity. }
  apply ok_pair_inj in H as [<- <-].
  unfold intent_answer_text.
  destruct (Z.eqb (status_code r0) 201).
  - apply bind_cases in Hbody as [(e & s1 & H & Hout)|(result & s1 & H & Hbody)].
    + destruct (json_body r0); [discriminate H|].
      injection H as <- <-. injection Hout as -> ->. injection Hcreate as <-.
      split; reflexivity.
    + destruct (json_body r0); [|discriminate H].
      apply ok_pair_inj in H as [<- <-]. injection Hbody as <- <-.
      injection Hcreate as <-. split; reflexivity.
  - injection Hbody as <- <-. injection Hcreate as <-. split; reflexivity.
Qed.

(** Which answers are success answers and which are error answers. *)
Lemma intent_answer_kind (r : http_response) :
  is_success_text (intent_answer_text exn_text json_dumps_indent2 r)
  = Z.eqb (status_code r) 201 && bool_decide (is_Some (json_body r))
  /\ is_error_text (intent_answer_text exn_text json_dumps_indent2 r)
     = negb (Z.eqb (status_code r) 201 && bool_decide (is_Some (json_body r))).
Proof.
  unfold intent_answer_text, intent_created_text, intent_failed_text,
    is_success_text, is_error_text.
  destruct (Z.eqb (status_code r) 201); [destruct (json_body r)|];
    cbn [andb negb]; rewrite ?bool_decide_true by eauto;
    rewrite ?bool_decide_false by (intros [? ?]; discriminate);
    split;
    first [ apply prefix_append | reflexivity ].
Qed.

(** C8, as the code has it: when a configured call gets as far as the
    intent request and the backend answers it, the tool returns the text
    made from that answer: for status 201 with a JSON body, the success
    text with the [Location] header ("N/A" without one) and the body; for
    status 201 with a body that is not JSON, the error text of the
    [except] clause; for every other status, the error text with the
    status code and the body as they came. *)
Theorem create_intent_reports_answer
    (w : world) mgr (name description intentType deliveryExpectations serviceArea
       validFor propertyExpectations : pyval) res w' sent req r :
  w_token_manager w = Some mgr ->
  create name description intentType deliveryExpectations serviceArea validFor
    propertyExpectations w = (res, w') ->
  io_log (w_io w') = io_log (w_io w) ++ sent ++ [req] ->
  (exists body, req_body req = Json body) ->
  http (length (io_log (w_io w) ++ sent)) req = Response r ->
  res = Ok (intent_answer_text exn_text json_dumps_indent2 r)
  /\ is_success_text (intent_answer_text exn_text json_dumps_indent2 r)
     = Z.eqb (status_code r) 201 && bool_decide (is_Some (json_body r))
  /\ is_error_text (intent_answer_text exn_text json_dumps_indent2 r)
     = negb (Z.eqb (status_code r) 201 && bool_decide (is_Some (json_body r))).
Proof.
  intros Htm Hcreate Hlog [body Hjson] Hhttp.
  split; [|apply intent_answer_kind].
  destruct (create_run _ _ _ _ _ _ _ _ _ _ _ Htm Hcreate)
    as (posts & Hforms & [Hlog' | (de & h1 & tok & p & h2 & body' & _ & _ & _ & Hlog' & ->)]).
  - rewrite Hlog in Hlog'. apply app_inv_head in Hlog'. subst posts.
    apply Forall_app in Hforms as [_ Hreq]. apply Forall_inv in Hreq.
    destruct Hreq as [data Hform]. rewrite Hform in Hjson. discriminate Hjson.
  - rewrite Hlog in Hlog'. apply app_inv_head in Hlog'.
    apply app_inj_tail in Hlog' as [-> ->]. rewrite Hhttp. reflexivity.
Qed.

End Tools.

(** C7 at the module as it is right after import. *)
Lemma unconfigured_tools_answer_witness :
  icoraintent_test_cloud_auth example_clock unreachable_http example_exn_text
    example_value_text fresh_world = (Ok not_configured_text, fresh_world)
  /\ icoraintent_create_cloud_intent example_clock unreachable_http example_exn_text
       example_value_text example_json_dumps
       (VStr "Match day") (VStr "Stadium broadcast") (VStr "EventLiveBroadcast")
       VNone VNone VNone VNone fresh_world = (Ok not_configured_text, fresh_world)
  /\ is_error_text not_configured_text = true
  /\ contains "not configured" not_configured_text = true.
Proof.
  apply unconfigured_tools_answer. reflexivity.
Defined.

(** C8 at the example of the spec: HTTP 500 with the body [boom]. *)
Lemma create_intent_reports_answer_witness :
  fst (example_call boom_response)
  = Ok (intent_answer_text example_exn_text example_json_dumps boom_response)
  /\ intent_answer_text example_exn_text example_json_dumps boom_response
     = cross_mark +:+ " Cloud intent creation failed: 500 - boom".
Proof.
  split; [|reflexivity].
  destruct (example_call boom_response) as [res w'] eqn:Hcall.
  unfold example_call in Hcall.
  assert (Hlog : exists req,
             io_log (w_io w') = io_log (w_io configured_world)
                                  ++ [token_request example_config] ++ [req]
             /\ (exists body, req_body req = Json body)
             /\ example_http boom_response
                  (length (io_log (w_io configured_world)
                             ++ [token_request example_config])) req
                = Response boom_response).
  { replace w' with (snd (example_call boom_response))
      by (unfold example_call; rewrite Hcall; reflexivity).
    eexists. split; [vm_compute; reflexivity|].
    split; [eexists; reflexivity|reflexivity]. }
  destruct Hlog as (req & Hlog & Hjson & Hhttp).
  exact (proj1 (create_intent_reports_answer example_clock (example_http boom_response)
                  example_exn_text example_value_text example_json_dumps
                  configured_world (new_manager example_config) _ _ _ _ _ _ _ res w'
                  [token_request example_config] req boom_response
                  eq_refl Hcall Hlog Hjson Hhttp)).
Defined.

(** C8 as the spec words it fails: the backend answers 201, but with a
    body that is not JSON, and the tool returns an error answer. *)
Lemma create_intent_counterexample :
  exists answer,
    fst (example_call created_garbled_response) = Ok answer
    /\ status_code created_garbled_response = 201%Z
    /\ ~ intent_answer_as_stated example_json_dumps created_garbled_response answer.
Proof.
  eexists. split; [vm_compute; reflexivity|]. split; [reflexivity|].
  unfold intent_answer_as_stated. cbn. discriminate.
Qed.

(** * The default delivery expectations (C5) *)

Lemma obj_ok_mono n m o : n <= m -> obj_ok n o = true -> obj_ok m o = true.
Proof.
  intros Hnm. destruct o as [items|entries]; simpl; rewrite !forallb_forall;
    intros H x Hx; eapply val_ok_mono; eauto.
Qed.

(** New objects that refer to what exists keep the store closed. *)
Lemma closed_app (h ext : list pyobj) :
  closed h = true ->
  forallb (obj_ok (length h + length ext)) ext = true ->
  closed (h ++ ext) = true.
Proof.
  unfold closed. intros Hh Hext. rewrite length_app, forallb_app, Hext, andb_true_r.
  rewrite forallb_forall in *. intros o Ho. eapply obj_ok_mono; [|apply Hh, Ho]. lia.
Qed.

(** The payload of every shape starts with the four mandatory entries and
    the copied ones. *)
Lemma built_payload (h : list pyobj) args p h' :
  built h args p h' ->
  p = VRef (length h)
  /\ exists more, h' !! length h = Some (ODict (first_entries h args ++ more)).
Proof.
  intros [Helb | Helb Hsa | pts coords lpe items Helb Hsa Hlist Hcoords Hpe Hitems Hne
         | pts coords Helb Hsa Hlist Hcoords Hpe]; (split; [reflexivity|]).
  - exists []. rewrite app_nil_r. apply lookup_fresh0.
  - eexists. apply lookup_fresh0.
  - eexists. apply lookup_payload, length_insert.
  - eexists. apply lookup_fresh0.
Qed.

Lemma mapM_field (f : pyval -> option json) k v :
  forall (entries : list (string * pyval)) fields,
  mapM (fun kv => pair (fst kv) <$> f (snd kv)) entries = Some fields ->
  assoc k entries = Some v ->
  exists jv, assoc k fields = Some jv /\ f v = Some jv.
Proof.
  induction entries as [|[k' v'] entries IH]; intros fields Hm Ha; [discriminate Ha|].
  cbn in Hm. destruct (f v') as [jv'|] eqn:Hv'; [|discriminate Hm].
  cbn in Hm.
  destruct (mapM (fun kv => pair (fst kv) <$> f (snd kv)) entries) as [rest|] eqn:Hrest;
    [|discriminate Hm].
  cbn in Hm. injection Hm as <-. simpl in Ha |- *.
  destruct (String.eqb k k').
  - injection Ha as <-. eauto.
  - eapply IH; eauto.
Qed.

(** A field of a dict is, in the encoding of the dict, the encoding of
    its value. *)
Lemma reify_field fuel (H : list pyobj) l entries k v j :
  reify (S fuel) H (VRef l) = Some j ->
  H !! l = Some (ODict entries) ->
  assoc k entries = Some v ->
  exists jv, assoc k (json_fields j) = Some jv /\ reify fuel H v = Some jv.
Proof.
  cbn [reify]. intros Hj Hl Hk. rewrite Hl in Hj.
  destruct (mapM (fun kv => pair (fst kv) <$> reify fuel H (snd kv)) entries)
    as [fields|] eqn:Hm; [|discriminate Hj].
  injection Hj as <-. eapply mapM_field; eauto.
Qed.

Lemma reify_str fuel (H : list pyobj) s : reify fuel H (VStr s) = Some (JStr s).
Proof. destruct fuel; reflexivity. Qed.

(** What a JSON encoder reads from the three objects of the default. *)
Lemma reify_default fuel (H : list pyobj) n j :
  H !! n = Some (ODict [ ("targetDescription", VStr "cat:EventWirelessAccess") ]) ->
  H !! (n + 1) = Some (ODict [ ("target", VStr "_:service"); ("params", VRef n) ]) ->
  H !! (n + 2) = Some (OList [ VRef (n + 1) ]) ->
  reify fuel H (VRef (n + 2)) = Some j ->
  j = default_delivery_json.
Proof.
  intros H0 H1 H2.
  destruct fuel as [|[|[|fuel]]]; cbn [reify]; try discriminate;
    rewrite H2; cbn [mapM mbind option_bind fmap option_fmap option_map mret option_ret reify];
    try discriminate;
    rewrite H1; cbn [mapM mbind option_bind fmap option_fmap option_map mret option_ret
                       reify fst snd];
    try discriminate.
  rewrite H0. cbn. rewrite reify_str. cbn. intros Hj. injection Hj as Hj. symmetry. exact Hj.
Qed.

Lemma default_delivery_run (h : list pyobj) :
  default_delivery_expectations h
  = (Ok (VRef (length h + 2)),
     h ++ [ ODict [ ("targetDescription", VStr "cat:EventWirelessAccess") ];
            ODict [ ("target", VStr "_:service"); ("params", VRef (length h)) ];
            OList [ VRef (length h + 1) ] ]).
Proof.
  unfold default_delivery_expectations, bind, Store.new_dict, Store.new_list, Store.alloc.
  rewrite !length_app. cbn [length]. rewrite <- !app_assoc. cbn [app].
  replace (length h + 1 + 1) with (length h + 2) by lia. reflexivity.
Qed.

Section DefaultDelivery.

Variable clock : nat -> datetime.
Variable http : nat -> http_request -> http_outcome.
Variable exn_text : exn -> string.
Variable value_text : json -> string.
Variable json_dumps_indent2 : json -> string.

(** A call without delivery expectations that gets a token, a payload
    from the builder and its JSON sends the intent request. *)
Lemma create_sends (w : world) mgr
    (name description intentType serviceArea validFor propertyExpectations : pyval)
    tok mgr' io1 p h2 body :
  w_token_manager w = Some mgr ->
  get_valid_token clock http exn_text (mgr, w_io w) = (Ok tok, (mgr', io1)) ->
  _build_cloud_intent_payload (VRef (length (w_heap w) + 3))
    (defaulted_store (w_heap w) name description intentType serviceArea validFor
       propertyExpectations)
  = (Ok p, h2) ->
  json_encode h2 p = Some body ->
  exists res w',
    icoraintent_create_cloud_intent clock http exn_text value_text json_dumps_indent2
      name description intentType VNone serviceArea validFor propertyExpectations w
    = (res, w')
    /\ io_log (w_io w')
       = io_log io1 ++ [intent_request value_text (w_base_url w +:+ "/intent/") tok body].
Proof.
  intros Htm Htok Hbuild Henc.
  unfold icoraintent_create_cloud_intent, catch, bind, global_token_manager.
  rewrite Htm.
  unfold lift_heap at 1. cbn [Store.truthy].
  unfold ret at 1.
  unfold lift_heap at 1. cbn [w_heap w_io w_token_manager w_base_url].
  rewrite default_delivery_run.
  unfold call_manager. cbn [w_heap w_io w_token_manager w_base_url].
  rewrite Htm, Htok.
  unfold lift_heap at 1. unfold Store.new_dict, Store.alloc.
  cbn [w_heap w_io w_token_manager w_base_url].
  unfold lift_heap at 1. cbn [w_heap w_io w_token_manager w_base_url].
  assert (Hlen : length (w_heap w
                         ++ [ODict [("targetDescription", VStr "cat:EventWirelessAccess")];
                             ODict [("target", VStr "_:service");
                                    ("params", VRef (length (w_heap w)))];
                             OList [VRef (length (w_heap w) + 1)]])
                 = length (w_heap w) + 3).
  { rewrite length_app. reflexivity. }
  rewrite Hlen.
  unfold defaulted_store, default_objects, arguments_entries in Hbuild.
  rewrite Hbuild.
  unfold global_base_url, encode_body. cbn [w_heap w_io w_token_manager w_base_url].
  rewrite Henc.
  unfold lift_world_io, post. cbn [w_heap w_io w_token_manager w_base_url].
  destruct (http (length (io_log io1)) _) as [r|e].
  - destruct (Z.eqb (status_code r) 201).
    + destruct (json_body r); eexists _, _; split; reflexivity.
    + eexists _, _; split; reflexivity.
  - eexists _, _; split; reflexivity.
Qed.

(** C5: in a configured call without [deliveryExpectations] the payload
    is built with the one default entry.  Every intent request the tool
    sends carries a payload whose [deliveryExpectations] is that entry;
    and the tool does send one, as the last request of the call, whenever
    it gets a token, the builder returns a payload for the arguments with
    the default in them, and the payload can be written as JSON. *)
Theorem default_delivery_expectations_sent
    (w : world) mgr (name description intentType serviceArea validFor
       propertyExpectations : pyval) res w' :
  w_token_manager w = Some mgr ->
  closed (w_heap w) = true ->
  forallb (val_ok (length (w_heap w)))
    [name; description; intentType; serviceArea; validFor; propertyExpectations] = true ->
  icoraintent_create_cloud_intent clock http exn_text value_text json_dumps_indent2
    name description intentType VNone serviceArea validFor propertyExpectations w
  = (res, w') ->
  exists sent,
    io_log (w_io w') = io_log (w_io w) ++ sent
    /\ (forall req payload,
          In req sent ->
          req_body req = Json payload ->
          assoc "deliveryExpectations" (json_fields payload)
          = Some default_delivery_json)
    /\ (forall tok mgr' io1 p h2 body,
          get_valid_token clock http exn_text (mgr, w_io w) = (Ok tok, (mgr', io1)) ->
          _build_cloud_intent_payload (VRef (length (w_heap w) + 3))
            (defaulted_store (w_heap w) name description intentType serviceArea
               validFor propertyExpectations)
          = (Ok p, h2) ->
          json_encode h2 p = Some body ->
          last sent
          = Some (intent_request value_text (w_base_url w +:+ "/intent/") tok body)
          /\ assoc "deliveryExpectations" (json_fields body)
             = Some default_delivery_json).
Proof.
  intros Htm Hc Hargs Hcreate.
  assert (Hsent : exists sent,
             io_log (w_io w') = io_log (w_io w) ++ sent
             /\ forall req payload,
                 In req sent ->
                 req_body req = Json payload ->
                 assoc "deliveryExpectations" (json_fields payload)
                 = Some default_delivery_json).
  { destruct (create_run _ _ _ _ _ _ _ _ _ _ _ _ _ _ _ _ Htm Hcreate)
        as (posts & Hforms & [Hlog | (de & h1 & tok & p & h2 & body & Hde & Hbuild & Henc & Hlog & _)]).
      { exists posts. split; [exact Hlog|]. intros req payload Hin Hjson.
        rewrite Forall_forall in Hforms.
        destruct (Hforms req) as [data Hform]; [apply list_elem_of_In, Hin|].
        rewrite Hform in Hjson. discriminate Hjson. }
      exists (posts ++ [intent_request value_text (w_base_url w +:+ "/intent/") tok body]).
      split; [exact Hlog|]. intros req payload Hin Hjson.
      apply in_app_or in Hin as [Hin|[<-|[]]].
      { rewrite Forall_forall in Hforms.
        destruct (Hforms req) as [data Hform]; [apply list_elem_of_In, Hin|].
        rewrite Hform in Hjson. discriminate Hjson. }
      injection Hjson as <-.
      destruct Hde as [(Ht & _)|(_ & Hdefault)]; [discriminate Ht|].
      rewrite default_delivery_run in Hdefault. injection Hdefault as <- <-.
      set (h := w_heap w) in *. set (n := length h) in *.
      set (D := [ ODict [ ("targetDescription", VStr "cat:EventWirelessAccess") ];
                  ODict [ ("target", VStr "_:service"); ("params", VRef n) ];
                  OList [ VRef (n + 1) ] ]) in *.
      set (args := arguments_entries name description intentType (VRef (n + 2))
                     serviceArea validFor propertyExpectations) in *.
      cbn [forallb] in Hargs. rewrite !andb_true_iff in Hargs.
      destruct Hargs as (Hn & Hd & Hi & Hs & Hv & Hp & _).
      assert (Hlen : length (h ++ D) = n + 3) by (rewrite length_app; reflexivity).
      assert (Hc' : closed ((h ++ D) ++ [ODict args]) = true).
      { rewrite <- app_assoc. apply closed_app; [exact Hc|].
        unfold D, args.
        cbn [app length forallb obj_ok fst snd val_ok args arguments_entries].
        fold n.
        rewrite (val_ok_mono n (n + 4) name), (val_ok_mono n (n + 4) description),
          (val_ok_mono n (n + 4) intentType), (val_ok_mono n (n + 4) serviceArea),
          (val_ok_mono n (n + 4) validFor), (val_ok_mono n (n + 4) propertyExpectations)
          by (assumption || lia).
        cbn [andb].
        replace (Nat.ltb n (n + 4)) with true by (symmetry; apply Nat.ltb_lt; lia).
        replace (Nat.ltb (n + 1) (n + 4)) with true by (symmetry; apply Nat.ltb_lt; lia).
        replace (Nat.ltb (n + 2) (n + 4)) with true by (symmetry; apply Nat.ltb_lt; lia).
        reflexivity. }
      assert (Ha : ((h ++ D) ++ [ODict args]) !! length (h ++ D) = Some (ODict args))
        by apply lookup_fresh0.
      destruct (build_inv _ _ _ _ _ Hc' Ha Hbuild) as (Hb & _).
      destruct (built_payload _ _ _ _ Hb) as (-> & more & Hpayload).
      (* the three objects of the default are still what they were *)
      assert (Hkeep : forall i o, D !! i = Some o -> h2 !! (n + i) = Some o).
      { intros i o Hi'. eapply build_frame; [exact Hc'|exact Ha|exact Hbuild| |].
        - apply lookup_app_l_Some. unfold n. rewrite lookup_fresh. exact Hi'.
        - unfold arg, args. cbn. intros Heq. rewrite Heq in Hp. cbn in Hp.
          apply Nat.ltb_lt in Hp. lia. }
      pose proof (Hkeep 0 _ eq_refl) as H0. rewrite Nat.add_0_r in H0.
      pose proof (Hkeep 1 _ eq_refl) as H1.
      pose proof (Hkeep 2 _ eq_refl) as H2.
      (* the payload as the encoder reads it *)
      unfold json_encode in Henc.
      destruct (length h2) as [|fuel] eqn:Hfuel.
      { destruct h2; [discriminate Hpayload|discriminate Hfuel]. }
      destruct (reify_field fuel h2 _ _ "deliveryExpectations" (VRef (n + 2)) _ Henc Hpayload)
        as (jv & Hfield & Hjv).
      { apply assoc_app_l. reflexivity. }
      rewrite Hfield. f_equal. eapply reify_default; eassumption. }
  destruct Hsent as (sent & Hlog & Hall).
  exists sent. split; [exact Hlog|]. split; [exact Hall|].
  intros tok mgr' io1 p h2 body Htok Hbuild Henc.
  destruct (create_sends w mgr name description intentType serviceArea validFor
              propertyExpectations tok mgr' io1 p h2 body Htm Htok Hbuild Henc)
    as (res0 & w0 & Hrun & Hlog0).
  rewrite Hcreate in Hrun. injection Hrun as <- <-.
  destruct (get_valid_token_log clock http exn_text _ _ _ _ _ Htok)
    as (grants & Hgrants & _).
  rewrite Hgrants, <- app_assoc in Hlog0. rewrite Hlog in Hlog0.
  apply app_inv_head in Hlog0. subst sent.
  split; [apply last_snoc|].
  apply (Hall (intent_request value_text (w_base_url w +:+ "/intent/") tok body));
    [|reflexivity].
  apply in_or_app. right. left. reflexivity.
Qed.

End DefaultDelivery.

(** C5 at the call of the examples: the call sends a grant and then the
    intent request, whose payload has the default entry. *)
Lemma default_delivery_expectations_sent_witness :
  exists sent req payload,
    io_log (w_io (snd (example_call created_response)))
    = io_log (w_io configured_world) ++ sent
    /\ last sent = Some req
    /\ req_body req = Json payload
    /\ assoc "deliveryExpectations" (json_fields payload) = Some default_delivery_json
    /\ forall req' payload',
        In req' sent ->
        req_body req' = Json payload' ->
        assoc "deliveryExpectations" (json_fields payload') = Some default_delivery_json.
Proof.
  destruct (default_delivery_expectations_sent example_clock
              (example_http created_response)
              example_exn_text example_value_text example_json_dumps
              configured_world (new_manager example_config)
              (VStr "Match day") (VStr "Stadium broadcast") (VStr "EventLiveBroadcast")
              VNone VNone VNone (fst (example_call created_response))
              (snd (example_call created_response)) eq_refl eq_refl eq_refl)
    as (sent & Hlog & Hall & Hsent).
  { unfold example_call.
    destruct (icoraintent_create_cloud_intent _ _ _ _ _ _ _ _ _ _ _ _ _); reflexivity. }
  edestruct Hsent as [Hlast Hde]; [reflexivity|reflexivity|reflexivity|].
  eexists sent, _, _. split; [exact Hlog|]. split; [exact Hlast|].
  split; [reflexivity|]. split; [exact Hde|exact Hall].
Defined.

(** The call of the examples does send an intent request, the second
    request of the call, and its payload has the default entry. *)
Lemma default_delivery_example :
  exists req payload,
    io_log (w_io (snd (example_call created_response))) !! 1%nat = Some req
    /\ req_body req = Json payload
    /\ assoc "deliveryExpectations" (json_fields payload) = Some default_delivery_json.
Proof. eexists _, _. repeat split; vm_compute; reflexivity. Qed.

Local Open Scope Z_scope.

(** * The bearer check of the mock backend (C10) *)

Section BearerCheck.

Import Wiremock.

(** The test the two checks make, in words: the header is missing, or it
    does not start with ["Bearer "]. *)
Lemma bearer_missing_spec (h : option string) :
  bearer_missing h = true
  <-> h = None \/ exists a, h = Some a /\ startswith a "Bearer " = false.
Proof.
  unfold bearer_missing, header_falsy. destruct h as [a|].
  - destruct (String.eqb a "") eqn:Hempty; cbn [orb].
    + apply String.eqb_eq in Hempty. subst a. split; [|reflexivity].
      intros _. right. exists "". split; reflexivity.
    + destruct (startswith a "Bearer ") eqn:Hstart; cbn [negb]; split.
      * discriminate.
      * intros [H|(b & [= <-] & H)]; [discriminate H|].
        rewrite Hstart in H. discriminate H.
      * intros _. right. exists a. auto.
      * reflexivity.
  - split; [auto|reflexivity].
Qed.

(** C10: both checks of [POST /intent/], the FastAPI dependency and the
    branch of the Cloud Function entry point, answer 401 "unauthorized"
    exactly when the [Authorization] header is missing or does not start
    with ["Bearer "]; a header that starts with ["Bearer "] is handed on
    as it is, whatever follows the prefix, and what the entry point then
    answers (201 or 400) depends on the request body alone. *)
Theorem bearer_check (authorization : option string)
    (created : string + json * string) :
  let rejected :=
    authorization = None
    \/ exists a, authorization = Some a /\ startswith a "Bearer " = false in
  (rejected ->
   validate_bearer_token authorization
   = inl {| exc_status := 401; exc_detail := unauthorized_detail |}
   /\ create_intent_branch authorization created
      = {| reply_body := unauthorized_detail; reply_status := 401;
           reply_headers := [] |})
  /\ (~ rejected ->
      exists a, authorization = Some a
                /\ validate_bearer_token authorization = inr a
                /\ reply_status (create_intent_branch authorization created) <> 401
                /\ forall a', startswith a' "Bearer " = true ->
                              create_intent_branch (Some a') created
                              = create_intent_branch authorization created)
  /\ assoc "error" (json_fields unauthorized_detail) = Some (JStr "unauthorized").
Proof.
  intros rejected. split; [|split; [|reflexivity]].
  - intros Hrej. apply bearer_missing_spec in Hrej.
    unfold validate_bearer_token, create_intent_branch. rewrite Hrej. auto.
  - intros Hok.
    assert (Hmiss : bearer_missing authorization = false).
    { destruct (bearer_missing authorization) eqn:E; [|reflexivity].
      exfalso. apply Hok, bearer_missing_spec, E. }
    destruct authorization as [a|]; [|discriminate Hmiss].
    exists a. split; [reflexivity|].
    unfold validate_bearer_token, create_intent_branch. rewrite Hmiss.
    split; [reflexivity|]. split.
    + destruct created as [description|[response_data location]]; cbn; discriminate.
    + intros a' Ha'.
      assert (Hmiss' : bearer_missing (Some a') = false).
      { unfold bearer_missing, header_falsy. rewrite Ha'.
        destruct (String.eqb a' "") eqn:E; [|reflexivity].
        apply String.eqb_eq in E. subst a'. discriminate Ha'. }
      rewrite Hmiss'. reflexivity.
Qed.

End BearerCheck.

(** C10 at a header without the prefix and at a header whose token is
    empty. *)
Lemma bearer_check_witness :
  Wiremock.validate_bearer_token (Some "Basic abc")
  = inl {| Wiremock.exc_status := 401;
           Wiremock.exc_detail := Wiremock.unauthorized_detail |}
  /\ Wiremock.validate_bearer_token (Some "Bearer ") = inr "Bearer ".
Proof.
  split.
  - apply (bearer_check (Some "Basic abc") (inl "")).
    right. exists "Basic abc". split; reflexivity.
  - destruct (bearer_check (Some "Bearer ") (inl ""))
      as (_ & Hok & _).
    destruct Hok as (a & Ha & Hvalid & _).
    + intros [H|(a & [= <-] & H)]; discriminate H.
    + injection Ha as <-. exact Hvalid.
Defined.

(** * The rest of the services: proofs *)

Local Open Scope nat_scope.

(** * The tools and the token manager together *)

Section ToolRuns.

Variable clock : nat -> datetime.
Variable http : nat -> http_request -> http_outcome.
Variable exn_text : exn -> string.
Variable value_text : json -> string.
Variable json_dumps_indent2 : json -> string.

Local Abbreviation test_auth :=
  (icoraintent_test_cloud_auth clock http exn_text value_text).
Local Abbreviation create :=
  (icoraintent_create_cloud_intent clock http exn_text value_text json_dumps_indent2).
Local Abbreviation get_token := (get_valid_token clock http exn_text).

Lemma test_auth_run w mgr rt mgr' io1 :
  w_token_manager w = Some mgr ->
  get_token (mgr, w_io w) = (rt, (mgr', io1)) ->
  test_auth w
  = (Ok (test_answer exn_text value_text rt),
     {| w_heap := w_heap w; w_io := io1;
        w_token_manager := Some mgr'; w_base_url := w_base_url w |}).
Proof.
  intros Htm Htok.
  unfold icoraintent_test_cloud_auth, catch, bind, global_token_manager, call_manager.
  rewrite Htm. cbn beta iota. rewrite Htm, Htok.
  unfold test_answer, lift_result, ret.
  destruct rt as [tok|e]; [|reflexivity].
  destruct (json_slice tok 20); reflexivity.
Qed.

(** [get_valid_token] never touches the configuration. *)
Lemma get_valid_token_config self s r self' s' :
  get_token (self, s) = (r, (self', s')) ->
  auth_config self' = auth_config self.
Proof.
  rewrite get_valid_token_unfold. destruct (still_valid clock self s).
  - intros [= <- <- <-]. reflexivity.
  - unfold bind at 1.
    destruct (_refresh_access_token clock http exn_text (self, checked self s))
      as [[[]|e] [self0 s0]] eqn:Hr; intros H.
    + unfold bind, self_get, ret in H. injection H as <- <- <-.
      eapply refresh_sends_one_request, Hr.
    + injection H as <- <- <-. eapply refresh_sends_one_request, Hr.
Qed.

(** A request that fails makes the refresh raise the source's exception
    with the text of the failure. *)
Lemma refresh_unreachable self s e :
  http (length (io_log s)) (token_request (auth_config self)) = Failed e ->
  _refresh_access_token clock http exn_text (self, s)
  = (Raise (Exception ("Cloud authentication failed: " +:+ str_exn exn_text e)),
     (self, {| io_reads := io_reads s;
               io_log := io_log s ++ [token_request (auth_config self)] |})).
Proof.
  intros Hhttp.
  unfold _refresh_access_token, catch, bind, self_get, lift_io, post, raise.
  rewrite Hhttp. reflexivity.
Qed.

(** What a call of [get_valid_token] sends: nothing for a token that is
    still valid, one password grant otherwise. *)
Lemma get_valid_token_sends self s r self' s' :
  get_token (self, s) = (r, (self', s')) ->
  if still_valid clock self s
  then r = Ok (token self) /\ self' = self /\ io_log s' = io_log s
  else io_log s' = io_log s ++ [token_request (auth_config self)].
Proof.
  rewrite get_valid_token_unfold. destruct (still_valid clock self s).
  - intros [= <- <- <-]. auto.
  - intros Hrun.
    destruct (refresh_then_return clock http exn_text self (checked self s))
      as (r0 & self0 & s0 & Hrun0 & Hlog & _).
    rewrite Hrun in Hrun0. injection Hrun0 as <- <- <-.
    rewrite checked_log in Hlog. exact Hlog.
Qed.

Lemma world_eta w :
  {| w_heap := w_heap w; w_io := w_io w;
     w_token_manager := w_token_manager w; w_base_url := w_base_url w |} = w.
Proof. destruct w; reflexivity. Qed.

(** How a configured call of [icoraintent_create_cloud_intent] goes, seen
    from the token manager: the call asks for a token once, and sends at
    most one request after that, which carries the token it got. *)
Lemma create_steps
    (w : world) mgr (name description intentType de0 serviceArea validFor
       propertyExpectations : pyval) res w' :
  w_token_manager w = Some mgr ->
  create name description intentType de0 serviceArea validFor propertyExpectations w
  = (res, w') ->
  (w' = w /\ truthy_in (w_heap w) de0 = None)
  \/ exists rt mgr' io1,
      get_token (mgr, w_io w) = (rt, (mgr', io1))
      /\ w_token_manager w' = Some mgr'
      /\ w_base_url w' = w_base_url w
      /\ io_reads (w_io w') = io_reads io1
      /\ (io_log (w_io w') = io_log io1
          \/ exists tok body,
              rt = Ok tok
              /\ io_log (w_io w')
                 = io_log io1
                     ++ [intent_request value_text (w_base_url w +:+ "/intent/") tok body]).
Proof.
  intros Htm Hcreate. unfold icoraintent_create_cloud_intent, catch in Hcreate.
  match type of Hcreate with
  | match ?body w with _ => _ end = _ => destruct (body w) as [r w1] eqn:Hbody
  end.
  assert (Hw : w' = w1) by (destruct r; injection Hcreate; auto). subst w1.
  clear Hcreate.
  apply bind_cases in Hbody as [(e & s1 & H & _)|(tm & s1 & H & Hbody)];
    [discriminate H|].
  unfold global_token_manager in H. apply ok_pair_inj in H as [<- <-].
  rewrite Htm in Hbody.
  (* the default *)
  apply bind_cases in Hbody as [(e & s1 & H & Hout)|(given & s1 & H & Hbody)].
  { left. injection Hout as _ ->.
    unfold lift_heap in H. rewrite truthy_run in H.
    destruct (truthy_in (w_heap w) de0); [discriminate H|].
    injection H as _ <-. split; [apply world_eta|reflexivity]. }
  unfold lift_heap in H. rewrite truthy_run in H.
  destruct (truthy_in (w_heap w) de0) as [given'|] eqn:Hgiven in H; [|discriminate H].
  apply ok_pair_inj in H as [<- <-].
  apply bind_cases in Hbody as [(e & s1 & H & Hout)|(de & s1 & H & Hbody)].
  { destruct given'; discriminate H. }
  assert (Hde : exists h1,
             s1 = {| w_heap := h1; w_io := w_io w;
                     w_token_manager := Some mgr; w_base_url := w_base_url w |}).
  { destruct given'.
    - apply ok_pair_inj in H as [<- <-]. exists (w_heap w). rewrite Htm. auto.
    - unfold lift_heap in H. cbn [w_heap w_io w_token_manager w_base_url] in H.
      destruct (default_delivery_expectations (w_heap w)) as [rd hd] eqn:Hd.
      injection H as -> <-. exists hd. rewrite Htm. auto. }
  destruct Hde as (h1 & ->). clear H Hgiven given'.
  right.
  (* the token *)
  apply bind_cases in Hbody as [(e & s1 & H & Hout)|(tok & s1 & H & Hbody)];
    unfold call_manager in H; cbn [w_heap w_io w_token_manager w_base_url] in H;
    destruct (get_valid_token clock http exn_text (mgr, w_io w)) as [rt [mgr' io1]] eqn:Htok;
    exists rt, mgr', io1; (split; [reflexivity|]).
  { injection Hout as _ ->. injection H as _ <-. cbn. auto. }
  injection H as -> <-.
  (* the arguments and the payload *)
  apply bind_cases in Hbody as [(e & s1 & H & Hout)|(arguments & s1 & H & Hbody)];
    [discriminate H|].
  unfold lift_heap in H. cbn [w_heap w_io w_token_manager w_base_url] in H.
  unfold Store.new_dict, Store.alloc in H. apply ok_pair_inj in H as [<- <-].
  apply bind_cases in Hbody as [(e & s1 & H & Hout)|(p & s1 & H & Hbody)];
    unfold lift_heap in H; cbn [w_heap w_io w_token_manager w_base_url] in H;
    destruct (_build_cloud_intent_payload (VRef (length h1)) _) as [rp h2] eqn:Hbuild.
  { injection Hout as _ ->. injection H as _ <-. cbn. auto. }
  injection H as -> <-.
  apply bind_cases in Hbody as [(e & s1 & H & Hout)|(base & s1 & H & Hbody)];
    [discriminate H|].
  unfold global_base_url in H. apply ok_pair_inj in H as [<- <-].
  cbn [w_heap w_io w_token_manager w_base_url] in Hbody.
  (* the request *)
  apply bind_cases in Hbody as [(e & s1 & H & Hout)|(body & s1 & H & Hbody)];
    unfold encode_body in H; cbn [w_heap w_io w_token_manager w_base_url] in H;
    destruct (json_encode h2 p) as [body'|] eqn:Henc; try discriminate H.
  { injection Hout as _ ->. injection H as _ <-. cbn. auto. }
  apply ok_pair_inj in H as [<- <-].
  assert (Hsent : forall w0,
             w_token_manager w0 = Some mgr' -> w_base_url w0 = w_base_url w ->
             io_reads (w_io w0) = io_reads io1 ->
             io_log (w_io w0)
             = io_log io1 ++ [intent_request value_text (w_base_url w +:+ "/intent/") tok body'] ->
             w_token_manager w0 = Some mgr' /\ w_base_url w0 = w_base_url w
             /\ io_reads (w_io w0) = io_reads io1
             /\ (io_log (w_io w0) = io_log io1
                 \/ exists tok0 body0,
                     Ok tok = Ok tok0
                     /\ io_log (w_io w0)
                        = io_log io1
                            ++ [intent_request value_text (w_base_url w +:+ "/intent/")
                                  tok0 body0])).
  { intros w0 H1 H2 H3 H4. repeat split; try assumption. right. eauto. }
  apply bind_cases in Hbody as [(e & s1 & H & Hout)|(response & s1 & H & Hbody)];
    unfold lift_world_io, post in H; cbn [w_heap w_io w_token_manager w_base_url] in H;
    destruct (http (length (io_log io1)) _) as [r0|e0] eqn:Hhttp; try discriminate H.
  { injection H as _ <-. injection Hout as _ ->. apply Hsent; reflexivity. }
  apply ok_pair_inj in H as [<- <-].
  destruct (Z.eqb (status_code r0) 201).
  - apply bind_cases in Hbody as [(e & s1 & H & Hout)|(result & s1 & H & Hbody)].
    + destruct (json_body r0); [discriminate H|].
      injection H as _ <-. injection Hout as _ ->. apply Hsent; reflexivity.
    + destruct (json_body r0); [|discriminate H].
      apply ok_pair_inj in H as [<- <-]. injection Hbody as _ <-.
      apply Hsent; reflexivity.
  - injection Hbody as _ <-. apply Hsent; reflexivity.
Qed.

(** X1: [icoraintent_test_cloud_auth] on a configured module never raises.
    With a token that is still valid it sends nothing and shows the first
    20 characters of the token; otherwise it sends exactly one password
    grant, and when that request fails the answer carries both prefixes,
    the tool's and the token manager's, before the text of the failure. *)
Theorem test_cloud_auth_reports (w : world) mgr :
  w_token_manager w = Some mgr ->
  exists answer w',
    test_auth w = (Ok answer, w')
    /\ (still_valid clock mgr (w_io w) = true ->
        io_log (w_io w') = io_log (w_io w)
        /\ w_token_manager w' = Some mgr
        /\ forall s, token mgr = JStr s ->
             answer = check_mark +:+ " Cloud authentication successful! Token: "
                      +:+ utf8_take 20 s +:+ "...")
    /\ (still_valid clock mgr (w_io w) = false ->
        io_log (w_io w') = io_log (w_io w) ++ [token_request (auth_config mgr)]
        /\ forall e,
             http (length (io_log (w_io w))) (token_request (auth_config mgr)) = Failed e ->
             answer = cross_mark
                      +:+ " Cloud authentication test failed: Cloud authentication failed: "
                      +:+ str_exn exn_text e).
Proof.
  intros Htm.
  destruct (get_token (mgr, w_io w)) as [rt [mgr' io1]] eqn:Htok.
  eexists _, _. split; [apply (test_auth_run _ _ _ _ _ Htm Htok)|].
  pose proof (get_valid_token_sends _ _ _ _ _ Htok) as Hsends.
  cbn [w_io w_token_manager].
  split; intros Hvalid; rewrite Hvalid in Hsends.
  - destruct Hsends as (-> & -> & Hlog). repeat split; [exact Hlog|].
    intros s Hs. unfold test_answer. rewrite Hs. reflexivity.
  - split; [exact Hsends|]. intros e He.
    rewrite get_valid_token_unfold, Hvalid in Htok.
    unfold bind at 1 in Htok. rewrite (refresh_unreachable _ _ e) in Htok
      by (rewrite checked_log; exact He).
    injection Htok as <- _ _. reflexivity.
Qed.

(** X2: with a token that is still valid, [icoraintent_create_cloud_intent]
    asks for no new token: it leaves the manager as it is and sends at
    most one request, the intent request, which carries the cached
    token. *)
Theorem valid_token_is_reused
    (w : world) mgr (name description intentType deliveryExpectations serviceArea
       validFor propertyExpectations : pyval) res w' :
  w_token_manager w = Some mgr ->
  still_valid clock mgr (w_io w) = true ->
  create name description intentType deliveryExpectations serviceArea validFor
    propertyExpectations w = (res, w') ->
  w_token_manager w' = Some mgr
  /\ (io_log (w_io w') = io_log (w_io w)
      \/ exists body,
          io_log (w_io w')
          = io_log (w_io w)
              ++ [intent_request value_text (w_base_url w +:+ "/intent/")
                    (token mgr) body]).
Proof.
  intros Htm Hvalid Hcreate.
  destruct (create_steps _ _ _ _ _ _ _ _ _ _ _ Htm Hcreate)
    as [[-> _]|(rt & mgr' & io1 & Htok & Htm' & _ & _ & Hlog)]; [auto|].
  pose proof (get_valid_token_sends _ _ _ _ _ Htok) as Hsends.
  rewrite Hvalid in Hsends. destruct Hsends as (-> & -> & Hlog1).
  split; [exact Htm'|]. rewrite Hlog1 in Hlog.
  destruct Hlog as [Hlog|(tok & body & [= <-] & Hlog)]; [left|right; exists body];
    exact Hlog.
Qed.

(** X3: the two tools that use the token manager never change what was
    configured: after [icoraintent_test_cloud_auth] and after
    [icoraintent_create_cloud_intent], whatever the backend answered, the
    module still has a token manager with the same credentials, and the
    same base URL. *)
Theorem tools_keep_configuration
    (w : world) mgr (name description intentType deliveryExpectations serviceArea
       validFor propertyExpectations : pyval) :
  w_token_manager w = Some mgr ->
  let kept (w' : world) :=
    w_base_url w' = w_base_url w
    /\ exists mgr', w_token_manager w' = Some mgr'
                    /\ auth_config mgr' = auth_config mgr in
  kept (snd (test_auth w))
  /\ kept (snd (create name description intentType deliveryExpectations serviceArea
                  validFor propertyExpectations w)).
Proof.
  intros Htm kept. split.
  - destruct (get_token (mgr, w_io w)) as [rt [mgr' io1]] eqn:Htok.
    rewrite (test_auth_run _ _ _ _ _ Htm Htok). split; [reflexivity|].
    exists mgr'. split; [reflexivity|]. eapply get_valid_token_config, Htok.
  - destruct (create _ _ _ _ _ _ _ w) as [res w'] eqn:Hcreate.
    destruct (create_steps _ _ _ _ _ _ _ _ _ _ _ Htm Hcreate)
      as [[-> _]|(rt & mgr' & io1 & Htok & Htm' & Hurl & _)].
    + split; [reflexivity|]. exists mgr. auto.
    + split; [exact Hurl|]. exists mgr'. split; [exact Htm'|].
      eapply get_valid_token_config, Htok.
Qed.

(** X4: [icoraintent_configure_cloud_auth] checks nothing and contacts
    nobody: it always answers with the success text and installs a
    manager without a token.  The next [icoraintent_test_cloud_auth]
    therefore sends exactly one password grant, to the configured URL
    followed by the Keycloak token path, with the configured credentials;
    a [scope] field is sent only for a scope that is there and not
    empty. *)
Theorem configure_then_test
    (w : world) (wiremockUrl clientId clientSecret username password : string)
    (scope : option string) :
  let cfg := configured wiremockUrl clientId clientSecret username password scope in
  let w1 := {| w_heap := w_heap w; w_io := w_io w;
               w_token_manager := Some (new_manager cfg);
               w_base_url := wiremockUrl |} in
  icoraintent_configure_cloud_auth exn_text wiremockUrl clientId clientSecret
    username password scope w
  = (Ok (check_mark +:+ " iCORA Intent TMF921 cloud authentication configured for: "
         +:+ wiremockUrl), w1)
  /\ (exists answer w2,
        test_auth w1 = (Ok answer, w2)
        /\ io_log (w_io w2) = io_log (w_io w) ++ [token_request cfg])
  /\ req_url (token_request cfg)
     = wiremockUrl +:+ "/auth/keycloak_realm/protocol/openid-connect/token"
  /\ form_of (token_request cfg)
     = grant_fields clientId clientSecret username password
       ++ match scope with
          | Some s => if String.eqb s "" then [] else [("scope", s)]
          | None => []
          end.
Proof.
  intros cfg w1. split; [reflexivity|]. split.
  - destruct (get_token (new_manager cfg, w_io w)) as [rt [mgr' io1]] eqn:Htok.
    eexists _, _. split; [apply (test_auth_run w1 _ _ _ _ eq_refl Htok)|].
    apply get_valid_token_sends in Htok. exact Htok.
  - split; [reflexivity|]. unfold form_of, token_request, cfg, configured, kept_scope, grant_fields.
    destruct scope as [s|]; [|reflexivity]. cbn. destruct (String.eqb s ""); reflexivity.
Qed.

(** X5: the configuration made at import is the one an explicit call would
    make.  With an empty or placeholder [WIREMOCK_FUNCTION_URL] nothing is
    configured and the authentication test says so; with any other URL
    the module is in the state [icoraintent_configure_cloud_auth] leaves
    for the environment's values and no scope, and the first
    authentication test sends one password grant with those values. *)
Theorem initialize_from_env_then_test
    (WIREMOCK_FUNCTION_URL OAUTH_CLIENT_ID OAUTH_CLIENT_SECRET OAUTH_USERNAME
       OAUTH_PASSWORD : string) :
  let w0 := _initialize_from_env WIREMOCK_FUNCTION_URL OAUTH_CLIENT_ID
              OAUTH_CLIENT_SECRET OAUTH_USERNAME OAUTH_PASSWORD in
  if String.eqb WIREMOCK_FUNCTION_URL ""
     || String.eqb WIREMOCK_FUNCTION_URL "https://YOUR_WIREMOCK_FUNCTION_URL"
  then test_auth w0 = (Ok not_configured_text, w0)
  else
    w0 = snd (icoraintent_configure_cloud_auth exn_text WIREMOCK_FUNCTION_URL
                OAUTH_CLIENT_ID OAUTH_CLIENT_SECRET OAUTH_USERNAME OAUTH_PASSWORD
                None blank_world)
    /\ exists answer w1,
         test_auth w0 = (Ok answer, w1)
         /\ io_log (w_io w1)
            = [token_request (configured WIREMOCK_FUNCTION_URL OAUTH_CLIENT_ID
                                OAUTH_CLIENT_SECRET OAUTH_USERNAME OAUTH_PASSWORD None)]
         /\ form_of (token_request (configured WIREMOCK_FUNCTION_URL OAUTH_CLIENT_ID
                                      OAUTH_CLIENT_SECRET OAUTH_USERNAME OAUTH_PASSWORD None))
            = grant_fields OAUTH_CLIENT_ID OAUTH_CLIENT_SECRET OAUTH_USERNAME
                OAUTH_PASSWORD.
Proof.
  intros w0. unfold w0, _initialize_from_env.
  destruct (String.eqb WIREMOCK_FUNCTION_URL "") eqn:Hempty; cbn [negb andb orb];
    [reflexivity|].
  destruct (String.eqb WIREMOCK_FUNCTION_URL "https://YOUR_WIREMOCK_FUNCTION_URL");
    cbn [negb]; [reflexivity|].
  split; [reflexivity|].
  set (cfg := configured WIREMOCK_FUNCTION_URL OAUTH_CLIENT_ID OAUTH_CLIENT_SECRET
                OAUTH_USERNAME OAUTH_PASSWORD None).
  destruct (get_token (new_manager cfg, no_io)) as [rt [mgr' io1]] eqn:Htok.
  eexists _, _.
  split; [apply (test_auth_run
                   {| w_heap := []; w_io := no_io;
                      w_token_manager := Some (new_manager cfg);
                      w_base_url := WIREMOCK_FUNCTION_URL |}
                   (new_manager cfg) _ _ _ eq_refl Htok)|].
  apply get_valid_token_sends in Htok. split; [exact Htok|reflexivity].
Qed.

End ToolRuns.

(** * The intent request and the mock's bearer check *)

Lemma bearer_accepts (t : string) :
  Wiremock.validate_bearer_token (Some ("Bearer " +:+ t)) = inr ("Bearer " +:+ t)
  /\ forall created,
       Wiremock.reply_status
         (Wiremock.create_intent_branch (Some ("Bearer " +:+ t)) created) <> 401%Z.
Proof.
  assert (Hmiss : Wiremock.bearer_missing (Some ("Bearer " +:+ t)) = false).
  { unfold Wiremock.bearer_missing, Wiremock.startswith.
    rewrite prefix_append. reflexivity. }
  unfold Wiremock.validate_bearer_token, Wiremock.create_intent_branch.
  rewrite Hmiss. split; [reflexivity|].
  intros [description|[response_data location]]; cbn; discriminate.
Qed.

Lemma intent_request_authorization value_text url tok body :
  header_lookup (req_headers (intent_request value_text url tok body)) "Authorization"
  = Some ("Bearer " +:+ format_value value_text tok).
Proof. reflexivity. Qed.

Section IntentRequests.

Variable clock : nat -> datetime.
Variable http : nat -> http_request -> http_outcome.
Variable exn_text : exn -> string.
Variable value_text : json -> string.
Variable json_dumps_indent2 : json -> string.

Local Abbreviation create :=
  (icoraintent_create_cloud_intent clock http exn_text value_text json_dumps_indent2).

(** X6: a configured call of [icoraintent_create_cloud_intent] sends at
    most two requests: at most one password grant, then at most one
    intent request to the base URL followed by [/intent/].  The intent
    request always has an [Authorization] header that the mock backend's
    bearer check lets through, whatever the token is: the tool never
    gets a 401 from the mock. *)
Theorem intent_requests_pass_bearer_check
    (w : world) mgr (name description intentType deliveryExpectations serviceArea
       validFor propertyExpectations : pyval) res w' :
  w_token_manager w = Some mgr ->
  create name description intentType deliveryExpectations serviceArea validFor
    propertyExpectations w = (res, w') ->
  exists grants intents,
    io_log (w_io w') = io_log (w_io w) ++ grants ++ intents
    /\ (grants = [] \/ grants = [token_request (auth_config mgr)])
    /\ (intents = []
        \/ exists tok body,
            intents = [intent_request value_text (w_base_url w +:+ "/intent/") tok body])
    /\ forall req, In req intents ->
         exists a,
           header_lookup (req_headers req) "Authorization" = Some a
           /\ Wiremock.validate_bearer_token (Some a) = inr a
           /\ forall created,
                Wiremock.reply_status (Wiremock.create_intent_branch (Some a) created)
                <> 401%Z.
Proof.
  intros Htm Hcreate.
  destruct (create_steps _ _ _ _ _ _ _ _ _ _ _ _ _ _ _ _ Htm Hcreate)
    as [[-> _]|(rt & mgr' & io1 & Htok & _ & _ & _ & Hlog)].
  { exists [], []. rewrite !app_nil_r. repeat split; auto. intros req []. }
  assert (Hgrants : exists grants,
             io_log io1 = io_log (w_io w) ++ grants
             /\ (grants = [] \/ grants = [token_request (auth_config mgr)])).
  { apply get_valid_token_sends in Htok.
    destruct (still_valid clock mgr (w_io w)).
    - destruct Htok as (_ & _ & Hlog1). exists []. rewrite app_nil_r. auto.
    - eauto. }
  destruct Hgrants as (grants & Hlog1 & Hgrants).
  exists grants.
  destruct Hlog as [Hlog|(tok & body & _ & Hlog)].
  - exists []. rewrite app_nil_r, Hlog, Hlog1. repeat split; auto. intros req [].
  - exists [intent_request value_text (w_base_url w +:+ "/intent/") tok body].
    rewrite Hlog, Hlog1, <- app_assoc. repeat split; eauto.
    intros req [<-|[]]. rewrite intent_request_authorization.
    eexists. split; [reflexivity|]. apply bearer_accepts.
Qed.

End IntentRequests.

(** * Delivery expectations that are there but empty *)

Section FalsyDelivery.

Variable clock : nat -> datetime.
Variable http : nat -> http_request -> http_outcome.
Variable exn_text : exn -> string.
Variable value_text : json -> string.
Variable json_dumps_indent2 : json -> string.

(** X7: the default is not only for a missing [deliveryExpectations]: the
    tool tests the argument for truth, so an empty list (or any other
    falsy value) is replaced as well, and every intent request of such a
    call carries the one default entry. *)
Theorem falsy_delivery_expectations_get_default
    (w : world) mgr (name description intentType deliveryExpectations serviceArea
       validFor propertyExpectations : pyval) res w' :
  w_token_manager w = Some mgr ->
  closed (w_heap w) = true ->
  forallb (val_ok (length (w_heap w)))
    [name; description; intentType; serviceArea; validFor; propertyExpectations] = true ->
  truthy_in (w_heap w) deliveryExpectations = Some false ->
  icoraintent_create_cloud_intent clock http exn_text value_text json_dumps_indent2
    name description intentType deliveryExpectations serviceArea validFor
    propertyExpectations w
  = (res, w') ->
  exists sent,
    io_log (w_io w') = io_log (w_io w) ++ sent
    /\ forall req payload,
        In req sent ->
        req_body req = Json payload ->
        assoc "deliveryExpectations" (json_fields payload) = Some default_delivery_json.
Proof.
  intros Htm Hc Hargs Hfalsy Hcreate.
  destruct (create_run _ _ _ _ _ _ _ _ _ _ _ _ _ _ _ _ Htm Hcreate)
    as (posts & Hforms & [Hlog | (de & h1 & tok & p & h2 & body & Hde & Hbuild & Henc & Hlog & _)]).
  { exists posts. split; [exact Hlog|]. intros req payload Hin Hjson.
    rewrite Forall_forall in Hforms.
    destruct (Hforms req) as [data Hform]; [apply list_elem_of_In, Hin|].
    rewrite Hform in Hjson. discriminate Hjson. }
  exists (posts ++ [intent_request value_text (w_base_url w +:+ "/intent/") tok body]).
  split; [exact Hlog|]. intros req payload Hin Hjson.
  apply in_app_or in Hin as [Hin|[<-|[]]].
  { rewrite Forall_forall in Hforms.
    destruct (Hforms req) as [data Hform]; [apply list_elem_of_In, Hin|].
    rewrite Hform in Hjson. discriminate Hjson. }
  injection Hjson as <-.
  destruct Hde as [(Ht & _)|(_ & Hdefault)];
    [rewrite Hfalsy in Ht; discriminate Ht|].
  rewrite default_delivery_run in Hdefault. injection Hdefault as <- <-.
  set (h := w_heap w) in *. set (n := length h) in *.
  set (D := [ ODict [ ("targetDescription", VStr "cat:EventWirelessAccess") ];
              ODict [ ("target", VStr "_:service"); ("params", VRef n) ];
              OList [ VRef (n + 1) ] ]) in *.
  set (args := arguments_entries name description intentType (VRef (n + 2))
                 serviceArea validFor propertyExpectations) in *.
  cbn [forallb] in Hargs. rewrite !andb_true_iff in Hargs.
  destruct Hargs as (Hn & Hd & Hi & Hs & Hv & Hp & _).
  assert (Hlen : length (h ++ D) = n + 3) by (rewrite length_app; reflexivity).
  assert (Hc' : closed ((h ++ D) ++ [ODict args]) = true).
  { rewrite <- app_assoc. apply closed_app; [exact Hc|].
    unfold D, args.
    cbn [app length forallb obj_ok fst snd val_ok args arguments_entries].
    fold n.
    rewrite (val_ok_mono n (n + 4) name), (val_ok_mono n (n + 4) description),
      (val_ok_mono n (n + 4) intentType), (val_ok_mono n (n + 4) serviceArea),
      (val_ok_mono n (n + 4) validFor), (val_ok_mono n (n + 4) propertyExpectations)
      by (assumption || lia).
    cbn [andb].
    replace (Nat.ltb n (n + 4)) with true by (symmetry; apply Nat.ltb_lt; lia).
    replace (Nat.ltb (n + 1) (n + 4)) with true by (symmetry; apply Nat.ltb_lt; lia).
    replace (Nat.ltb (n + 2) (n + 4)) with true by (symmetry; apply Nat.ltb_lt; lia).
    reflexivity. }
  assert (Ha : ((h ++ D) ++ [ODict args]) !! length (h ++ D) = Some (ODict args))
    by apply lookup_fresh0.
  destruct (build_inv _ _ _ _ _ Hc' Ha Hbuild) as (Hb & _).
  destruct (built_payload _ _ _ _ Hb) as (-> & more & Hpayload).
  assert (Hkeep : forall i o, D !! i = Some o -> h2 !! (n + i) = Some o).
  { intros i o Hi'. eapply build_frame; [exact Hc'|exact Ha|exact Hbuild| |].
    - apply lookup_app_l_Some. unfold n. rewrite lookup_fresh. exact Hi'.
    - unfold arg, args. cbn. intros Heq. rewrite Heq in Hp. cbn in Hp.
      apply Nat.ltb_lt in Hp. lia. }
  pose proof (Hkeep 0 _ eq_refl) as H0. rewrite Nat.add_0_r in H0.
  pose proof (Hkeep 1 _ eq_refl) as H1.
  pose proof (Hkeep 2 _ eq_refl) as H2.
  unfold json_encode in Henc.
  destruct (length h2) as [|fuel] eqn:Hfuel.
  { destruct h2; [discriminate Hpayload|discriminate Hfuel]. }
  destruct (reify_field fuel h2 _ _ "deliveryExpectations" (VRef (n + 2)) _ Henc Hpayload)
    as (jv & Hfield & Hjv).
  { apply assoc_app_l. reflexivity. }
  rewrite Hfield. f_equal. eapply reify_default; eassumption.
Qed.

End FalsyDelivery.

(** * The connectivity check *)

(** The three marks start differently. *)
Lemma cross_is_no_success (s : string) : is_success_text (cross_mark +:+ s) = false.
Proof. reflexivity. Qed.

Lemma warning_is_no_success (s : string) : is_success_text (warning_mark +:+ s) = false.
Proof. reflexivity. Qed.

Lemma check_is_success (s : string) : is_success_text (check_mark +:+ s) = true.
Proof. apply prefix_append. Qed.

Section ConnectivityCheck.

Variable http_get : nat -> string -> http_outcome.
Variable exn_text : exn -> string.

Local Abbreviation check := (check_cloud_connectivity http_get exn_text).

(** X8: [check_cloud_connectivity] never raises.  It probes the configured
    base URL, or [WIREMOCK_FUNCTION_URL] while none is configured: first
    [/health], and [/__admin/mappings] only after a 200 from [/health].
    It answers with the success text exactly when both probes return 200
    and the second body is a JSON object whose [mappings] (an empty list
    when missing) has a length, which is the number it reports; a probe
    that cannot be made is reported with the text of its failure. *)
Theorem connectivity_check_reports
    (WIREMOCK_FUNCTION_URL base_url : string) (fetched : list string) :
  let url := str_or base_url WIREMOCK_FUNCTION_URL in
  let health := http_get (length fetched) (url +:+ "/health") in
  let admin := http_get (S (length fetched)) (url +:+ "/__admin/mappings") in
  exists answer probes,
    check WIREMOCK_FUNCTION_URL base_url fetched = (Ok answer, fetched ++ probes)
    /\ probes
       = (url +:+ "/health")
           :: match health with
              | Response r =>
                  if Z.eqb (status_code r) 200 then [url +:+ "/__admin/mappings"] else []
              | Failed _ => []
              end
    /\ (is_success_text answer = true
        <-> exists r1 r2 fields n,
              health = Response r1 /\ status_code r1 = 200%Z
              /\ admin = Response r2 /\ status_code r2 = 200%Z
              /\ json_body r2 = Some (JObj fields)
              /\ json_len (default (JArr []) (assoc "mappings" fields)) = Ok n
              /\ answer = check_mark +:+ " Cloud WireMock function fully accessible! "
                          +:+ pretty n +:+ " mappings loaded at " +:+ url)
    /\ (forall e, health = Failed e ->
          answer = cross_mark +:+ " Cannot reach cloud WireMock function: "
                   +:+ str_exn exn_text e).
Proof.
  intros url health admin.
  unfold check_cloud_connectivity, catch, bind, get.
  fold (str_or base_url WIREMOCK_FUNCTION_URL). fold url. fold health.
  destruct health as [r1|e1] eqn:Hhealth.
  2:{ eexists _, _. split; [reflexivity|]. split; [reflexivity|]. split.
      - rewrite cross_is_no_success. split; [discriminate|].
        intros (? & ? & ? & ? & [=] & _).
      - intros e [= <-]. reflexivity. }
  destruct (Z.eqb (status_code r1) 200) eqn:H1.
  2:{ eexists _, _. split; [reflexivity|]. split; [reflexivity|]. split.
      - rewrite cross_is_no_success. split; [discriminate|].
        intros (? & ? & ? & ? & [= <-] & Hs & _). rewrite Hs in H1. discriminate H1.
      - intros e [=]. }
  rewrite length_app. cbn [length]. rewrite Nat.add_1_r. fold admin.
  apply Z.eqb_eq in H1.
  destruct admin as [r2|e2] eqn:Hadmin.
  2:{ eexists _, _. split; [rewrite <- app_assoc; reflexivity|]. split; [reflexivity|].
      split.
      - rewrite cross_is_no_success. split; [discriminate|].
        intros (? & ? & ? & ? & _ & _ & [=] & _).
      - intros e [=]. }
  destruct (Z.eqb (status_code r2) 200) eqn:H2.
  2:{ eexists _, _. split; [rewrite <- app_assoc; reflexivity|]. split; [reflexivity|].
      split.
      - rewrite warning_is_no_success. split; [discriminate|].
        intros (? & ? & ? & ? & _ & _ & [= <-] & Hs & _). rewrite Hs in H2.
        discriminate H2.
      - intros e [=]. }
  apply Z.eqb_eq in H2.
  assert (Hfail : forall (cause : exn),
             exists answer probes,
               (Ok (cross_mark +:+ " Cannot reach cloud WireMock function: "
                    +:+ str_exn exn_text cause),
                (fetched ++ [url +:+ "/health"]) ++ [url +:+ "/__admin/mappings"])
               = (Ok answer, fetched ++ probes)
               /\ probes = [url +:+ "/health"; url +:+ "/__admin/mappings"]
               /\ is_success_text answer = false
               /\ (forall e : exn, Response r1 = Failed e ->
                     answer = cross_mark +:+ " Cannot reach cloud WireMock function: "
                              +:+ str_exn exn_text e)).
  { intros cause. eexists _, _. split; [rewrite <- app_assoc; reflexivity|].
    split; [reflexivity|]. split; [apply cross_is_no_success|]. intros e [=]. }
  destruct (json_body r2) as [body|] eqn:Hbody.
  2:{ destruct (Hfail JSONDecodeError) as (answer & probes & Hrun & Hp & Hno & He).
      exists answer, probes. split; [exact Hrun|]. split; [exact Hp|].
      split; [|exact He]. rewrite Hno. split; [discriminate|].
      intros (? & ? & ? & ? & _ & _ & [= <-] & _ & Hb & _).
      rewrite Hbody in Hb. discriminate Hb. }
  unfold lift_result. cbn [ret].
  destruct body as [| | | | |fields];
    try (destruct (Hfail AttributeError) as (answer & probes & Hrun & Hp & Hno & He);
         exists answer, probes; (split; [exact Hrun|]); (split; [exact Hp|]);
         (split; [|exact He]); rewrite Hno; (split; [discriminate|]);
         intros (? & ? & ? & ? & _ & _ & [= <-] & _ & Hb & _);
         rewrite Hbody in Hb; discriminate Hb).
  cbn [json_get].
  destruct (json_len (default (JArr []) (assoc "mappings" fields))) as [n|e] eqn:Hlen.
  - eexists _, _. split; [rewrite <- app_assoc; reflexivity|]. split; [reflexivity|].
    split; [|intros e [=]]. rewrite check_is_success. split; [|reflexivity].
    intros _. exists r1, r2, fields, n. repeat split; assumption || reflexivity.
  - assert (e = TypeError) as ->.
    { destruct (default (JArr []) (assoc "mappings" fields)); cbn in Hlen;
        congruence. }
    destruct (Hfail TypeError) as (answer & probes & Hrun & Hp & Hno & He).
    exists answer, probes. split; [exact Hrun|]. split; [exact Hp|].
    split; [|exact He]. rewrite Hno. split; [discriminate|].
    intros (? & ? & ? & n & _ & _ & [= <-] & _ & Hb & Hn & _).
    rewrite Hbody in Hb. injection Hb as <-. rewrite Hlen in Hn. discriminate Hn.
Qed.

End ConnectivityCheck.

(** X1 at a backend that cannot be reached: both prefixes, then the
    failure. *)
Lemma test_cloud_auth_reports_witness :
  fst (icoraintent_test_cloud_auth example_clock unreachable_http example_exn_text
         example_value_text configured_world)
  = Ok (cross_mark
        +:+ " Cloud authentication test failed: Cloud authentication failed: connection refused").
Proof.
  destruct (test_cloud_auth_reports example_clock unreachable_http example_exn_text
              example_value_text configured_world (new_manager example_config) eq_refl)
    as (answer & w' & Hrun & _ & Hrefresh).
  rewrite Hrun. destruct (Hrefresh eq_refl) as [_ Hfail].
  rewrite (Hfail _ eq_refl). reflexivity.
Defined.

(** X2 after an authentication test: the intent is created with the token
    the test cached, and the only request of the call is the intent
    request. *)
Lemma valid_token_is_reused_witness :
  exists body,
    io_log (w_io (snd (example_call_in authenticated_world)))
    = io_log (w_io authenticated_world)
        ++ [intent_request example_value_text "https://mock/intent/"
              (JStr "cloud_mock_token_1") body].
Proof.
  destruct (example_call_in authenticated_world) as [res w'] eqn:Hcall.
  destruct (valid_token_is_reused example_clock (example_http created_response)
              example_exn_text example_value_text example_json_dumps
              authenticated_world
              {| auth_config := example_config;
                 token := JStr "cloud_mock_token_1";
                 token_expiry := Some (seconds 4570) |}
              _ _ _ _ _ _ _ res w' eq_refl eq_refl Hcall)
    as [_ [Hlog|Hlog]].
  - exfalso. replace w' with (snd (example_call_in authenticated_world)) in Hlog
      by (rewrite Hcall; reflexivity).
    vm_compute in Hlog. discriminate Hlog.
  - exact Hlog.
Defined.

(** X3 at the call of the examples, against a backend that answers 500:
    the configuration is what it was. *)
Lemma tools_keep_configuration_witness :
  w_base_url (snd (example_call boom_response)) = "https://mock"
  /\ exists mgr',
       w_token_manager (snd (example_call boom_response)) = Some mgr'
       /\ auth_config mgr' = example_config.
Proof.
  exact (proj2 (tools_keep_configuration example_clock (example_http boom_response)
                  example_exn_text example_value_text example_json_dumps
                  configured_world (new_manager example_config)
                  (VStr "Match day") (VStr "Stadium broadcast")
                  (VStr "EventLiveBroadcast") VNone VNone VNone VNone eq_refl)).
Defined.

(** X6 at the call of the examples: one password grant, one intent
    request, and the mock lets the intent request through. *)
Lemma intent_requests_pass_bearer_check_witness :
  exists grants intents,
    io_log (w_io (snd (example_call created_response)))
    = io_log (w_io configured_world) ++ grants ++ intents
    /\ (grants = [] \/ grants = [token_request example_config])
    /\ (intents = []
        \/ exists tok body,
            intents = [intent_request example_value_text "https://mock/intent/" tok body])
    /\ forall req, In req intents ->
         exists a,
           header_lookup (req_headers req) "Authorization" = Some a
           /\ Wiremock.validate_bearer_token (Some a) = inr a
           /\ forall created,
                Wiremock.reply_status (Wiremock.create_intent_branch (Some a) created)
                <> 401%Z.
Proof.
  apply (intent_requests_pass_bearer_check example_clock (example_http created_response)
           example_exn_text example_value_text example_json_dumps
           configured_world (new_manager example_config)
           (VStr "Match day") (VStr "Stadium broadcast") (VStr "EventLiveBroadcast")
           VNone VNone VNone VNone (fst (example_call created_response))).
  - reflexivity.
  - unfold example_call.
    destruct (icoraintent_create_cloud_intent _ _ _ _ _ _ _ _ _ _ _ _ _); reflexivity.
Defined.

(** X7 at an empty list of delivery expectations. *)
Lemma falsy_delivery_expectations_get_default_witness :
  exists sent,
    io_log (w_io (snd (icoraintent_create_cloud_intent example_clock
                         (example_http created_response) example_exn_text
                         example_value_text example_json_dumps
                         (VStr "Match day") (VStr "Stadium broadcast")
                         (VStr "EventLiveBroadcast") (VRef 0) VNone VNone VNone
                         empty_list_world)))
    = sent
    /\ length sent = 2
    /\ forall req payload,
        In req sent ->
        req_body req = Json payload ->
        assoc "deliveryExpectations" (json_fields payload) = Some default_delivery_json.
Proof.
  destruct (icoraintent_create_cloud_intent example_clock
              (example_http created_response) example_exn_text
              example_value_text example_json_dumps
              (VStr "Match day") (VStr "Stadium broadcast")
              (VStr "EventLiveBroadcast") (VRef 0) VNone VNone VNone
              empty_list_world) as [res w'] eqn:Hcall.
  destruct (falsy_delivery_expectations_get_default example_clock
              (example_http created_response) example_exn_text
              example_value_text example_json_dumps
              empty_list_world (new_manager example_config)
              (VStr "Match day") (VStr "Stadium broadcast")
              (VStr "EventLiveBroadcast") (VRef 0) VNone VNone VNone res w'
              eq_refl eq_refl eq_refl eq_refl Hcall)
    as (sent & Hlog & Hsent).
  change (io_log (w_io w') = sent) in Hlog.
  exists sent. split; [exact Hlog|]. split; [|exact Hsent].
  rewrite <- Hlog.
  replace w' with (snd (icoraintent_create_cloud_intent example_clock
              (example_http created_response) example_exn_text
              example_value_text example_json_dumps
              (VStr "Match day") (VStr "Stadium broadcast")
              (VStr "EventLiveBroadcast") (VRef 0) VNone VNone VNone
              empty_list_world)) by (rewrite Hcall; reflexivity).
  vm_compute. reflexivity.
Defined.

(** * The HTTP entry point of the MCP server *)

Lemma json_eq_str_true v s : json_eq_str v s = true <-> v = JStr s.
Proof.
  destruct v; cbn; try (split; [discriminate|intros [=]]).
  rewrite String.eqb_eq. split; [intros ->; reflexivity|intros [= ->]; reflexivity].
Qed.

Lemma json_eq_str_false v s : json_eq_str v s = false <-> v <> JStr s.
Proof.
  rewrite <- json_eq_str_true. destruct (json_eq_str v s); split; congruence.
Qed.

(** Membership in a list that is written out. *)
Ltac in_list :=
  solve [repeat first [apply list_elem_of_here | apply list_elem_of_further]].

Section EntryPointFacts.

Variable W : Type.
Variable configure_tool : json -> ST W string.
Variable test_tool : ST W string.
Variable create_tool : json -> ST W string.
Variable connectivity_tool : ST W string.
Variable health_tool : ST W string.
Variable list_tool : ST W string.
Variable base_url : W -> json.
Variable WIREMOCK_FUNCTION_URL : string.
Variable utcnow_isoformat : W -> string.
Variable exn_text : exn -> string.
Variable value_text : json -> string.

Local Abbreviation serve :=
  (icoraintent_mcp_function W configure_tool test_tool create_tool connectivity_tool
     health_tool list_tool base_url WIREMOCK_FUNCTION_URL utcnow_isoformat exn_text
     value_text).
Local Abbreviation call :=
  (call_tool W configure_tool test_tool create_tool connectivity_tool health_tool
     list_tool).
Local Abbreviation post_steps :=
  (handle_post W configure_tool test_tool create_tool connectivity_tool health_tool
     list_tool value_text).

(** A POST is answered by the [try] block of the POST branch, by its
    [except] clause, or by the outer one. *)
Lemma serve_post request w :
  rq_method request = "POST" ->
  serve request w
  = match post_steps request w with
    | (Ok (Some answer), w') => (Ok answer, w')
    | (Ok None, w') => (Ok method_not_allowed, w')
    | (Raise e, w') =>
        match rq_json request with
        | Ok (JObj fields) =>
            (Ok (rpc_internal_error exn_text (default (JInt 1) (assoc "id" fields)) e), w')
        | Ok _ => (Ok (internal_server_error exn_text AttributeError), w')
        | Raise _ => (Ok (rpc_internal_error exn_text (JInt 1) e), w')
        end
    end.
Proof.
  intros Hm. unfold icoraintent_mcp_function. rewrite Hm.
  unfold catch, bind, ret, post_failed, request_id, lift_result.
  cbn [String.eqb Ascii.eqb Bool.eqb].
  destruct (post_steps request w) as [[[answer|]|e] w']; try reflexivity.
  destruct (rq_json request) as [[| | | | |fields]|e0]; reflexivity.
Qed.

(** The [try] block on a body that is a JSON object. *)
Lemma handle_post_object request fields w :
  rq_json request = Ok (JObj fields) ->
  post_steps request w
  = let method := default JNull (assoc "method" fields) in
    let id := default (JInt 1) (assoc "id" fields) in
    if json_eq_str method "initialize"
    then (Ok (Some
                (JObj [ ("jsonrpc", JStr "2.0");
                        ("id", id);
                        ("result",
                         JObj [ ("protocolVersion", JStr "2024-11-05");
                                ("capabilities", JObj [ ("tools", JObj []) ]);
                                ("serverInfo",
                                 JObj [ ("name", JStr "icora intentTMF921 Cloud FastMCP");
                                        ("version", JStr "1.0.0") ]) ]) ],
                 200%Z)), w)
    else if json_eq_str method "tools/list"
    then (Ok (Some (JObj [ ("jsonrpc", JStr "2.0");
                           ("id", id);
                           ("result", JObj [ ("tools", advertised_tools) ]) ],
                    200%Z)), w)
    else if json_eq_str method "tools/call"
    then
      match assoc "params" fields with
      | None => (Raise (KeyError "params"), w)
      | Some (JObj params) =>
          match assoc "name" params with
          | None => (Raise (KeyError "name"), w)
          | Some name =>
              match tool_of_name name with
              | Some t =>
                  match call t (default (JObj []) (assoc "arguments" params)) w with
                  | (Ok text, w') => (Ok (Some (rpc_result id text)), w')
                  | (Raise e, w') => (Raise e, w')
                  end
              | None => (Ok (Some (rpc_tool_not_found value_text id name)), w)
              end
          end
      | Some _ => (Raise TypeError, w)
      end
    else (Ok None, w).
Proof.
  intros Hj. unfold handle_post, bind, lift_result, request_id, ret. rewrite Hj.
  cbn [json_get json_getitem].
  destruct (json_eq_str _ "initialize"); [reflexivity|].
  destruct (json_eq_str _ "tools/list"); [reflexivity|].
  destruct (json_eq_str _ "tools/call"); [|reflexivity].
  destruct (assoc "params" fields) as [[| | | | |params]|]; try reflexivity.
  cbn [json_get json_getitem].
  destruct (assoc "name" params) as [name|]; [|reflexivity].
  destruct (tool_of_name name) as [t|]; [|reflexivity].
  destruct (call t _ w) as [[text|e] w']; reflexivity.
Qed.

(** The [try] block on a body that is not an object, or not JSON. *)
Lemma handle_post_other request w :
  match rq_json request with
  | Ok (JObj _) => True
  | Ok _ => post_steps request w = (Raise AttributeError, w)
  | Raise e => post_steps request w = (Raise e, w)
  end.
Proof.
  unfold handle_post, bind, lift_result.
  destruct (rq_json request) as [[| | | | |fields]|e]; auto.
Qed.

(** X9: a [tools/call] for one of the six tools runs that tool once, and
    the answer has status 200 and carries the tool's text as it is, also
    when the text is one of the tools' error texts; only an exception out
    of the call gives a 500 with the JSON-RPC code -32603.  A name the
    dispatch does not know runs nothing and gets a 404 with the code
    -32601. *)
Theorem tools_call_answers (request : mcp_request) fields params name (w : W) :
  rq_method request = "POST" ->
  rq_json request = Ok (JObj fields) ->
  assoc "method" fields = Some (JStr "tools/call") ->
  assoc "params" fields = Some (JObj params) ->
  assoc "name" params = Some name ->
  let id := default (JInt 1) (assoc "id" fields) in
  let arguments := default (JObj []) (assoc "arguments" params) in
  serve request w
  = match tool_of_name name with
    | Some t =>
        match call t arguments w with
        | (Ok text, w') => (Ok (rpc_result id text), w')
        | (Raise e, w') => (Ok (rpc_internal_error exn_text id e), w')
        end
    | None => (Ok (rpc_tool_not_found value_text id name), w)
    end.
Proof.
  intros Hm Hj Hmethod Hparams Hname id arguments.
  rewrite (serve_post _ _ Hm), (handle_post_object _ _ _ Hj), Hj.
  rewrite Hmethod, Hparams, Hname. cbn [default json_eq_str String.eqb Ascii.eqb Bool.eqb].
  destruct (tool_of_name name) as [t|]; [|reflexivity].
  fold arguments. destruct (call t arguments w) as [[text|e] w']; reflexivity.
Qed.

(** X10: the default answer, 405 [method_not_allowed], is what a request
    gets exactly when it is a GET for a path other than [/health] and [/],
    or has a method other than GET and POST, or is a POST of a JSON object
    whose JSON-RPC method is none of [initialize], [tools/list] and
    [tools/call]; such a request runs no tool and changes nothing. *)
Theorem method_not_allowed_answers (request : mcp_request) (w : W) :
  let refused :=
    (rq_method request = "GET" /\ rq_path request <> "/health"
     /\ rq_path request <> "/")
    \/ (rq_method request <> "GET" /\ rq_method request <> "POST")
    \/ (rq_method request = "POST"
        /\ exists m, rpc_method request = Some m /\ (m ∉ known_methods)) in
  (refused <-> exists body w', serve request w = (Ok (body, 405%Z), w'))
  /\ (refused -> serve request w = (Ok method_not_allowed, w)).
Proof.
  intros refused.
  assert (Hfwd : refused -> serve request w = (Ok method_not_allowed, w)).
  { intros [(Hm & Hh & Hr)|[(Hg & Hp)|(Hm & m & Hrpc & Hknown)]].
    - unfold icoraintent_mcp_function, catch, bind, ret. rewrite Hm.
      apply String.eqb_neq in Hh, Hr. rewrite Hh, Hr. reflexivity.
    - unfold icoraintent_mcp_function, catch, bind, ret.
      apply String.eqb_neq in Hg, Hp. rewrite Hg, Hp. reflexivity.
    - rewrite (serve_post _ _ Hm).
      unfold rpc_method in Hrpc.
      destruct (rq_json request) as [[| | | | |fields]|e] eqn:Hj; try discriminate Hrpc.
      injection Hrpc as <-. rewrite (handle_post_object _ _ _ Hj). cbn zeta.
      unfold known_methods in Hknown. rewrite !not_elem_of_cons in Hknown.
      destruct Hknown as (H1 & H2 & H3 & _).
      apply json_eq_str_false in H1, H2, H3. rewrite H1, H2, H3. reflexivity. }
  split; [split|exact Hfwd].
  - intros Href. exists (fst method_not_allowed), w. exact (Hfwd Href).
  - intros (body & w' & Hrun). unfold refused.
    destruct (String.eqb (rq_method request) "GET") eqn:Hg.
    + apply String.eqb_eq in Hg. left. split; [exact Hg|].
      unfold icoraintent_mcp_function, catch, bind, ret in Hrun. rewrite Hg in Hrun.
      cbn [String.eqb Ascii.eqb Bool.eqb] in Hrun.
      destruct (String.eqb (rq_path request) "/health") eqn:Hh; [discriminate Hrun|].
      destruct (String.eqb (rq_path request) "/") eqn:Hr; [discriminate Hrun|].
      apply String.eqb_neq in Hh, Hr. auto.
    + apply String.eqb_neq in Hg. right.
      destruct (String.eqb (rq_method request) "POST") eqn:Hp.
      * apply String.eqb_eq in Hp. right. split; [exact Hp|].
        rewrite (serve_post _ _ Hp) in Hrun. unfold rpc_method.
        pose proof (handle_post_other request w) as Hother.
        destruct (rq_json request) as [[| | | | |fields]|e] eqn:Hj;
          try (rewrite Hother in Hrun; discriminate Hrun).
        eexists. split; [reflexivity|].
        rewrite (handle_post_object _ _ _ Hj) in Hrun. cbn zeta in Hrun.
        unfold known_methods. rewrite !not_elem_of_cons.
        rewrite <- !json_eq_str_false.
        destruct (json_eq_str _ "initialize"); [discriminate Hrun|].
        destruct (json_eq_str _ "tools/list"); [discriminate Hrun|].
        destruct (json_eq_str _ "tools/call").
        -- exfalso.
           destruct (assoc "params" fields) as [[| | | | |params]|]; try discriminate Hrun.
           destruct (assoc "name" params) as [name|]; [|discriminate Hrun].
           destruct (tool_of_name name) as [t|]; [|discriminate Hrun].
           destruct (call t _ w) as [[text|e] w1]; discriminate Hrun.
        -- repeat split; auto. apply not_elem_of_nil.
      * apply String.eqb_neq in Hp. left. auto.
Qed.

(** X11: what a POST gets whose body is not a JSON-RPC request.  A body
    that cannot be parsed gets the JSON-RPC error -32603 with id 1.  A
    body that is JSON but not an object gets a plain 500
    [internal_server_error]: the [except] clause that builds the JSON-RPC
    error fails itself when it looks for the id.  A [tools/call] without
    [params] gets the JSON-RPC error -32603 with the id of the request.
    None of them runs a tool. *)
Theorem malformed_posts (request : mcp_request) (w : W) :
  rq_method request = "POST" ->
  (forall e, rq_json request = Raise e ->
     serve request w = (Ok (rpc_internal_error exn_text (JInt 1) e), w))
  /\ (forall j, rq_json request = Ok j -> (forall fields, j <> JObj fields) ->
        serve request w = (Ok (internal_server_error exn_text AttributeError), w))
  /\ (forall fields,
        rq_json request = Ok (JObj fields) ->
        assoc "method" fields = Some (JStr "tools/call") ->
        assoc "params" fields = None ->
        serve request w
        = (Ok (rpc_internal_error exn_text (default (JInt 1) (assoc "id" fields))
                 (KeyError "params")), w)).
Proof.
  intros Hm. rewrite (serve_post _ _ Hm).
  pose proof (handle_post_other request w) as Hother.
  split; [|split].
  - intros e He. rewrite He in Hother |- *. rewrite Hother. reflexivity.
  - intros j Hj Hno. rewrite Hj in Hother |- *.
    destruct j as [| | | | |fields]; try (rewrite Hother; reflexivity).
    destruct (Hno fields eq_refl).
  - intros fields Hj Hmethod Hparams.
    rewrite (handle_post_object _ _ _ Hj), Hj, Hmethod, Hparams. reflexivity.
Qed.

(** X12: the entry point never raises, and answers with one of the
    statuses 200, 404, 405 and 500.  An answer that is a JSON-RPC message
    carries the id of the request, and the id 1 when the request has none
    or could not be parsed. *)
Theorem jsonrpc_answers_echo_the_id (request : mcp_request) (w : W) :
  exists body status w',
    serve request w = (Ok (body, status), w')
    /\ status ∈ [200%Z; 404%Z; 405%Z; 500%Z]
    /\ (is_Some (assoc "jsonrpc" (json_fields body)) ->
        assoc "id" (json_fields body) = Some (expected_id request)).
Proof.
  destruct (String.eqb (rq_method request) "POST") eqn:Hp.
  - apply String.eqb_eq in Hp. rewrite (serve_post _ _ Hp).
    pose proof (handle_post_other request w) as Hother. unfold expected_id.
    destruct (rq_json request) as [[| | | | |fields]|e] eqn:Hj;
      try (rewrite Hother; eexists _, _, _; split; [reflexivity|];
           split; [in_list|]; cbn; try reflexivity; intros [? [=]]).
    rewrite (handle_post_object _ _ _ Hj). cbn zeta.
    destruct (json_eq_str _ "initialize");
      [eexists _, _, _; split; [reflexivity|]; split; [in_list|reflexivity]|].
    destruct (json_eq_str _ "tools/list");
      [eexists _, _, _; split; [reflexivity|]; split; [in_list|reflexivity]|].
    destruct (json_eq_str _ "tools/call");
      [|eexists _, _, _; split; [reflexivity|]; split; [in_list|];
        cbn; intros [? [=]]].
    destruct (assoc "params" fields) as [[| | | | |params]|];
      try (eexists _, _, _; split; [reflexivity|]; split; [in_list|reflexivity]).
    destruct (assoc "name" params) as [name|];
      [|eexists _, _, _; split; [reflexivity|]; split; [in_list|reflexivity]].
    destruct (tool_of_name name) as [t|];
      [|eexists _, _, _; split; [reflexivity|]; split; [in_list|reflexivity]].
    destruct (call t _ w) as [[text|e] w1];
      eexists _, _, _; (split; [reflexivity|]); (split; [in_list|reflexivity]).
  - unfold icoraintent_mcp_function, catch, bind, ret. rewrite Hp.
    destruct (String.eqb (rq_method request) "GET");
      [destruct (String.eqb (rq_path request) "/health");
       [|destruct (String.eqb (rq_path request) "/")]|];
      eexists _, _, _; (split; [reflexivity|]); (split; [in_list|]);
      cbn; intros [? [=]].
Qed.

End EntryPointFacts.

(** X13: what the server advertises is what it dispatches: a name is known
    to the dispatch of [tools/call] exactly when [tools/list] lists it;
    the tools listed are as many as [GET /] announces, and they are the
    ones [list_cloud_tools] describes, in the same order. *)
Theorem advertised_tools_are_dispatched :
  (forall name, is_Some (tool_of_name name) <-> name ∈ advertised_names)
  /\ (forall W base_url WIREMOCK_FUNCTION_URL utcnow_isoformat exn_text value_text
        configure_tool test_tool create_tool connectivity_tool health_tool list_tool
        (w : W),
        exists body,
          icoraintent_mcp_function W configure_tool test_tool create_tool
            connectivity_tool health_tool list_tool base_url WIREMOCK_FUNCTION_URL
            utcnow_isoformat exn_text value_text
            {| rq_method := "GET"; rq_path := "/"; rq_json := Raise JSONDecodeError |} w
          = (Ok (body, 200%Z), w)
          /\ assoc "tools_available" (json_fields body)
             = Some (JInt (Z.of_nat (length advertised_names))))
  /\ map (fun line => JStr (line_name line)) cloud_tools = advertised_names.
Proof.
  split; [|split; [|reflexivity]].
  - intros name. split.
    + intros [t Ht]. unfold tool_of_name in Ht.
      repeat match type of Ht with
             | (if json_eq_str ?v ?s then _ else _) = _ =>
                 destruct (json_eq_str v s) eqn:E;
                 [apply json_eq_str_true in E; subst name;
                  cbv [advertised_names advertised_tools map json_fields assoc default
                         String.eqb Ascii.eqb Bool.eqb];
                  in_list|clear E]
             end.
      discriminate Ht.
    + intros Hin. cbv [advertised_names advertised_tools map json_fields assoc default
                         String.eqb Ascii.eqb Bool.eqb] in Hin.
      rewrite !elem_of_cons in Hin.
      destruct Hin as [->|[->|[->|[->|[->|[->|Hin]]]]]]; try (eexists; reflexivity).
      apply elem_of_nil in Hin. destruct Hin.
  - intros. eexists. split; reflexivity.
Qed.

(** * The mock backend and its clients *)

Section MockClients.
Import Wiremock WiremockRoutes.

Variable clock : nat -> datetime.
Variable http : nat -> http_request -> http_outcome.
Variable exn_text : exn -> string.

(** The token endpoint of the entry point, on the password grant of the
    token manager. *)
Lemma mock_answers_the_grant (o : outside) host text cfg :
  mock_post o exn_text host token_path text (token_request cfg)
  = Response (http_of_reply text
                {| reply_body := generate_oauth_response (uuid4_hex o);
                   reply_status := 200;
                   reply_headers := no_store |}).
Proof. reflexivity. Qed.

(** X14: the token manager and the mock's token endpoint fit together.
    When the password grant is answered by the entry point of the mock, the
    refresh succeeds, whatever the credentials are: the manager then holds
    the token [cloud_mock_token_] followed by the first 16 characters of
    the identifier the mock drew, valid for 3600 - 30 seconds from the
    time of the refresh. *)
Theorem refresh_against_the_mock (o : outside) host text self s :
  http (length (io_log s)) (token_request (auth_config self))
  = mock_post o exn_text host token_path text (token_request (auth_config self)) ->
  (0 <= clock (io_reads s) + seconds 3570 < datetime_range)%Z ->
  _refresh_access_token clock http exn_text (self, s)
  = (Ok tt,
     ({| auth_config := auth_config self;
         token := JStr ("cloud_mock_token_" +:+ utf8_take 16 (uuid4_hex o 0));
         token_expiry := Some (clock (io_reads s) + seconds 3570)%Z |},
      {| io_reads := S (io_reads s);
         io_log := io_log s ++ [token_request (auth_config self)] |})).
Proof.
  intros Hhttp Hrange. rewrite mock_answers_the_grant in Hhttp.
  eapply (refresh_succeeds clock http exn_text self s _ _ _ 3600 Hhttp).
  - cbn. lia.
  - reflexivity.
  - reflexivity.
  - reflexivity.
  - change ((3600 - 30) / 86400)%Z with 0%Z. lia.
  - exact Hrange.
Qed.

Variable http_get : nat -> string -> http_outcome.

(** X15: the connectivity check and the mock fit together.  When the two
    probes are answered by the entry point of the mock, the check reports
    full access and the two mappings that entry point lists. *)
Theorem connectivity_against_the_mock (o1 o2 : outside) host text1 text2
    (WIREMOCK_FUNCTION_URL base_url : string) (fetched : list string) :
  let url := str_or base_url WIREMOCK_FUNCTION_URL in
  http_get (length fetched) (url +:+ "/health")
  = mock_get o1 exn_text host "/health" text1 ->
  http_get (S (length fetched)) (url +:+ "/__admin/mappings")
  = mock_get o2 exn_text host "/__admin/mappings" text2 ->
  check_cloud_connectivity http_get exn_text WIREMOCK_FUNCTION_URL base_url fetched
  = (Ok (check_mark
         +:+ " Cloud WireMock function fully accessible! 2 mappings loaded at "
         +:+ url),
     fetched ++ [url +:+ "/health"; url +:+ "/__admin/mappings"]).
Proof.
  intros url Hhealth Hadmin.
  unfold check_cloud_connectivity, catch, bind, get.
  fold (str_or base_url WIREMOCK_FUNCTION_URL). fold url.
  rewrite Hhealth. cbn [mock_get icoraintent_wiremock_function].
  change (mock_get o1 exn_text host "/health" text1)
    with (Response (http_of_reply text1
                      (plain (JObj [ ("status", JStr "healthy");
                                     ("service", JStr "icoraintent-wiremock-fastapi");
                                     ("timestamp", JStr (utcnow_isoformat o1));
                                     ("version", JStr "1.0.0");
                                     ("framework", JStr "FastAPI") ]) 200))).
  cbn [http_of_reply plain status_code reply_status Z.eqb Pos.eqb].
  rewrite length_app. cbn [length]. rewrite Nat.add_1_r, Hadmin.
  change (mock_get o2 exn_text host "/__admin/mappings" text2)
    with (Response (http_of_reply text2 (plain admin_mappings_of_function 200))).
  rewrite <- app_assoc. reflexivity.
Qed.

End MockClients.

Section EntryPointOfTheMock.
Import Wiremock WiremockRoutes.

Variable exn_text : exn -> string.

Local Abbreviation serve := (fun o => icoraintent_wiremock_function o exn_text).

(** X16: the entry point of the Cloud Function hands out locations it
    does not serve.  A POST to [/intent/] with a bearer token whose body
    is accepted is answered 201 with the [Location]
    [https://host/intent/id]; a GET for the path [/intent/id] is answered
    404 "Endpoint not found", whatever the id is. *)
Theorem created_intents_are_not_served
    (o o' : outside) (request request' : function_request) t data id :
  fr_decodes request = true ->
  fr_method request = "POST" ->
  fr_path request = "/intent/" ->
  header_lookup (fr_headers request) "Authorization" = Some ("Bearer " +:+ t) ->
  created o = inr (data, id) ->
  fr_decodes request' = true ->
  fr_method request' = "GET" ->
  fr_path request' = "/intent/" +:+ id ->
  serve o request
  = Ok {| reply_body := data; reply_status := 201;
          reply_headers :=
            [ ("Location", "https://" +:+ fr_host request +:+ "/intent/" +:+ id) ] |}
  /\ serve o' request'
     = Ok (plain (JObj [ ("error", JStr "not_found");
                         ("error_description",
                          JStr ("Endpoint not found: GET /intent/" +:+ id)) ])
             404).
Proof.
  intros Hd Hm Hp Hauth Hcreated Hd' Hm' Hp'. split.
  - unfold icoraintent_wiremock_function, catch, bind, ret.
    rewrite Hd, Hm, Hp, Hauth, Hcreated. cbn [String.eqb Ascii.eqb Bool.eqb andb fst].
    unfold create_intent_branch.
    replace (bearer_missing (Some ("Bearer " +:+ t))) with false; [reflexivity|].
    unfold bearer_missing, startswith. rewrite prefix_append. reflexivity.
  - unfold icoraintent_wiremock_function, catch, bind, ret.
    let s := eval cbv [String.append] in ("/intent/" +:+ id) in
    change (fr_path request' = s) in Hp'.
    rewrite Hd', Hm', Hp'. cbn [String.eqb Ascii.eqb Bool.eqb].
    destruct (String.eqb id ""); reflexivity.
Qed.

(** X18: which requests the entry point turns away, and why.  It always
    answers.  The answer is 401 exactly for a POST to [/intent/] without a
    bearer token, and 404 exactly for a path it does not know, or for one
    of the two POST-only paths with another method; the other five paths
    are answered whatever the method is.  A 500 means that the request
    could not be decoded or that the handler of [/] raised. *)
Theorem entry_point_statuses (o : outside) (request : function_request) :
  exists r,
    serve o request = Ok r
    /\ (reply_status r = 401%Z
        <-> fr_decodes request = true /\ fr_path request = "/intent/"
            /\ fr_method request = "POST"
            /\ bearer_missing (header_lookup (fr_headers request) "Authorization") = true)
    /\ (reply_status r = 404%Z
        <-> fr_decodes request = true /\ (fr_path request ∉ open_paths)
            /\ ((fr_path request ∉ post_paths) \/ fr_method request <> "POST"))
    /\ (reply_status r = 500%Z
        <-> fr_decodes request = false
            \/ (fr_path request = "/" /\ exists e, root_endpoint o = Raise e)).
Proof.
  unfold icoraintent_wiremock_function, catch, bind, ret, lift_result, raise.
  unfold open_paths, post_paths, token_path.
  destruct (fr_decodes request) eqn:Hd.
  2:{ eexists. split; [reflexivity|]. cbn [plain reply_status].
      repeat split; try discriminate; try (intros (H & _); discriminate H); auto. }
  cbn [fst].
  destruct (String.eqb (fr_path request) "/") eqn:H0.
  { apply String.eqb_eq in H0. rewrite H0.
    destruct (root_endpoint o) as [body|e]; (eexists; split; [reflexivity|]);
      cbn [plain reply_status fst].
    - repeat split; try discriminate.
      + intros (_ & H & _). discriminate H.
      + intros (_ & H & _). exfalso. apply H. in_list.
      + intros [H|(_ & e & H)]; discriminate H.
    - repeat split; try discriminate; eauto.
      + intros (_ & H & _). discriminate H.
      + intros (_ & H & _). exfalso. apply H. in_list. }
  destruct (String.eqb (fr_path request) "/test") eqn:H1.
  { apply String.eqb_eq in H1. rewrite H1. eexists. split; [reflexivity|].
    cbn [plain reply_status]. repeat split; try discriminate.
    - intros (_ & H & _). discriminate H.
    - intros (_ & H & _). exfalso. apply H. in_list.
    - intros [H|(H & _)]; discriminate H. }
  destruct (String.eqb (fr_path request) "/health") eqn:H2.
  { apply String.eqb_eq in H2. rewrite H2. eexists. split; [reflexivity|].
    cbn [plain reply_status]. repeat split; try discriminate.
    - intros (_ & H & _). discriminate H.
    - intros (_ & H & _). exfalso. apply H. in_list.
    - intros [H|(H & _)]; discriminate H. }
  destruct (String.eqb (fr_path request) "/__admin/mappings") eqn:H3.
  { apply String.eqb_eq in H3. rewrite H3. eexists. split; [reflexivity|].
    cbn [plain reply_status]. repeat split; try discriminate.
    - intros (_ & H & _). discriminate H.
    - intros (_ & H & _). exfalso. apply H. in_list.
    - intros [H|(H & _)]; discriminate H. }
  apply String.eqb_neq in H0, H1, H2, H3.
  destruct (String.eqb (fr_path request) "/auth/keycloak_realm/protocol/openid-connect/token")
    eqn:H4.
  { apply String.eqb_eq in H4.
    destruct (String.eqb (fr_method request) "POST") eqn:Hm; cbn [andb].
    - apply String.eqb_eq in Hm.
      destruct (negb _); (eexists; split; [reflexivity|]);
        cbn [plain reply_status]; rewrite H4;
        (repeat split; try discriminate;
         [ intros (_ & H & _); discriminate H
         | intros (_ & _ & [H|H]); [exfalso; apply H; in_list|contradiction]
         | intros [H|(H & _)]; discriminate H ]).
    - apply String.eqb_neq in Hm. rewrite H4.
      cbn [String.eqb Ascii.eqb Bool.eqb andb].
      eexists. split; [reflexivity|]. cbn [plain reply_status].
      repeat split; try discriminate; auto.
      + intros (_ & H & _). discriminate H.
      + rewrite !not_elem_of_cons. repeat split; try discriminate.
        apply not_elem_of_nil.
      + intros [H|(H & _)]; discriminate H. }
  apply String.eqb_neq in H4.
  destruct (String.eqb (fr_path request) "/intent/") eqn:H5.
  { apply String.eqb_eq in H5.
    destruct (String.eqb (fr_method request) "POST") eqn:Hm; cbn [andb].
    - apply String.eqb_eq in Hm. eexists. split; [reflexivity|].
      unfold create_intent_branch.
      destruct (bearer_missing _) eqn:Hb; cbn [reply_status].
      + repeat split; try discriminate; auto.
        * intros (_ & _ & [H|H]); [exfalso; apply H; rewrite H5; in_list|contradiction].
        * intros [H|(H & _)]; [discriminate H|congruence].
      + destruct (created o) as [description|[response_data id]]; cbn [reply_status];
          (repeat split; try discriminate;
           [ intros (_ & _ & _ & H); discriminate H
           | intros (_ & _ & [H|H]); [exfalso; apply H; rewrite H5; in_list|contradiction]
           | intros [H|(H & _)]; [discriminate H|congruence] ]).
    - apply String.eqb_neq in Hm. rewrite H5.
      cbn [String.eqb Ascii.eqb Bool.eqb andb].
      eexists. split; [reflexivity|]. cbn [plain reply_status].
      repeat split; try discriminate; auto.
      + intros (_ & _ & H & _). contradiction.
      + rewrite !not_elem_of_cons. repeat split; try discriminate.
        apply not_elem_of_nil.
      + intros [H|(H & _)]; discriminate H. }
  apply String.eqb_neq in H5.
  destruct (String.eqb (fr_path request) "/docs") eqn:H6.
  { apply String.eqb_eq in H6. rewrite H6. eexists. split; [reflexivity|].
    cbn [plain reply_status]. repeat split; try discriminate.
    - intros (_ & H & _). discriminate H.
    - intros (_ & H & _). exfalso. apply H. in_list.
    - intros [H|(H & _)]; discriminate H. }
  apply String.eqb_neq in H6.
  eexists. split; [reflexivity|]. cbn [plain reply_status].
  repeat split; try discriminate; auto.
  - intros (_ & H & _). contradiction.
  - rewrite !not_elem_of_cons. repeat split; auto. apply not_elem_of_nil.
  - left. rewrite !not_elem_of_cons. repeat split; auto. apply not_elem_of_nil.
  - intros [H|(H & _)]; [discriminate H|contradiction].
Qed.

End EntryPointOfTheMock.

(** * The ids of the mock's intents *)

Section IntentIds.
Import Wiremock WiremockRoutes.

Lemma lower_hex_is_ascii c : is_lower_hex c = true -> is_continuation c = false.
Proof.
  unfold is_lower_hex, is_continuation.
  set (n := nat_of_ascii c).
  destruct (Nat.leb 128 n) eqn:H128; [|reflexivity].
  apply Nat.leb_le in H128.
  rewrite orb_true_iff, !andb_true_iff, !Nat.leb_le. lia.
Qed.

(** On a string of hexadecimal digits, the first [n] characters are the
    first [n] bytes. *)
Lemma utf8_take_hex n : forall s,
  forallb is_lower_hex (list_ascii_of_string s) = true ->
  list_ascii_of_string (utf8_take n s) = take n (list_ascii_of_string s).
Proof.
  induction n as [|n IH]; intros [|c s]; cbn; try reflexivity;
    rewrite andb_true_iff; intros [Hc Hs]; rewrite (lower_hex_is_ascii _ Hc).
  - reflexivity.
  - cbn. f_equal. apply IH, Hs.
Qed.

Lemma list_ascii_app (s t : string) :
  list_ascii_of_string (s +:+ t) = list_ascii_of_string s ++ list_ascii_of_string t.
Proof.
  induction s as [|c s IH]; [reflexivity|].
  change (String c s +:+ t) with (String c (s +:+ t)). cbn. f_equal. exact IH.
Qed.

Lemma list_ascii_length (s : string) :
  length (list_ascii_of_string s) = String.length s.
Proof. induction s as [|c s IH]; cbn; [reflexivity|]. f_equal. exact IH. Qed.

Lemma forallb_take {A} (f : A -> bool) n (l : list A) :
  forallb f l = true -> forallb f (take n l) = true.
Proof.
  revert n. induction l as [|x l IH]; intros [|n]; cbn; try reflexivity.
  rewrite !andb_true_iff. intros [Hx Hl]. auto.
Qed.

(** X17: an intent the mock creates can be looked up with the FastAPI
    application, and no other id can.  For every identifier [uuid4] can
    draw, the id [generate_intent_response] makes from it has the form
    [get_intent] asks for, so the route answers 200 with the mock intent
    of that id and the link [https://cloud-function-url/intent/id].  For
    an id of any other form [get_intent] raises the 404 that names the
    id, but the client never sees that message: the handler the
    application registers for 404 answers in its place, with "The
    requested resource was not found" and the path of the request. *)
Theorem new_intent_ids_are_found (stamp path hex : string) :
  is_uuid_hex hex = true ->
  (exists body,
     get_intent_route stamp path (new_intent_id hex) = plain body 200
     /\ assoc "id" (json_fields body) = Some (JStr (new_intent_id hex))
     /\ assoc "_links" (json_fields body)
        = Some (JObj [ ("self",
                        JObj [ ("href",
                                JStr ("https://cloud-function-url/intent/"
                                      +:+ new_intent_id hex)) ]) ]))
  /\ forall other,
       matches_intent_id other = false ->
       get_intent stamp other
       = inl {| exc_status := 404;
                exc_detail :=
                  JObj [ ("error", JStr "not_found");
                         ("error_description",
                          JStr ("Intent " +:+ other +:+ " not found")) ] |}
       /\ get_intent_route stamp path other
          = plain (JObj [ ("error", JStr "not_found");
                          ("error_description",
                           JStr "The requested resource was not found");
                          ("path", JStr path) ])
              404.
Proof.
  unfold is_uuid_hex. rewrite andb_true_iff, Nat.leb_le. intros [Hhex Hlen].
  assert (Hmatch : matches_intent_id (new_intent_id hex) = true).
  { unfold matches_intent_id, new_intent_id.
    rewrite list_ascii_app, (utf8_take_hex _ _ Hhex).
    change (list_ascii_of_string "intent-")
      with ["i"; "n"; "t"; "e"; "n"; "t"; "-"]%char.
    cbn [app firstn skipn].
    assert (Hten : length (take 10 (list_ascii_of_string hex)) = 10).
    { rewrite length_take, list_ascii_length. lia. }
    rewrite take_0, drop_0, !take_take. cbn [Nat.min].
    rewrite Hten, (forallb_take _ _ _ Hhex).
    rewrite bool_decide_true by reflexivity.
    replace (drop 10 (take 10 (list_ascii_of_string hex))) with (@nil ascii)
      by (symmetry; apply drop_ge; lia).
    reflexivity. }
  split.
  - unfold get_intent_route, get_intent. rewrite Hmatch. eexists.
    split; [reflexivity|]. split; reflexivity.
  - intros other Hother. unfold get_intent_route, get_intent. rewrite Hother.
    split; reflexivity.
Qed.

End IntentIds.

(** * The agent and the entry point of the MCP server *)

Section AgentAndEntryPoint.

Variable W : Type.
Variable configure_tool : json -> ST W string.
Variable test_tool : ST W string.
Variable create_tool : json -> ST W string.
Variable connectivity_tool : ST W string.
Variable health_tool : ST W string.
Variable list_tool : ST W string.
Variable base_url : W -> json.
Variable WIREMOCK_FUNCTION_URL : string.
Variable utcnow_isoformat : W -> string.
Variable exn_text : exn -> string.
Variable value_text : json -> string.
Variable dumps : json -> string.
Variable day_bounds : ST W (string * string).
Variable MCP_FUNCTION_URL : string.
Variable AGENT_WIREMOCK_FUNCTION_URL : string.

Local Abbreviation serve :=
  (icoraintent_mcp_function W configure_tool test_tool create_tool connectivity_tool
     health_tool list_tool base_url WIREMOCK_FUNCTION_URL utcnow_isoformat exn_text
     value_text).
Local Abbreviation call :=
  (call_tool W configure_tool test_tool create_tool connectivity_tool health_tool
     list_tool).
Local Abbreviation agent_call :=
  (call_mcp_tool W (entry_point_post serve dumps) exn_text value_text).
Local Abbreviation agent_create :=
  (create_network_intent W (entry_point_post serve dumps) day_bounds exn_text value_text).

(** What the entry point answers to the request [call_mcp_tool] posts. *)
Lemma serve_tools_call tool_name arguments (w : W) :
  serve (post_request (tools_call (JInt 1) (JStr tool_name) arguments)) w
  = match tool_of_name (JStr tool_name) with
    | Some t =>
        match call t arguments w with
        | (Ok text, w') => (Ok (rpc_result (JInt 1) text), w')
        | (Raise e, w') => (Ok (rpc_internal_error exn_text (JInt 1) e), w')
        end
    | None => (Ok (rpc_tool_not_found value_text (JInt 1) (JStr tool_name)), w)
    end.
Proof.
  rewrite serve_post by reflexivity.
  erewrite handle_post_object by reflexivity.
  cbn [assoc String.eqb Ascii.eqb Bool.eqb default from_option id json_eq_str
         post_request tools_call rq_json].
  destruct (tool_of_name (JStr tool_name)) as [t|]; [|reflexivity].
  destruct (call t arguments w) as [[text|e] w']; reflexivity.
Qed.

(** What [call_mcp_tool] returns when it talks to the entry point. *)
Lemma agent_call_run (tool_name : string) (arguments : json) (w : W) :
  agent_call tool_name arguments w
  = match tool_of_name (JStr tool_name) with
    | Some t =>
        match call t arguments w with
        | (Ok text, w') => (Ok (tool_succeeded (JStr text)), w')
        | (Raise e, w') =>
            (Ok (http_error 500 (dumps (fst (rpc_internal_error exn_text (JInt 1) e)))),
             w')
        end
    | None =>
        (Ok (http_error 404
               (dumps (fst (rpc_tool_not_found value_text (JInt 1) (JStr tool_name))))),
         w)
    end.
Proof.
  unfold call_mcp_tool, catch, bind at 1, entry_point_post.
  fold (tools_call (JInt 1) (JStr tool_name) arguments).
  fold (post_request (tools_call (JInt 1) (JStr tool_name) arguments)).
  rewrite serve_tools_call.
  destruct (tool_of_name (JStr tool_name)) as [t|]; [|reflexivity].
  destruct (call t arguments w) as [[text|e] w']; reflexivity.
Qed.

(** X19: the agent cannot tell a tool that failed from one that worked.
    When [call_mcp_tool] talks to the entry point of the MCP server, a
    call of one of the six tools that returns is reported as a success
    with the tool's text, whatever the text says; a tool that raises is
    reported as [HTTP 500] and an unknown tool as [HTTP 404], each with
    the first 200 characters of the body.  No answer is an [MCP Error]:
    that branch of [call_mcp_tool] is never taken with this server. *)
Theorem agent_call_reports (tool_name : string) (arguments : json) (w : W) :
  exists answer w',
    agent_call tool_name arguments w = (Ok answer, w')
    /\ match tool_of_name (JStr tool_name) with
       | Some t =>
           match call t arguments w with
           | (Ok text, w1) => answer = tool_succeeded (JStr text) /\ w' = w1
           | (Raise e, w1) =>
               answer
               = http_error 500 (dumps (fst (rpc_internal_error exn_text (JInt 1) e)))
               /\ w' = w1
           end
       | None =>
           answer
           = http_error 404
               (dumps (fst (rpc_tool_not_found value_text (JInt 1) (JStr tool_name))))
           /\ w' = w
       end
    /\ forall msg, error_message_of answer = Some msg ->
                   String.prefix "MCP Error" msg = false.
Proof.
  rewrite agent_call_run.
  destruct (tool_of_name (JStr tool_name)) as [t|].
  - destruct (call t arguments w) as [[text|e] w1]; eexists _, _;
      (split; [reflexivity|]); (split; [auto|]).
    + intros msg [=].
    + intros msg [= <-]. reflexivity.
  - eexists _, _. split; [reflexivity|]. split; [auto|].
    intros msg [= <-]. reflexivity.
Qed.

(** What [create_network_intent] returns when it talks to the entry
    point. *)
Lemma agent_create_run
    (name description intent_type start_time end_time max_participants quality
       longitude latitude : json) (w : W) bounds w0 :
  day_bounds w = (Ok bounds, w0) ->
  agent_create name description intent_type start_time end_time max_participants
    quality longitude latitude w
  = match create_tool (intent_arguments name description intent_type bounds) w0 with
    | (Ok text, w') =>
        (Ok (intent_created_answer value_text name description intent_type
               max_participants quality longitude latitude bounds
               (tool_succeeded (JStr text))), w')
    | (Raise e, w') =>
        (Ok (intent_not_created_answer value_text
               (http_error 500
                  (dumps (fst (rpc_internal_error exn_text (JInt 1) e))))), w')
    end.
Proof.
  intros Hbounds.
  unfold create_network_intent. unfold bind at 1. rewrite Hbounds.
  fold (intent_arguments name description intent_type bounds).
  unfold bind at 1. rewrite agent_call_run.
  cbn [tool_of_name json_eq_str String.eqb Ascii.eqb Bool.eqb call_tool].
  destruct (create_tool (intent_arguments name description intent_type bounds) w0)
    as [[text|e] w']; reflexivity.
Qed.

(** X20: [create_network_intent] reports what the HTTP status says, not
    what the tool says.  The create tool is handed the name, the
    description, the intent type and the bounds of the current day, and
    nothing else of what the caller gave; when it returns, with whatever
    text, the agent answers [success] and gives the caller's own [name] as
    the [intent_id]; only a tool that raises makes the agent answer
    [error]. *)
Theorem agent_reports_created
    (name description intent_type start_time end_time max_participants quality
       longitude latitude : json) (w : W) bounds w0 :
  day_bounds w = (Ok bounds, w0) ->
  exists answer w1,
    agent_create name description intent_type start_time end_time
      max_participants quality longitude latitude w = (Ok answer, w1)
    /\ match create_tool (intent_arguments name description intent_type bounds) w0 with
       | (Ok text, w') =>
           w1 = w'
           /\ assoc "status" (json_fields answer) = Some (JStr "success")
           /\ assoc "intent_id" (json_fields answer) = Some name
           /\ assoc "mcp_result" (json_fields answer)
              = Some (tool_succeeded (JStr text))
       | (Raise e, w') =>
           w1 = w'
           /\ assoc "status" (json_fields answer) = Some (JStr "error")
       end.
Proof.
  intros Hbounds. rewrite (agent_create_run _ _ _ _ _ _ _ _ _ _ _ _ Hbounds).
  destruct (create_tool (intent_arguments name description intent_type bounds) w0)
    as [[text|e] w']; eexists _, _; (split; [reflexivity|]); repeat split.
Qed.

Variable mcp_get : string -> ST W http_response.

Local Abbreviation workflow :=
  (test_mcp_workflow W (entry_point_post serve dumps) mcp_get day_bounds
     MCP_FUNCTION_URL AGENT_WIREMOCK_FUNCTION_URL exn_text value_text).

(** What the entry point answers to [GET /health]. *)
Lemma serve_health (w : W) :
  exists body,
    serve {| rq_method := "GET"; rq_path := "/health";
             rq_json := Raise JSONDecodeError |} w
    = (Ok (body, 200%Z), w).
Proof. eexists. reflexivity. Qed.

(** X21: the workflow test of the agent passes on any text.  When the
    health probe reaches the entry point of the MCP server and the
    configure tool and the create tool both return, the test answers
    "Complete MCP workflow test passed" with the id [TestIntent],
    whatever the two texts say: it also passes when the create tool
    reports that it could not create the intent. *)
Theorem workflow_test_passes_on_any_text (w : W) text1 w1 bounds w2 text2 w3 :
  mcp_get (MCP_FUNCTION_URL +:+ "/health") w
  = entry_point_get serve dumps "/health" w ->
  configure_tool (auth_arguments AGENT_WIREMOCK_FUNCTION_URL) w = (Ok text1, w1) ->
  day_bounds w1 = (Ok bounds, w2) ->
  create_tool (intent_arguments (JStr "TestIntent") (JStr "Test workflow intent")
                 (JStr "EventLiveBroadcast") bounds) w2
  = (Ok text2, w3) ->
  workflow w = (Ok workflow_passed, w3).
Proof.
  intros Hget Hconfigure Hbounds Hcreate.
  unfold test_mcp_workflow, catch. unfold bind at 1.
  unfold check_mcp_status, catch. unfold bind at 1. rewrite Hget.
  unfold entry_point_get. destruct (serve_health w) as [body ->].
  cbn [http_of_answer snd status_code Z.eqb Pos.eqb ret].
  unfold bind at 1. unfold step_failed at 1. unfold bind at 1, lift_result at 1.
  cbn [json_getitem assoc String.eqb Ascii.eqb Bool.eqb json_eq_str negb ret].
  unfold bind at 1. unfold configure_mcp_auth.
  fold (auth_arguments AGENT_WIREMOCK_FUNCTION_URL).
  rewrite agent_call_run.
  cbn [tool_of_name json_eq_str String.eqb Ascii.eqb Bool.eqb call_tool].
  rewrite Hconfigure.
  unfold bind at 1. unfold step_failed at 1. unfold bind at 1, lift_result at 1.
  cbn [tool_succeeded json_getitem assoc String.eqb Ascii.eqb Bool.eqb json_eq_str
         negb ret].
  unfold bind at 1.
  rewrite (agent_create_run _ _ _ _ _ _ _ _ _ _ _ _ Hbounds), Hcreate.
  reflexivity.
Qed.

End AgentAndEntryPoint.

(** * The create tool behind the entry point *)

(** Building the objects of a JSON value never fails. *)
Lemma for_each_ok {A B} (f : A -> Store.M B) (xs : list A) :
  Forall (fun x => forall h, exists y h', f x h = (Ok y, h')) xs ->
  forall h, exists ys h', Store.for_each f xs h = (Ok ys, h').
Proof.
  induction 1 as [|x xs Hx _ IH]; intros h; cbn.
  - eexists _, _. reflexivity.
  - unfold bind. destruct (Hx h) as (y & h1 & ->).
    destruct (IH h1) as (ys & h2 & ->). eexists _, _. reflexivity.
Qed.

Lemma alloc_json_ok : forall (j : json) (h : heap),
  exists v h', Store.alloc_json j h = (Ok v, h').
Proof.
  fix IH 1. intros [| b | z | s | items | fields] h;
    try (eexists _, _; reflexivity).
  - change (Store.alloc_json (JArr items))
      with (bind (Store.for_each Store.alloc_json items) Store.new_list).
    unfold bind.
    destruct (for_each_ok Store.alloc_json items) with (h := h) as (vs & h1 & ->).
    { induction items as [|x xs IHxs]; constructor; [apply IH|exact IHxs]. }
    eexists _, _. reflexivity.
  - change (Store.alloc_json (JObj fields))
      with (bind (Store.for_each
                    (fun kv => bind (Store.alloc_json (snd kv))
                                    (fun v => ret (fst kv, v))) fields)
                 Store.new_dict).
    unfold bind at 1.
    destruct (for_each_ok
                (fun kv => bind (Store.alloc_json (snd kv)) (fun v => ret (fst kv, v)))
                fields) with (h := h) as (vs & h1 & ->).
    { induction fields as [|[k x] xs IHxs]; constructor; [|exact IHxs].
      intros h0. unfold bind. cbn [fst snd].
      destruct (IH x h0) as (v & h1 & ->). eexists _, _. reflexivity. }
    eexists _, _. reflexivity.
Qed.

Section CreateTool.

Variable clock : nat -> datetime.
Variable http : nat -> http_request -> http_outcome.
Variable exn_text : exn -> string.
Variable value_text : json -> string.
Variable json_dumps_indent2 : json -> string.

Local Abbreviation create_call :=
  (create_from_arguments clock http exn_text value_text json_dumps_indent2).

(** A keyword argument only adds objects to the store. *)
Lemma keyword_ok fields k dflt (w : world) :
  exists v h,
    keyword fields k dflt w
    = (Ok v, {| w_heap := h; w_io := w_io w;
                w_token_manager := w_token_manager w;
                w_base_url := w_base_url w |}).
Proof.
  unfold keyword. destruct (assoc k fields) as [j|].
  - unfold lift_heap. destruct (alloc_json_ok j (w_heap w)) as (v & h & ->).
    eexists _, _. reflexivity.
  - exists dflt, (w_heap w). unfold ret. rewrite world_eta. reflexivity.
Qed.

(** The tool itself never raises. *)
Lemma create_never_raises name description intentType de sa vf pe (w : world) :
  exists text w',
    icoraintent_create_cloud_intent clock http exn_text value_text json_dumps_indent2
      name description intentType de sa vf pe w = (Ok text, w').
Proof.
  unfold icoraintent_create_cloud_intent, catch.
  match goal with
  | |- context [match ?m w with _ => _ end] => destruct (m w) as [[text|e] w']
  end; eexists _, _; reflexivity.
Qed.

Variable configure_tool : json -> ST world string.
Variable test_tool : ST world string.
Variable connectivity_tool : ST world string.
Variable health_tool : ST world string.
Variable list_tool : ST world string.
Variable base_url : world -> json.
Variable WIREMOCK_FUNCTION_URL : string.
Variable utcnow_isoformat : world -> string.

Local Abbreviation server :=
  (icoraintent_mcp_function world configure_tool test_tool create_call
     connectivity_tool health_tool list_tool base_url WIREMOCK_FUNCTION_URL
     utcnow_isoformat exn_text value_text).

Lemma forallb_decide {A} (P : A -> Prop) `{!forall x, Decision (P x)} (l : list A) :
  forallb (fun x => bool_decide (P x)) l = true <-> Forall P l.
Proof.
  induction l as [|x l IH]; cbn.
  - split; [constructor|reflexivity].
  - rewrite andb_true_iff, bool_decide_eq_true, IH, Forall_cons. reflexivity.
Qed.

(** The call of the tool with keyword arguments: when the arguments bind,
    the tool runs on the module as it is, with some more objects in the
    store; when they do not, the call raises before the tool runs. *)
Lemma create_call_run (arguments : json) (w : world) :
  (exists given,
     arguments = JObj given
     /\ Forall (fun kv => fst kv ∈ create_parameters) given
     /\ is_Some (assoc "name" given) /\ is_Some (assoc "description" given))
  /\ (exists name description intentType de sa vf pe h,
        create_call arguments w
        = icoraintent_create_cloud_intent clock http exn_text value_text
            json_dumps_indent2 name description intentType de sa vf pe
            {| w_heap := h; w_io := w_io w;
               w_token_manager := w_token_manager w;
               w_base_url := w_base_url w |})
  \/ ~ (exists given,
          arguments = JObj given
          /\ Forall (fun kv => fst kv ∈ create_parameters) given
          /\ is_Some (assoc "name" given) /\ is_Some (assoc "description" given))
     /\ create_call arguments w = (Raise TypeError, w).
Proof.
  destruct arguments as [| | | | |given];
    try (right; split; [intros (given & [=] & _)|reflexivity]).
  unfold create_from_arguments.
  pose proof (forallb_decide (fun kv : string * json => fst kv ∈ create_parameters)
                given) as Hiff.
  cbv beta in Hiff.
  destruct (forallb _ given) eqn:Hkeys.
  2:{ right. split; [|reflexivity]. intros (g & [= <-] & Hall & _).
      apply Hiff in Hall. discriminate Hall. }
  pose proof (proj1 Hiff eq_refl) as Hall. clear Hiff.
  destruct (bool_decide (is_Some (assoc "name" given))) eqn:Hname.
  2:{ right. split; [|reflexivity]. intros (g & [= <-] & _ & Hn & _).
      apply bool_decide_eq_false in Hname. contradiction. }
  destruct (bool_decide (is_Some (assoc "description" given))) eqn:Hdescription.
  2:{ right. split; [|reflexivity]. intros (g & [= <-] & _ & _ & Hd).
      apply bool_decide_eq_false in Hdescription. contradiction. }
  apply bool_decide_eq_true in Hname, Hdescription.
  left. split; [eauto|]. cbn [andb].
  destruct (keyword_ok given "name" VNone w) as (v1 & h1 & H1).
  unfold bind at 1. rewrite H1.
  set (w1 := {| w_heap := h1 |}).
  destruct (keyword_ok given "description" VNone w1) as (v2 & h2 & H2).
  unfold bind at 1. rewrite H2. cbn [w_heap w_io w_token_manager w_base_url w1].
  clear H1 H2 w1.
  match goal with |- context [bind _ _ ?w0] => set (w2 := w0) end.
  destruct (keyword_ok given "intentType" (VStr "EventLiveBroadcast") w2)
    as (v3 & h3 & H3).
  unfold bind at 1. rewrite H3. cbn [w_heap w_io w_token_manager w_base_url w2].
  clear H3 w2.
  match goal with |- context [bind _ _ ?w0] => set (w3 := w0) end.
  destruct (keyword_ok given "deliveryExpectations" VNone w3) as (v4 & h4 & H4).
  unfold bind at 1. rewrite H4. cbn [w_heap w_io w_token_manager w_base_url w3].
  clear H4 w3.
  match goal with |- context [bind _ _ ?w0] => set (w4 := w0) end.
  destruct (keyword_ok given "serviceArea" VNone w4) as (v5 & h5 & H5).
  unfold bind at 1. rewrite H5. cbn [w_heap w_io w_token_manager w_base_url w4].
  clear H5 w4.
  match goal with |- context [bind _ _ ?w0] => set (w5 := w0) end.
  destruct (keyword_ok given "validFor" VNone w5) as (v6 & h6 & H6).
  unfold bind at 1. rewrite H6. cbn [w_heap w_io w_token_manager w_base_url w5].
  clear H6 w5.
  match goal with |- context [bind _ _ ?w0] => set (w6 := w0) end.
  destruct (keyword_ok given "propertyExpectations" VNone w6) as (v7 & h7 & H7).
  unfold bind at 1. rewrite H7. cbn [w_heap w_io w_token_manager w_base_url w6].
  eexists _, _, _, _, _, _, _, _. reflexivity.
Qed.

(** X22: the create tool behind the entry point.  A [tools/call] of
    [icoraintent_create_cloud_intent] runs the tool, and is answered 200
    with its text, exactly when [arguments] is an object that names only
    parameters of the tool and has a [name] and a [description]; on a
    module that is not configured the text is the "not configured" answer
    and nothing is sent.  Any other [arguments] makes the call itself
    fail: the answer is the JSON-RPC error -32603 with status 500, and the
    module is left as it was. *)
Theorem create_call_needs_its_arguments
    (request : mcp_request) fields params arguments (w : world) :
  rq_method request = "POST" ->
  rq_json request = Ok (JObj fields) ->
  assoc "method" fields = Some (JStr "tools/call") ->
  assoc "params" fields = Some (JObj params) ->
  assoc "name" params = Some (JStr "icoraintent_create_cloud_intent") ->
  assoc "arguments" params = Some arguments ->
  let id := default (JInt 1) (assoc "id" fields) in
  let binds :=
    exists given,
      arguments = JObj given
      /\ Forall (fun kv => fst kv ∈ create_parameters) given
      /\ is_Some (assoc "name" given) /\ is_Some (assoc "description" given) in
  (binds ->
   exists text w',
     server request w = (Ok (rpc_result id text), w')
     /\ (w_token_manager w = None ->
         text = not_configured_text /\ w_io w' = w_io w
         /\ w_token_manager w' = None /\ w_base_url w' = w_base_url w))
  /\ (~ binds ->
      server request w = (Ok (rpc_internal_error exn_text id TypeError), w)).
Proof.
  intros Hm Hj Hmethod Hparams Hname Harguments id binds.
  rewrite (serve_post _ _ _ _ _ _ _ _ _ _ _ _ _ _ Hm),
    (handle_post_object _ _ _ _ _ _ _ _ _ _ _ Hj), Hj.
  rewrite Hmethod, Hparams, Hname, Harguments.
  cbn [default from_option Datatypes.id json_eq_str String.eqb Ascii.eqb Bool.eqb
         tool_of_name call_tool].
  fold id.
  destruct (create_call_run arguments w)
    as [(Hbinds & name & description & intentType & de & sa & vf & pe & h & Hrun)
       |(Hnot & Hrun)]; rewrite Hrun.
  - split; [|intros Hnot; destruct (Hnot Hbinds)]. intros _.
    destruct (create_never_raises name description intentType de sa vf pe
                {| w_heap := h; w_io := w_io w;
                   w_token_manager := w_token_manager w;
                   w_base_url := w_base_url w |}) as (text & w' & Hcreate).
    rewrite Hcreate. exists text, w'. split; [reflexivity|]. intros Htm.
    unfold icoraintent_create_cloud_intent, catch, bind, global_token_manager in Hcreate.
    cbn [w_token_manager] in Hcreate. rewrite Htm in Hcreate.
    injection Hcreate as <- <-. cbn. auto.
  - split; [intros Hbinds; destruct (Hnot Hbinds)|]. intros _. reflexivity.
Qed.

End CreateTool.

(** * The theorems at the services of the examples *)

Section Examples.

Local Abbreviation configure_tool :=
  (configure_from_arguments example_exn_text "https://mock" "test-client"
     "test-secret" "test-user" "test-password").
Local Abbreviation test_tool :=
  (icoraintent_test_cloud_auth example_clock unreachable_http example_exn_text
     example_value_text).
Local Abbreviation create_tool :=
  (create_from_arguments example_clock unreachable_http example_exn_text
     example_value_text example_json_dumps).
Local Abbreviation connectivity_tool :=
  (fun w : world =>
     (fst (check_cloud_connectivity unreachable_get example_exn_text "https://mock"
             (w_base_url w) []), w)).
Local Abbreviation health_tool :=
  (fun w : world => (Ok (cloud_health_check "https://mock" (w_base_url w)), w)).
Local Abbreviation list_tool := (@ret world string list_cloud_tools).
Local Abbreviation base_url := (fun w : world => JStr (w_base_url w)).
Local Abbreviation utcnow := (fun _ : world => "2025-06-11T10:00:00").

(** X9 at an authentication test through the entry point, on a module
    that is not configured: status 200, and the "not configured" answer as
    the text. *)
Lemma tools_call_answers_witness :
  example_server
    (post_request (tools_call (JInt 7) (JStr "icoraintent_test_cloud_auth") (JObj [])))
    blank_world
  = (Ok (rpc_result (JInt 7) not_configured_text), blank_world).
Proof.
  unfold example_server, mcp_server.
  rewrite (tools_call_answers _ _ _ _ _ _ _ _ _ _ _ _
             (post_request (tools_call (JInt 7) (JStr "icoraintent_test_cloud_auth")
                              (JObj [])))
             [ ("jsonrpc", JStr "2.0"); ("id", JInt 7); ("method", JStr "tools/call");
               ("params", JObj [ ("name", JStr "icoraintent_test_cloud_auth");
                                 ("arguments", JObj []) ]) ]
             [ ("name", JStr "icoraintent_test_cloud_auth"); ("arguments", JObj []) ]
             (JStr "icoraintent_test_cloud_auth") blank_world
             eq_refl eq_refl eq_refl eq_refl eq_refl).
  reflexivity.
Defined.

(** X11 at a body that is a JSON list. *)
Lemma malformed_posts_witness :
  example_server {| rq_method := "POST"; rq_path := "/"; rq_json := Ok (JArr []) |}
    blank_world
  = (Ok (internal_server_error example_exn_text AttributeError), blank_world).
Proof.
  unfold example_server, mcp_server.
  eapply (malformed_posts _ _ _ _ _ _ _ _ _ _ _ _
            {| rq_method := "POST"; rq_path := "/"; rq_json := Ok (JArr []) |}
            _ eq_refl).
  - reflexivity.
  - intros fields. discriminate.
Defined.

(** X14 at the manager of the examples: the token of the mock, for an hour
    less thirty seconds. *)
Lemma refresh_against_the_mock_witness :
  _refresh_access_token example_clock mock_token_http example_exn_text
    (new_manager example_config, no_io)
  = (Ok tt,
     ({| auth_config := example_config;
         token := JStr "cloud_mock_token_0123456789abcdef";
         token_expiry := Some (seconds 4570) |},
      {| io_reads := 1; io_log := [token_request example_config] |})).
Proof.
  apply (refresh_against_the_mock example_clock mock_token_http example_exn_text
           example_outside "mock" "{}" (new_manager example_config) no_io).
  - reflexivity.
  - unfold example_clock, seconds, datetime_range. cbn. lia.
Defined.

(** X15 at the module of the examples: the check finds the two mappings of
    the mock's entry point. *)
Lemma connectivity_against_the_mock_witness :
  check_cloud_connectivity mock_pages example_exn_text "https://mock" "" []
  = (Ok (check_mark
         +:+ " Cloud WireMock function fully accessible! 2 mappings loaded at https://mock"),
     [ "https://mock/health"; "https://mock/__admin/mappings" ]).
Proof.
  apply (connectivity_against_the_mock example_exn_text mock_pages example_outside
           example_outside "mock" "{}" "{}" "https://mock" "" []); reflexivity.
Defined.

(** X16 at an intent the mock creates: the location it hands out is
    answered 404. *)
Lemma created_intents_are_not_served_witness :
  WiremockRoutes.icoraintent_wiremock_function creating_outside example_exn_text
    create_intent_request
  = Ok {| Wiremock.reply_body :=
            JObj [ ("id", JStr "intent-0123456789"); ("status", JStr "created") ];
          Wiremock.reply_status := 201;
          Wiremock.reply_headers :=
            [ ("Location", "https://mock/intent/intent-0123456789") ] |}
  /\ WiremockRoutes.icoraintent_wiremock_function example_outside example_exn_text
       get_intent_request
     = Ok (WiremockRoutes.plain
             (JObj [ ("error", JStr "not_found");
                     ("error_description",
                      JStr "Endpoint not found: GET /intent/intent-0123456789") ])
             404).
Proof.
  apply (created_intents_are_not_served example_exn_text creating_outside
           example_outside create_intent_request get_intent_request
           "cloud_mock_token_1"
           (JObj [ ("id", JStr "intent-0123456789"); ("status", JStr "created") ])
           "intent-0123456789"); reflexivity.
Defined.

(** X17 at the identifier of the examples. *)
Lemma new_intent_ids_are_found_witness :
  exists body,
    WiremockRoutes.get_intent_route "2025-06-11T10:00:00Z" "/intent/intent-0123456789"
      "intent-0123456789"
    = WiremockRoutes.plain body 200
    /\ assoc "id" (json_fields body) = Some (JStr "intent-0123456789")
    /\ assoc "_links" (json_fields body)
       = Some (JObj [ ("self",
                       JObj [ ("href",
                               JStr "https://cloud-function-url/intent/intent-0123456789") ]) ]).
Proof.
  apply (new_intent_ids_are_found "2025-06-11T10:00:00Z" "/intent/intent-0123456789"
           "0123456789abcdef0123456789abcdef"). reflexivity.
Defined.

(** X20 on a module that is not configured: the create tool answers "not
    configured", and the agent reports a success. *)
Lemma agent_reports_created_witness :
  exists answer w1,
    create_network_intent world (entry_point_post example_server example_json_dumps)
      (ret example_day) example_exn_text example_value_text
      (JStr "Match day") (JStr "Stadium broadcast") (JStr "EventLiveBroadcast")
      (JStr "") (JStr "") (JInt 1000) (JStr "HD") (JInt 0) (JInt 0) blank_world
    = (Ok answer, w1)
    /\ assoc "status" (json_fields answer) = Some (JStr "success")
    /\ assoc "intent_id" (json_fields answer) = Some (JStr "Match day")
    /\ assoc "mcp_result" (json_fields answer)
       = Some (tool_succeeded (JStr not_configured_text)).
Proof.
  unfold example_server, mcp_server.
  destruct (agent_reports_created world configure_tool test_tool create_tool
              connectivity_tool health_tool list_tool base_url "https://mock" utcnow
              example_exn_text
              example_value_text example_json_dumps (ret example_day)
              (JStr "Match day") (JStr "Stadium broadcast") (JStr "EventLiveBroadcast")
              (JStr "") (JStr "") (JInt 1000) (JStr "HD") (JInt 0) (JInt 0)
              blank_world example_day blank_world eq_refl)
    as (answer & w1 & Hrun & Hanswer).
  exists answer, w1. split; [exact Hrun|].
  destruct Hanswer as (_ & Hstatus & Hid & Hresult). auto.
Defined.

(** X21 in front of a backend that cannot be reached: the create tool
    answers with an error text, and the workflow test passes. *)
Lemma workflow_test_passes_on_any_text_witness :
  exists text w2 w3,
    create_from_arguments example_clock unreachable_http example_exn_text
      example_value_text example_json_dumps
      (intent_arguments (JStr "TestIntent") (JStr "Test workflow intent")
         (JStr "EventLiveBroadcast") example_day) w2
    = (Ok text, w3)
    /\ is_error_text text = true
    /\ test_mcp_workflow world (entry_point_post example_server example_json_dumps)
         (fun _ => entry_point_get example_server example_json_dumps "/health")
         (ret example_day) "https://mcp" "https://mock" example_exn_text
         example_value_text blank_world
       = (Ok workflow_passed, w3).
Proof.
  destruct (configure_from_arguments example_exn_text "https://mock" "test-client"
              "test-secret" "test-user" "test-password"
              (auth_arguments "https://mock") blank_world)
    as [r1 w1] eqn:Hconfigure.
  vm_compute in Hconfigure. injection Hconfigure as <- <-.
  match type of I with
  | _ =>
      destruct (create_from_arguments example_clock unreachable_http example_exn_text
                  example_value_text example_json_dumps
                  (intent_arguments (JStr "TestIntent") (JStr "Test workflow intent")
                     (JStr "EventLiveBroadcast") example_day)
                  {| w_heap := []; w_io := no_io;
                     w_token_manager :=
                       Some (new_manager
                               (configured "https://mock" "test-client" "test-secret"
                                  "test-user" "test-password" None));
                     w_base_url := "https://mock" |})
        as [r2 w3] eqn:Hcreate
  end.
  assert (Htext : exists text, r2 = Ok text /\ is_error_text text = true).
  { replace r2 with (fst (r2, w3)) by reflexivity. rewrite <- Hcreate.
    eexists. split; vm_compute; reflexivity. }
  destruct Htext as (text & -> & Herror).
  eexists text, _, w3. split; [exact Hcreate|]. split; [exact Herror|].
  unfold example_server, mcp_server.
  eapply (workflow_test_passes_on_any_text world configure_tool test_tool create_tool
            connectivity_tool health_tool list_tool base_url "https://mock" utcnow
            example_exn_text example_value_text example_json_dumps (ret example_day)
            "https://mcp" "https://mock" _ blank_world);
    [reflexivity| |reflexivity|exact Hcreate].
  reflexivity.
Defined.

(** X22 at a call that leaves out the name: the call itself fails. *)
Lemma create_call_needs_its_arguments_witness :
  example_server
    (post_request (tools_call (JInt 3) (JStr "icoraintent_create_cloud_intent")
                     (JObj [ ("description", JStr "no name") ])))
    blank_world
  = (Ok (rpc_internal_error example_exn_text (JInt 3) TypeError), blank_world).
Proof.
  unfold example_server, mcp_server.
  eapply (create_call_needs_its_arguments example_clock unreachable_http
            example_exn_text example_value_text example_json_dumps configure_tool
            test_tool connectivity_tool health_tool list_tool base_url "https://mock"
            utcnow
            (post_request (tools_call (JInt 3) (JStr "icoraintent_create_cloud_intent")
                             (JObj [ ("description", JStr "no name") ])))
            _ _ _ blank_world eq_refl eq_refl eq_refl eq_refl eq_refl eq_refl).
  intros (given & [= <-] & _ & [name Hname] & _). discriminate Hname.
Defined.

End Examples.

(** * The keys of the builder's argument and of its payload *)

Lemma getitem_missing a args k (h : list pyobj) :
  h !! a = Some (ODict args) ->
  assoc k args = None ->
  Store.getitem (VRef a) k h = (Raise (KeyError k), h).
Proof. intros Ha Hk. unfold Store.getitem. rewrite Ha, Hk. reflexivity. Qed.

(** X23: the builder needs three keys and no more.  Without [name],
    [description] or [deliveryExpectations] it raises a [KeyError] for the
    first of them that is missing, before it has built anything; with the
    three, and a store without dangling references, a dict that has no
    other key gets a payload of exactly the four mandatory entries. *)
Theorem builder_requires_three_keys (h : list pyobj) a args :
  h !! a = Some (ODict args) ->
  (assoc "name" args = None ->
   _build_cloud_intent_payload (VRef a) h = (Raise (KeyError "name"), h))
  /\ (is_Some (assoc "name" args) -> assoc "description" args = None ->
      _build_cloud_intent_payload (VRef a) h = (Raise (KeyError "description"), h))
  /\ (is_Some (assoc "name" args) -> is_Some (assoc "description" args) ->
      assoc "deliveryExpectations" args = None ->
      _build_cloud_intent_payload (VRef a) h
      = (Raise (KeyError "deliveryExpectations"), h))
  /\ (closed h = true ->
      is_Some (assoc "name" args) -> is_Some (assoc "description" args) ->
      is_Some (assoc "deliveryExpectations" args) ->
      assoc "validFor" args = None -> assoc "propertyExpectations" args = None ->
      assoc "intentType" args = None ->
      _build_cloud_intent_payload (VRef a) h
      = (Ok (VRef (length h)),
         h ++ [ODict [ ("name", arg args "name");
                       ("description", arg args "description");
                       ("type", VStr "Intent");
                       ("deliveryExpectations", arg args "deliveryExpectations") ]])).
Proof.
  intros Ha. repeat split.
  - intros Hname. unfold _build_cloud_intent_payload.
    erewrite bind_raise by (eapply getitem_missing; eauto). reflexivity.
  - intros [name Hname] Hdesc. unfold _build_cloud_intent_payload.
    erewrite bind_ok by (eapply getitem_ok; eauto).
    erewrite bind_raise by (eapply getitem_missing; eauto). reflexivity.
  - intros [name Hname] [description Hdesc] Hde. unfold _build_cloud_intent_payload.
    do 2 (erewrite bind_ok by (eapply getitem_ok; eauto)).
    erewrite bind_raise by (eapply getitem_missing; eauto). reflexivity.
  - intros Hc Hname Hdesc Hde Hvf Hpe Hit.
    apply (build_ok h a args); try assumption.
    assert (Hplain : first_entries h args
                     = [ ("name", arg args "name");
                         ("description", arg args "description");
                         ("type", VStr "Intent");
                         ("deliveryExpectations", arg args "deliveryExpectations") ]).
    { unfold first_entries, copied, arg. rewrite Hvf, Hpe. reflexivity. }
    rewrite <- Hplain. apply built_plain.
    unfold is_elb, arg. rewrite Hit. reflexivity.
Qed.

(** X24: what a payload can contain.  Every payload the builder returns
    starts with [name], [description], [type] and [deliveryExpectations],
    where [type] is always ["Intent"]; its other keys are among
    [validFor], [propertyExpectations] and [expression], and no key
    occurs twice.  The [intentType] and the [serviceArea] of the request
    are never keys of the payload. *)
Theorem payload_keys_are_fixed (h : list pyobj) a args p h' :
  closed h = true ->
  h !! a = Some (ODict args) ->
  _build_cloud_intent_payload (VRef a) h = (Ok p, h') ->
  exists entries,
    is_dict h' p entries
    /\ take 4 entries
       = [ ("name", arg args "name");
           ("description", arg args "description");
           ("type", VStr "Intent");
           ("deliveryExpectations", arg args "deliveryExpectations") ]
    /\ Forall (fun k => k ∈ payload_keys) (map fst entries)
    /\ NoDup (map fst entries)
    /\ assoc "intentType" entries = None
    /\ assoc "serviceArea" entries = None.
Proof.
  intros Hc Ha Hrun.
  destruct (build_inv _ _ _ _ _ Hc Ha Hrun) as (Hb & _).
  assert (Hkeys : forall more,
             (more = [] \/ more = ["expression"]
              \/ (more = ["expression"; "propertyExpectations"]
                  /\ truthy_in h (arg args "propertyExpectations") = Some false)) ->
             forall values,
               map fst values = more ->
               let entries := first_entries h args ++ values in
               take 4 entries
               = [ ("name", arg args "name");
                   ("description", arg args "description");
                   ("type", VStr "Intent");
                   ("deliveryExpectations", arg args "deliveryExpectations") ]
               /\ Forall (fun k => k ∈ payload_keys) (map fst entries)
               /\ NoDup (map fst entries)
               /\ assoc "intentType" entries = None
               /\ assoc "serviceArea" entries = None).
  { intros more Hmore values Hvalues entries. subst entries.
    split; [reflexivity|].
    assert (Hfirst : exists optional,
               map fst (first_entries h args)
               = ["name"; "description"; "type"; "deliveryExpectations"] ++ optional
               /\ (optional = [] \/ optional = ["validFor"]
                   \/ (optional = ["propertyExpectations"]
                       /\ truthy_in h (arg args "propertyExpectations") = Some true)
                   \/ (optional = ["validFor"; "propertyExpectations"]
                       /\ truthy_in h (arg args "propertyExpectations") = Some true))).
    { unfold first_entries, copied.
      destruct (truthy_in h (arg args "validFor")) as [[|]|];
        destruct (truthy_in h (arg args "propertyExpectations")) as [[|]|];
        eexists; (split; [reflexivity|]); auto. }
    destruct Hfirst as (optional & Hfirst & Hoptional).
    assert (Hall : map fst (first_entries h args ++ values)
                   = ["name"; "description"; "type"; "deliveryExpectations"]
                       ++ optional ++ more).
    { rewrite map_app, Hfirst, Hvalues, <- app_assoc. reflexivity. }
    assert (Hnone : forall k, k ∉ map fst (first_entries h args ++ values) ->
                              assoc k (first_entries h args ++ values) = None).
    { intros k. generalize (first_entries h args ++ values).
      induction l as [|[k' v] l IH]; [reflexivity|]. cbn.
      rewrite not_elem_of_cons. intros [Hk Hl].
      apply String.eqb_neq in Hk. rewrite Hk. apply IH, Hl. }
    assert (Hcases : (optional ++ more) ∈
               [ []; ["expression"]; ["validFor"]; ["validFor"; "expression"];
                 ["validFor"; "expression"; "propertyExpectations"];
                 ["expression"; "propertyExpectations"];
                 ["propertyExpectations"]; ["propertyExpectations"; "expression"];
                 ["validFor"; "propertyExpectations"];
                 ["validFor"; "propertyExpectations"; "expression"] ]).
    { destruct Hoptional as [->|[->|[(-> & Hpe)|(-> & Hpe)]]];
        destruct Hmore as [->|[->|(-> & Hpe')]];
        try (rewrite Hpe in Hpe'; discriminate Hpe');
        cbn [app]; in_list. }
    rewrite Hall in Hnone |- *. clear Hall Hfirst Hvalues Hoptional Hmore.
    revert Hnone Hcases. generalize (optional ++ more). intros keys Hnone Hcases.
    rewrite !elem_of_cons in Hcases.
    assert (Hdec : forall l : list string, NoDup l <-> bool_decide (NoDup l) = true)
      by (intros l; symmetry; apply bool_decide_eq_true).
    assert (Hfa : forall l : list string,
               Forall (fun k => k ∈ payload_keys) l
               <-> forallb (fun k => bool_decide (k ∈ payload_keys)) l = true)
      by (intros l; symmetry; apply forallb_decide).
    repeat (destruct Hcases as [->|Hcases]);
      try (apply elem_of_nil in Hcases; destruct Hcases);
      (split; [apply Hfa; reflexivity|]);
      (split; [apply Hdec; reflexivity|]);
      (split; apply Hnone; apply (bool_decide_eq_false_1 _); reflexivity). }
  destruct Hb as [Helb | Helb Hsa | pts coords lpe items Helb Hsa Hlist Hcoords Hpe Hitems Hne
                 | pts coords Helb Hsa Hlist Hcoords Hpe].
  - exists (first_entries h args ++ []). split.
    + eexists. split; [reflexivity|]. rewrite app_nil_r. apply lookup_fresh0.
    + apply (Hkeys []); auto.
  - eexists (first_entries h args ++ [_]). split.
    + eexists. split; [reflexivity|]. apply lookup_fresh0.
    + apply (Hkeys ["expression"]); auto.
  - eexists (first_entries h args ++ [_]). split.
    + eexists. split; [reflexivity|]. apply lookup_payload, length_insert.
    + apply (Hkeys ["expression"]); auto.
  - eexists (first_entries h args ++ [_; _]). split.
    + eexists. split; [reflexivity|]. apply lookup_fresh0.
    + apply (Hkeys ["expression"; "propertyExpectations"]); auto.
Qed.

Lemma builder_requires_three_keys_witness :
  _build_cloud_intent_payload (VRef 1) (request_store nameless_request)
  = (Raise (KeyError "name"), request_store nameless_request)
  /\ _build_cloud_intent_payload (VRef 1) (request_store minimal_request)
     = (Ok (VRef 2),
        request_store minimal_request
          ++ [ODict [ ("name", VStr "Match day");
                      ("description", VStr "Stadium broadcast");
                      ("type", VStr "Intent");
                      ("deliveryExpectations", VRef 0) ]]).
Proof.
  split.
  - apply (proj1 (builder_requires_three_keys (request_store nameless_request) 1
                    (request_args nameless_request) eq_refl)).
    reflexivity.
  - apply (proj2 (proj2 (proj2
             (builder_requires_three_keys (request_store minimal_request) 1
                (request_args minimal_request) eq_refl))));
      try reflexivity; eexists; reflexivity.
Defined.

Lemma payload_keys_are_fixed_witness :
  exists p h' entries,
    _build_cloud_intent_payload (request_ref broadcast_request)
      (request_store broadcast_request) = (Ok p, h')
    /\ is_dict h' p entries
    /\ take 4 entries
       = [ ("name", arg (request_args broadcast_request) "name");
           ("description", arg (request_args broadcast_request) "description");
           ("type", VStr "Intent");
           ("deliveryExpectations",
            arg (request_args broadcast_request) "deliveryExpectations") ]
    /\ Forall (fun k => k ∈ payload_keys) (map fst entries)
    /\ NoDup (map fst entries)
    /\ assoc "intentType" entries = None
    /\ assoc "serviceArea" entries = None.
Proof.
  destruct (_build_cloud_intent_payload (request_ref broadcast_request)
              (request_store broadcast_request))
    as [[p|e] h'] eqn:Hrun; [|vm_compute in Hrun; discriminate Hrun].
  destruct (payload_keys_are_fixed (request_store broadcast_request) 5
              (request_args broadcast_request) p h' eq_refl eq_refl Hrun)
    as (entries & Hfacts).
  exists p, h', entries. split; [reflexivity|]. exact Hfacts.
Defined.

(** * The create tool and the mock's intent endpoint *)

Section CreateAgainstTheMock.
Import Wiremock WiremockRoutes.

Variable clock : nat -> datetime.
Variable http : nat -> http_request -> http_outcome.
Variable exn_text : exn -> string.
Variable value_text : json -> string.
Variable json_dumps_indent2 : json -> string.

Local Abbreviation create :=
  (icoraintent_create_cloud_intent clock http exn_text value_text json_dumps_indent2).

(** What the tool makes of the answer of the mock's entry point to its
    intent request. *)
Lemma mock_answers_the_intent (o : outside) host wire url tok body :
  exists r,
    mock_post o exn_text host "/intent/" wire (intent_request value_text url tok body)
    = Response r
    /\ intent_answer_text exn_text json_dumps_indent2 r
       = match created o with
         | inr (response_data, id) =>
             intent_created_text json_dumps_indent2
               ("https://" +:+ host +:+ "/intent/" +:+ id) (sort_keys response_data)
         | inl _ => intent_failed_text 400 wire
         end.
Proof.
  unfold mock_post, icoraintent_wiremock_function.
  cbn [fr_decodes fr_path fr_method fr_headers fr_host].
  rewrite intent_request_authorization.
  assert (Hmiss : bearer_missing (Some ("Bearer " +:+ format_value value_text tok)) = false).
  { unfold bearer_missing, startswith. rewrite prefix_append. reflexivity. }
  unfold create_intent_branch. rewrite Hmiss.
  destruct (created o) as [description|[response_data id]]; eexists; split;
    reflexivity.
Qed.

(** X25: the create tool and the mock's intent endpoint fit together.
    When the intent requests of a configured call are answered by the
    entry point of the mock, the call either sends no intent request, or
    sends one and answers as the mock decided: with the success text that
    shows the address [https://<host>/intent/<id>] of the new intent (the
    mock's [Location] header, read back whatever its case) and the body of
    the mock with its keys sorted, as Flask writes it, or with the failure
    text for status 400 when the mock rejected the payload.  The mock
    never answers 401 to the tool. *)
Theorem create_against_the_mock (o : nat -> outside) (host : string)
    (wire : nat -> string) (w : world) mgr
    (name description intentType deliveryExpectations serviceArea validFor
       propertyExpectations : pyval) res w' :
  w_token_manager w = Some mgr ->
  (forall n tok body,
      http n (intent_request value_text (w_base_url w +:+ "/intent/") tok body)
      = mock_post (o n) exn_text host "/intent/" (wire n)
          (intent_request value_text (w_base_url w +:+ "/intent/") tok body)) ->
  create name description intentType deliveryExpectations serviceArea validFor
    propertyExpectations w = (res, w') ->
  exists grants,
    Forall is_form grants
    /\ (io_log (w_io w') = io_log (w_io w) ++ grants
        \/ exists tok body,
            io_log (w_io w')
            = io_log (w_io w) ++ grants
                ++ [intent_request value_text (w_base_url w +:+ "/intent/") tok body]
            /\ res
               = Ok match created (o (length (io_log (w_io w) ++ grants))) with
                    | inr (response_data, id) =>
                        intent_created_text json_dumps_indent2
                          ("https://" +:+ host +:+ "/intent/" +:+ id)
                          (sort_keys response_data)
                    | inl _ =>
                        intent_failed_text 400
                          (wire (length (io_log (w_io w) ++ grants)))
                    end).
Proof.
  intros Htm Hmock Hcall.
  destruct (create_run clock http exn_text value_text json_dumps_indent2
              w mgr name description intentType deliveryExpectations serviceArea
              validFor propertyExpectations res w' Htm Hcall)
    as (grants & Hforms & [Hlog|(de & h1 & tok & p & h2 & body & _ & _ & _ & Hlog & Hres)]).
  - exists grants. auto.
  - exists grants. split; [exact Hforms|]. right. exists tok, body.
    split; [exact Hlog|].
    rewrite Hmock in Hres.
    destruct (mock_answers_the_intent (o (length (io_log (w_io w) ++ grants))) host
                (wire (length (io_log (w_io w) ++ grants)))
                (w_base_url w +:+ "/intent/") tok body) as (r & Hr & Htext).
    rewrite Hr in Hres. rewrite Htext in Hres. exact Hres.
Qed.

End CreateAgainstTheMock.

(** X25 at the call of the examples, against the mock behind
    [https://mock]: the grant and the intent request are sent, and the
    answer shows the address of [intent-0123456789] and the fields of the
    mock's body, which the mock returned in the order [id], [name],
    [description], [type], [status], in the order of their keys. *)
Lemma create_against_the_mock_witness :
  exists grants tok body,
    Forall is_form grants
    /\ io_log (w_io (snd (icoraintent_create_cloud_intent example_clock mock_backend
                            example_exn_text example_value_text keys_in_order
                            (VStr "Match day") (VStr "Stadium broadcast")
                            (VStr "EventLiveBroadcast") VNone VNone VNone VNone
                            configured_world)))
       = grants ++ [intent_request example_value_text "https://mock/intent/" tok body]
    /\ fst (icoraintent_create_cloud_intent example_clock mock_backend
              example_exn_text example_value_text keys_in_order
              (VStr "Match day") (VStr "Stadium broadcast")
              (VStr "EventLiveBroadcast") VNone VNone VNone VNone
              configured_world)
       = Ok (check_mark +:+ " Cloud intent created successfully!" +:+ newline
             +:+ pin_mark +:+ " Location: https://mock/intent/intent-0123456789"
             +:+ newline
             +:+ page_mark +:+ " Response: description,id,name,status,type").
Proof.
  destruct (icoraintent_create_cloud_intent example_clock mock_backend
              example_exn_text example_value_text keys_in_order
              (VStr "Match day") (VStr "Stadium broadcast")
              (VStr "EventLiveBroadcast") VNone VNone VNone VNone
              configured_world) as [res w'] eqn:Hcall.
  destruct (create_against_the_mock example_clock mock_backend example_exn_text
              example_value_text keys_in_order
              (fun _ => declaring_outside) "mock" (fun _ => "{}")
              configured_world (new_manager example_config)
              (VStr "Match day") (VStr "Stadium broadcast")
              (VStr "EventLiveBroadcast") VNone VNone VNone VNone res w'
              eq_refl (fun n tok body => eq_refl) Hcall)
    as (grants & Hforms & [Hlog|(tok & body & Hlog & Hres)]).
  - exfalso.
    assert (Hlast : exists req payload, last (io_log (w_io w')) = Some req
                                        /\ req_body req = Json payload).
    { replace w' with (snd (icoraintent_create_cloud_intent example_clock mock_backend
              example_exn_text example_value_text keys_in_order
              (VStr "Match day") (VStr "Stadium broadcast")
              (VStr "EventLiveBroadcast") VNone VNone VNone VNone
              configured_world)) by (rewrite Hcall; reflexivity).
      vm_compute. eexists _, _. split; reflexivity. }
    destruct Hlast as (req & payload & Hlast & Hjson).
    change (io_log (w_io w') = grants) in Hlog. rewrite Hlog in Hlast.
    apply last_Some in Hlast as (front & ->).
    apply Forall_app in Hforms as [_ Hreq].
    apply Forall_cons in Hreq as [Hreq _].
    destruct Hreq as (data & Hdata). rewrite Hjson in Hdata. discriminate Hdata.
  - exists grants, tok, body. split; [exact Hforms|]. split; [exact Hlog|].
    exact Hres.
Defined.

(** * The JSON-RPC endpoint of the agent service *)

Section AgentServiceFacts.
Import AgentService.

Variable S : Type.
Variable exn_text : exn -> string.
Variable process_jsonrpc_message : json -> json -> S -> (raised + json) * S.

Local Abbreviation endpoint := (jsonrpc_endpoint S exn_text process_jsonrpc_message).
Local Abbreviation parse := (parse_jsonrpc_message exn_text).

(** What [parse_jsonrpc_message] accepts, and what it makes of it. *)
Lemma parse_well_formed (request_data : json) :
  (well_formed request_data
   /\ exists fields id method,
        request_data = JObj fields
        /\ assoc "id" fields = Some id /\ assoc "method" fields = Some method
        /\ parse request_data
           = inr {| p_id := id; p_method := method;
                    p_params := default (JObj []) (assoc "params" fields) |})
  \/ (~ well_formed request_data
      /\ exists detail,
           parse request_data = inl ("Invalid JSON-RPC message format: " +:+ detail)).
Proof.
  destruct request_data as [| | | | |fields];
    try (right; split; [intros (fields & [=] & _)|eexists; reflexivity]).
  unfold parse_jsonrpc_message.
  destruct (assoc "jsonrpc" fields) as [version|] eqn:Hv.
  2:{ right. split; [|eexists; reflexivity].
      intros (f & [= <-] & Hversion & _). rewrite Hv in Hversion. discriminate Hversion. }
  destruct (json_eq_str version "2.0") eqn:Heq; cbn [negb].
  2:{ right. split; [|eexists; reflexivity].
      intros (f & [= <-] & Hversion & _). rewrite Hv in Hversion.
      injection Hversion as ->. discriminate Heq. }
  assert (version = JStr "2.0") as ->.
  { destruct version; try discriminate Heq. apply String.eqb_eq in Heq. congruence. }
  destruct (assoc "id" fields) as [id|] eqn:Hid.
  2:{ right. split; [|eexists; reflexivity].
      intros (f & [= <-] & _ & [x Hx] & _). rewrite Hid in Hx. discriminate Hx. }
  destruct (assoc "method" fields) as [method|] eqn:Hm.
  2:{ right. split; [|eexists; reflexivity].
      intros (f & [= <-] & _ & _ & [x Hx]). rewrite Hm in Hx. discriminate Hx. }
  left. split.
  - exists fields. rewrite Hid, Hm. eauto.
  - exists fields, id, method. auto.
Qed.

(** A body that is JSON is answered, with status 200. *)
Lemma json_bodies_get_200 (request : service_request) (request_data : json) (s : S) :
  sr_json request = Ok request_data ->
  exists answer s', endpoint request s = (inr (answer, 200%Z), s').
Proof.
  intros Hjson. unfold jsonrpc_endpoint. rewrite Hjson.
  destruct (parse request_data) as [msg|parsed].
  - destruct (bool_decide (sr_content_type request = Some "application/json"));
      eexists _, _; reflexivity.
  - destruct (process_jsonrpc_message _ _ s) as [[e|result] s1];
      eexists _, _; reflexivity.
Qed.



End AgentServiceFacts.

